(** * editlogo: the vector-path-to-solid pipeline

    A shallow embedding of the path parser ([AdvancedSVGPathParser],
    [analyzeShape], [processAdvancedSVGFile] of advancedSvgProcessor.ts), of
    the simple parser [parseSVGPath] and its processor ([processSVGPaths],
    [processSVGFile]), of the detail planner ([analyzeShapeForZoom],
    [createProgressiveDetailLevels] of detailedShapeConverter.ts), of the
    settings and the materials of enhancedGeometryCreator.ts, and of the
    colours, the materials and [enhanceShapeSegments] of
    improvedSvgProcessor.ts; the properties of the specification checked
    against them, and further properties of the code.

    Modelling choices.
    - A JavaScript number is an exact rational, an infinity or NaN ([num]).
      Rounding to binary64 and the sign of zero are outside the model.
    - A string is a sequence of bytes; the white space of a regular
      expression's [\s] is its ASCII part, and so are the letters
      [toLowerCase] changes.
    - three.js is a collaborator.  A [THREE.Shape] is the sequence of drawing
      calls the parser makes on it; the point [i] of [curve.getPoints(n)] is
      kept as the term [Sampled curve n i], and an angle as the term
      [Math_atan2 y x]: the trigonometry is never evaluated.
      [Shape.getPoints] and [Vector2.length] are parameters of the
      definitions that call them.  Of what three.js throws, the
      [TypeError] of [closePath] on a shape that has no curve yet is
      modelled: [closePath] reads [this.curves[0]], and only [lineTo] adds a
      curve.  The path parsers and processors have no [throw] of their own;
      the [Error] of [createExtrudeGeometry] and the [TypeError] of reading a
      property of null, or of calling what is not there, are modelled where
      the code can meet them.
    - The console is not modelled. *)

From Stdlib Require Import QArith ZArith List String Ascii Bool Lia Lqa.
From Stdlib Require Import Qround Qreduction.
From Stdlib Require Import DecimalString.
Import ListNotations.

Set Implicit Arguments.

(* ================================================================== *)
(** * JavaScript numbers *)

Module JS.

Inductive num : Type :=
| Fin (q : Q)
| PInf
| NInf
| NaN.

Declare Scope num_scope.
Delimit Scope num_scope with num.
Bind Scope num_scope with num.

(** Every arithmetic result is stored in lowest terms, so that two results
    are equal as terms exactly when they are equal as numbers. *)
Definition fin (q : Q) : num := Fin (Qred q).

Definition ofZ (z : Z) : num := Fin (inject_Z z).
Definition ofNat (n : nat) : num := ofZ (Z.of_nat n).

(** Integer literals: [10%num] is [Fin (10 # 1)]. *)
Definition toZ (a : num) : option Z :=
  match a with
  | Fin (Qmake n 1) => Some n
  | _ => None
  end.

Number Notation num ofZ toZ : num_scope.

(** Numeric equality of two model values (not JavaScript's [===]: here NaN is
    the same value as NaN). *)
Definition same (a b : num) : Prop :=
  match a, b with
  | Fin x, Fin y => x == y
  | PInf, PInf | NInf, NInf | NaN, NaN => True
  | _, _ => False
  end.

Definition Qltb (x y : Q) : bool := negb (Qle_bool y x).

(** The infinity of the sign of [x], NaN for zero: [x * Infinity]. *)
Definition signedInf (x : Q) (positive : num) (negative : num) : num :=
  match x ?= 0 with
  | Eq => NaN
  | Gt => positive
  | Lt => negative
  end.

Definition add (a b : num) : num :=
  match a, b with
  | NaN, _ | _, NaN => NaN
  | Fin x, Fin y => fin (x + y)
  | PInf, NInf | NInf, PInf => NaN
  | PInf, _ | _, PInf => PInf
  | NInf, _ | _, NInf => NInf
  end.

Definition sub (a b : num) : num :=
  match a, b with
  | NaN, _ | _, NaN => NaN
  | Fin x, Fin y => fin (x - y)
  | PInf, PInf | NInf, NInf => NaN
  | PInf, _ | _, NInf => PInf
  | NInf, _ | _, PInf => NInf
  end.

Definition mul (a b : num) : num :=
  match a, b with
  | NaN, _ | _, NaN => NaN
  | Fin x, Fin y => fin (x * y)
  | Fin x, PInf | PInf, Fin x => signedInf x PInf NInf
  | Fin x, NInf | NInf, Fin x => signedInf x NInf PInf
  | PInf, PInf | NInf, NInf => PInf
  | PInf, NInf | NInf, PInf => NInf
  end.

Definition div (a b : num) : num :=
  match a, b with
  | NaN, _ | _, NaN => NaN
  | Fin x, Fin y => if Qeq_bool y 0 then signedInf x PInf NInf else fin (x / y)
  | Fin _, (PInf | NInf) => Fin 0
  | PInf, Fin y => if Qltb y 0 then NInf else PInf
  | NInf, Fin y => if Qltb y 0 then PInf else NInf
  | (PInf | NInf), (PInf | NInf) => NaN
  end.

(** [a < b]; false as soon as one side is NaN. *)
Definition ltb (a b : num) : bool :=
  match a, b with
  | NaN, _ | _, NaN => false
  | Fin x, Fin y => Qltb x y
  | NInf, NInf => false
  | NInf, _ => true
  | _, NInf => false
  | PInf, _ => false
  | Fin _, PInf => true
  end.

(** [a > b]. *)
Definition gtb (a b : num) : bool := ltb b a.

(** [a !== b]. *)
Definition strictNe (a b : num) : bool :=
  match a, b with
  | Fin x, Fin y => negb (Qeq_bool x y)
  | PInf, PInf | NInf, NInf => false
  | _, _ => true
  end.

Definition Math_max (a b : num) : num :=
  match a, b with
  | NaN, _ | _, NaN => NaN
  | _, _ => if ltb a b then b else a
  end.

Definition Math_min (a b : num) : num :=
  match a, b with
  | NaN, _ | _, NaN => NaN
  | _, _ => if ltb b a then b else a
  end.

Definition Math_floor (a : num) : num :=
  match a with
  | Fin x => ofZ (Qfloor x)
  | _ => a
  end.

(** [Math.PI]: the binary64 number nearest to pi. *)
Definition Math_PI : num := Fin (884279719003555 # 281474976710656).

(** [Math.atan2(y, x)], unevaluated. *)
Inductive angle : Type :=
| Math_atan2 (y x : num).

Infix "+" := add : num_scope.
Infix "-" := sub : num_scope.
Infix "*" := mul : num_scope.
Infix "/" := div : num_scope.

End JS.

Import JS.

(* ================================================================== *)
(** * Strings: the pieces of [String.prototype] and [RegExp] the parser uses *)

Module Str.

Open Scope char_scope.

Definition charIn (set : string) (c : ascii) : bool :=
  existsb (Ascii.eqb c) (list_ascii_of_string set).

(** The character class [[MmLlHhVvCcSsQqTtAaZz]]. *)
Definition isCommandLetter (c : ascii) : bool :=
  charIn "MmLlHhVvCcSsQqTtAaZz" c.

(** The character class [[CcSsQqTtAa]]. *)
Definition isCurveLetter (c : ascii) : bool :=
  charIn "CcSsQqTtAa" c.

(** [\s], ASCII part: tab, line feed, vertical tab, form feed, carriage
    return, space. *)
Definition isSpace (c : ascii) : bool :=
  let n := nat_of_ascii c in
  ((9 <=? n) && (n <=? 13) || (n =? 32))%nat.

(** The character class [[\s,]]. *)
Definition isSeparator (c : ascii) : bool :=
  isSpace c || Ascii.eqb c ",".

(** [c.toLowerCase()] for one character. *)
Definition toLowerCase (c : ascii) : ascii :=
  let n := nat_of_ascii c in
  if ((65 <=? n) && (n <=? 90))%nat then ascii_of_nat (n + 32) else c.

(** [s.includes(c)] for a one-character needle. *)
Definition includes (s : string) (c : ascii) : bool :=
  existsb (Ascii.eqb c) (list_ascii_of_string s).

(** [s.match(/[MmLlHhVvCcSsQqTtAaZz][^MmLlHhVvCcSsQqTtAaZz]*/g) || []],
    together with the text before the first match, which the global match
    skips.  A match starts at each command letter and runs up to the next. *)
Fixpoint scanCommands (s : string) : string * list string :=
  match s with
  | EmptyString => (EmptyString, [])
  | String c rest =>
      let (run, commands) := scanCommands rest in
      if isCommandLetter c
      then (EmptyString, String c run :: commands)
      else (String c run, commands)
  end.

Definition matchCommands (s : string) : list string := snd (scanCommands s).

(** [s.match(/[CcSsQqTtAa]/g) || []]. *)
Definition matchCurveLetters (s : string) : list ascii :=
  filter isCurveLetter (list_ascii_of_string s).

(** [s.trim().split(/[\s,]+/).filter(Boolean)]: the maximal runs of
    characters that are neither white space nor a comma.  [trim] only
    removes separators, and [filter(Boolean)] removes the empty strings a
    leading or trailing separator leaves. *)
Fixpoint fields (s : string) : string * list string :=
  match s with
  | EmptyString => (EmptyString, [])
  | String c rest =>
      let (word, words) := fields rest in
      if isSeparator c
      then (EmptyString,
            match word with EmptyString => words | _ => word :: words end)
      else (String c word, words)
  end.

Definition splitArgs (s : string) : list string :=
  let (word, words) := fields s in
  match word with EmptyString => words | _ => word :: words end.

End Str.

(* ------------------------------------------------------------------ *)
(** ** [Number(string)] *)

Module NumberParse.

Open Scope char_scope.

Definition digitValue (base : Z) (c : ascii) : option Z :=
  let n := Z.of_nat (nat_of_ascii c) in
  let v :=
    if ((48 <=? n) && (n <=? 57))%Z then Some (n - 48)%Z
    else if ((97 <=? n) && (n <=? 122))%Z then Some (n - 87)%Z
    else if ((65 <=? n) && (n <=? 90))%Z then Some (n - 55)%Z
    else None in
  match v with
  | Some d => if (d <? base)%Z then Some d else None
  | None => None
  end.

(** The longest prefix of digits in [base]: its value, its length, the rest. *)
Fixpoint digits (base : Z) (acc : Z) (len : nat) (s : string) : Z * nat * string :=
  match s with
  | EmptyString => (acc, len, s)
  | String c rest =>
      match digitValue base c with
      | Some d => digits base (base * acc + d)%Z (S len) rest
      | None => (acc, len, s)
      end
  end.

Definition pow10 (e : Z) : Q :=
  if (e <? 0)%Z then 1 / inject_Z (10 ^ (- e)) else inject_Z (10 ^ e).

(** The exponent part [[eE][+-]?digits], or nothing, up to the end. *)
Definition exponent (s : string) : option Z :=
  match s with
  | EmptyString => Some 0%Z
  | String c rest =>
      if Ascii.eqb c "e" || Ascii.eqb c "E" then
        let (negative, rest') :=
          match rest with
          | String "-" r => (true, r)
          | String "+" r => (false, r)
          | _ => (false, rest)
          end in
        match digits 10 0 0 rest' with
        | (_, O, _) => None
        | (e, _, EmptyString) => Some (if negative then (- e)%Z else e)
        | _ => None
        end
      else None
  end.

(** An unsigned decimal literal: [digits], [digits.], [digits.digits] or
    [.digits], then an optional exponent. *)
Definition unsignedDecimal (s : string) : option Q :=
  let '(int, intLen, afterInt) := digits 10 0 0 s in
  let '(frac, fracLen, afterFrac) :=
    match afterInt with
    | String "." r => digits 10 0 0 r
    | _ => (0%Z, O, afterInt)
    end in
  match intLen, fracLen with
  | O, O => None
  | _, _ =>
      match exponent afterFrac with
      | Some e =>
          Some ((inject_Z int + inject_Z frac / inject_Z (10 ^ Z.of_nat fracLen))
                * pow10 e)
      | None => None
      end
  end.

Definition radixLiteral (base : Z) (s : string) : num :=
  match digits base 0 0 s with
  | (_, O, _) => NaN
  | (v, _, EmptyString) => ofZ v
  | _ => NaN
  end.

Definition decimalLiteral (negative : bool) (s : string) : num :=
  if String.eqb s "Infinity" then (if negative then NInf else PInf)
  else match unsignedDecimal s with
       | Some q => fin (if negative then - q else q)
       | None => NaN
       end.

(** [Number(s)] for a string without white space: the empty string is 0, a
    signed decimal literal or [Infinity] its value, an unsigned [0x], [0o] or
    [0b] literal its value, anything else NaN. *)
Definition Number (s : string) : num :=
  match s with
  | EmptyString => Fin 0
  | String "-" r => decimalLiteral true r
  | String "+" r => decimalLiteral false r
  | String "0" (String x r) =>
      if Ascii.eqb x "x" || Ascii.eqb x "X" then radixLiteral 16 r
      else if Ascii.eqb x "o" || Ascii.eqb x "O" then radixLiteral 8 r
      else if Ascii.eqb x "b" || Ascii.eqb x "B" then radixLiteral 2 r
      else decimalLiteral false s
  | _ => decimalLiteral false s
  end.

End NumberParse.

Import Str NumberParse.

Open Scope string_scope.
Open Scope list_scope.

(* ================================================================== *)
(** * Calls that may throw *)

(** What a call may throw: an [Error] the repository constructs, with its
    message, or the [TypeError] of a call or a property read on a value
    that has none. *)
Inductive Exception : Type :=
| Error (message : string)
| TypeError.

(** A call returns a value or throws. *)
Inductive Completion (A : Type) : Type :=
| Returns (value : A)
| Throws (exception : Exception).

Arguments Returns {A} value.
Arguments Throws {A} exception.

(** Sequencing: what follows a call runs when the call returns. *)
Definition andThen {A B : Type} (call : Completion A) (next : A -> Completion B)
  : Completion B :=
  match call with
  | Returns value => next value
  | Throws exception => Throws exception
  end.

Notation "'let*' x ':=' call 'in' next" :=
  (andThen call (fun x => next))
  (at level 10, x name, call at level 100, next at level 200).

(** [for (const command of commands) step(command)] on a state the steps
    change: the state when the loop ends or, when a step throws, the state
    that step found, with what it threw.  Every step of the parsers that
    throws does so before it changes anything. *)
Fixpoint forEach {S : Type} (step : string -> S -> Completion S)
                 (commands : list string) (state : S) : S * option Exception :=
  match commands with
  | [] => (state, None)
  | command :: rest =>
      match step command state with
      | Returns next => forEach step rest next
      | Throws exception => (state, Some exception)
      end
  end.

(* ================================================================== *)
(** * The three.js collaborator *)

Module THREE.

Record Vector2 : Type := { x : num; y : num }.

(** The curves the parser constructs, with the fields their constructors
    store. *)
Inductive Curve : Type :=
| CubicBezierCurve (v0 v1 v2 v3 : Vector2)
| QuadraticBezierCurve (v0 v1 v2 : Vector2)
| EllipseCurve (aX aY xRadius yRadius : num) (aStartAngle aEndAngle : angle)
               (aClockwise : bool) (aRotation : num).

(** A point handed to the shape: two numbers the parser computed, or the
    coordinates of [curve.getPoints(divisions)[i]]. *)
Inductive Point : Type :=
| XY (px py : num)
| Sampled (curve : Curve) (divisions i : nat).

(** [curve.getPoints(divisions)]: the [divisions + 1] points
    [getPoint(i / divisions)], [i = 0 .. divisions]. *)
Definition Curve_getPoints (curve : Curve) (divisions : nat) : list Point :=
  map (Sampled curve divisions) (seq 0 (S divisions)).

(** The calls a [THREE.Shape] has carried out. *)
Inductive PathCall : Type :=
| moveTo (px py : num)
| lineTo (p : Point)
| closePath.

Definition Shape : Type := list PathCall.

Definition new_Shape : Shape := [].
Definition Shape_moveTo (px py : num) (shape : Shape) : Shape := shape ++ [moveTo px py].
Definition Shape_lineTo (px py : num) (shape : Shape) : Shape := shape ++ [lineTo (XY px py)].

(** A call that adds a curve to [shape.curves]: [lineTo] pushes a
    [LineCurve], [moveTo] only sets the current point. *)
Definition addsCurve (call : PathCall) : bool :=
  match call with
  | lineTo _ => true
  | _ => false
  end.

(** [shape.curves.length > 0]. *)
Definition hasCurve (shape : Shape) : bool := existsb addsCurve shape.

(** [shape.closePath()].  [CurvePath.closePath] starts with
    [this.curves[0].getPoint(0)]: on a shape without a curve it throws a
    [TypeError]. *)
Definition Shape_closePath (shape : Shape) : Completion Shape :=
  if hasCurve shape then Returns (shape ++ [closePath]) else Throws TypeError.

(** [for (let i = 1; i < points.length; i++) shape.lineTo(points[i].x, points[i].y)]. *)
Definition Shape_lineToEachAfterFirst (points : list Point) (shape : Shape) : Shape :=
  shape ++ map lineTo (tl points).

End THREE.

Import THREE.

(* ================================================================== *)
(** * advancedSvgProcessor.ts: [AdvancedSVGPathParser] *)

Record AdvancedSVGPathParser : Type := {
  currentX : num;
  currentY : num;
  startX : num;
  startY : num;
  subpathStartX : num;
  subpathStartY : num;
  lastControlX : num;
  lastControlY : num
}.

Definition setCurrentX (v : num) (this : AdvancedSVGPathParser) : AdvancedSVGPathParser :=
  {| currentX := v; currentY := currentY this;
     startX := startX this; startY := startY this;
     subpathStartX := subpathStartX this; subpathStartY := subpathStartY this;
     lastControlX := lastControlX this; lastControlY := lastControlY this |}.

Definition setCurrentY (v : num) (this : AdvancedSVGPathParser) : AdvancedSVGPathParser :=
  {| currentX := currentX this; currentY := v;
     startX := startX this; startY := startY this;
     subpathStartX := subpathStartX this; subpathStartY := subpathStartY this;
     lastControlX := lastControlX this; lastControlY := lastControlY this |}.

Definition setSubpathStart (vx vy : num) (this : AdvancedSVGPathParser) : AdvancedSVGPathParser :=
  {| currentX := currentX this; currentY := currentY this;
     startX := startX this; startY := startY this;
     subpathStartX := vx; subpathStartY := vy;
     lastControlX := lastControlX this; lastControlY := lastControlY this |}.

Definition setLastControl (vx vy : num) (this : AdvancedSVGPathParser) : AdvancedSVGPathParser :=
  {| currentX := currentX this; currentY := currentY this;
     startX := startX this; startY := startY this;
     subpathStartX := subpathStartX this; subpathStartY := subpathStartY this;
     lastControlX := vx; lastControlY := vy |}.

Definition setCurrent (vx vy : num) (this : AdvancedSVGPathParser) : AdvancedSVGPathParser :=
  setCurrentY vy (setCurrentX vx this).

(** [coords[i]]; every read in the handlers is below a check of
    [coords.length]. *)
Definition at_ (coords : list num) (i : nat) : num := nth i coords NaN.

Definition reset : AdvancedSVGPathParser :=
  {| currentX := Fin 0; currentY := Fin 0;
     startX := Fin 0; startY := Fin 0;
     subpathStartX := Fin 0; subpathStartY := Fin 0;
     lastControlX := Fin 0; lastControlY := Fin 0 |}.

Definition here (this : AdvancedSVGPathParser) : Vector2 :=
  {| x := currentX this; y := currentY this |}.

Section Handlers.

Variable coords : list num.
Variable isAbsolute : bool.
Variable this : AdvancedSVGPathParser.
Variable shape : Shape.

(** [isAbsolute ? coords[i] : base + coords[i]]. *)
Definition resolve (base : num) (i : nat) : num :=
  if isAbsolute then at_ coords i else (base + at_ coords i)%num.

Definition handleMoveTo : AdvancedSVGPathParser * Shape :=
  if (2 <=? List.length coords)%nat then
    let this1 :=
      if isAbsolute
      then setCurrent (at_ coords 0) (at_ coords 1) this
      else setCurrent (currentX this + at_ coords 0)%num
                      (currentY this + at_ coords 1)%num this in
    let shape1 := Shape_moveTo (currentX this1) (currentY this1) shape in
    (setSubpathStart (currentX this1) (currentY this1) this1, shape1)
  else (this, shape).

Definition handleLineTo : AdvancedSVGPathParser * Shape :=
  if (2 <=? List.length coords)%nat then
    let this1 :=
      if isAbsolute
      then setCurrent (at_ coords 0) (at_ coords 1) this
      else setCurrent (currentX this + at_ coords 0)%num
                      (currentY this + at_ coords 1)%num this in
    (this1, Shape_lineTo (currentX this1) (currentY this1) shape)
  else (this, shape).

Definition handleHorizontalLine : AdvancedSVGPathParser * Shape :=
  if (1 <=? List.length coords)%nat then
    let this1 :=
      if isAbsolute
      then setCurrentX (at_ coords 0) this
      else setCurrentX (currentX this + at_ coords 0)%num this in
    (this1, Shape_lineTo (currentX this1) (currentY this1) shape)
  else (this, shape).

Definition handleVerticalLine : AdvancedSVGPathParser * Shape :=
  if (1 <=? List.length coords)%nat then
    let this1 :=
      if isAbsolute
      then setCurrentY (at_ coords 0) this
      else setCurrentY (currentY this + at_ coords 0)%num this in
    (this1, Shape_lineTo (currentX this1) (currentY this1) shape)
  else (this, shape).

Definition handleCubicBezier : AdvancedSVGPathParser * Shape :=
  if (6 <=? List.length coords)%nat then
    let cp1x := resolve (currentX this) 0 in
    let cp1y := resolve (currentY this) 1 in
    let cp2x := resolve (currentX this) 2 in
    let cp2y := resolve (currentY this) 3 in
    let endX := resolve (currentX this) 4 in
    let endY := resolve (currentY this) 5 in
    let curve :=
      CubicBezierCurve (here this)
                       {| x := cp1x; y := cp1y |}
                       {| x := cp2x; y := cp2y |}
                       {| x := endX; y := endY |} in
    let points := Curve_getPoints curve 50 in
    let shape1 := Shape_lineToEachAfterFirst points shape in
    (setLastControl cp2x cp2y (setCurrent endX endY this), shape1)
  else (this, shape).

Definition handleSmoothCubicBezier : AdvancedSVGPathParser * Shape :=
  if (4 <=? List.length coords)%nat then
    let cp1x := (currentX this - (lastControlX this - currentX this))%num in
    let cp1y := (currentY this - (lastControlY this - currentY this))%num in
    let cp2x := resolve (currentX this) 0 in
    let cp2y := resolve (currentY this) 1 in
    let endX := resolve (currentX this) 2 in
    let endY := resolve (currentY this) 3 in
    let curve :=
      CubicBezierCurve (here this)
                       {| x := cp1x; y := cp1y |}
                       {| x := cp2x; y := cp2y |}
                       {| x := endX; y := endY |} in
    let points := Curve_getPoints curve 50 in
    let shape1 := Shape_lineToEachAfterFirst points shape in
    (setLastControl cp2x cp2y (setCurrent endX endY this), shape1)
  else (this, shape).

Definition handleQuadraticBezier : AdvancedSVGPathParser * Shape :=
  if (4 <=? List.length coords)%nat then
    let cpx := resolve (currentX this) 0 in
    let cpy := resolve (currentY this) 1 in
    let endX := resolve (currentX this) 2 in
    let endY := resolve (currentY this) 3 in
    let curve :=
      QuadraticBezierCurve (here this)
                           {| x := cpx; y := cpy |}
                           {| x := endX; y := endY |} in
    let points := Curve_getPoints curve 30 in
    let shape1 := Shape_lineToEachAfterFirst points shape in
    (setLastControl cpx cpy (setCurrent endX endY this), shape1)
  else (this, shape).

Definition handleSmoothQuadraticBezier : AdvancedSVGPathParser * Shape :=
  if (2 <=? List.length coords)%nat then
    let cpx := (currentX this - (lastControlX this - currentX this))%num in
    let cpy := (currentY this - (lastControlY this - currentY this))%num in
    let endX := resolve (currentX this) 0 in
    let endY := resolve (currentY this) 1 in
    let curve :=
      QuadraticBezierCurve (here this)
                           {| x := cpx; y := cpy |}
                           {| x := endX; y := endY |} in
    let points := Curve_getPoints curve 30 in
    let shape1 := Shape_lineToEachAfterFirst points shape in
    (setLastControl cpx cpy (setCurrent endX endY this), shape1)
  else (this, shape).

End Handlers.

(** The body of the [try] block constructs the curve and returns it; nothing
    in it throws, so the [catch] branch (warn, return [null]) is never
    entered and the result is never [None]. *)
Definition createEllipticalArc (x1 y1 x2 y2 rx ry rotation : num)
                               (largeArcFlag sweepFlag : bool) : option Curve :=
  let centerX := ((x1 + x2) / 2)%num in
  let centerY := ((y1 + y2) / 2)%num in
  let startAngle := Math_atan2 (y1 - centerY)%num (x1 - centerX)%num in
  let endAngle := Math_atan2 (y2 - centerY)%num (x2 - centerX)%num in
  Some (EllipseCurve centerX centerY rx ry startAngle endAngle false (Fin 0)).

Definition handleArc (coords : list num) (isAbsolute : bool)
                     (this : AdvancedSVGPathParser) (shape : Shape)
  : AdvancedSVGPathParser * Shape :=
  if (7 <=? List.length coords)%nat then
    let rx := at_ coords 0 in
    let ry := at_ coords 1 in
    let rotation := (at_ coords 2 * Math_PI / 180)%num in
    let largeArcFlag := strictNe (at_ coords 3) (Fin 0) in
    let sweepFlag := strictNe (at_ coords 4) (Fin 0) in
    let endX := resolve coords isAbsolute (currentX this) 5 in
    let endY := resolve coords isAbsolute (currentY this) 6 in
    let arc :=
      createEllipticalArc (currentX this) (currentY this) endX endY
                          rx ry rotation largeArcFlag sweepFlag in
    let shape1 :=
      match arc with
      | Some curve => Shape_lineToEachAfterFirst (Curve_getPoints curve 50) shape
      | None => Shape_lineTo endX endY shape
      end in
    (setCurrent endX endY this, shape1)
  else (this, shape).

(** [shape.closePath()] comes first: when it throws, the parser is as it
    was. *)
Definition handleClosePath (this : AdvancedSVGPathParser) (shape : Shape)
  : Completion (AdvancedSVGPathParser * Shape) :=
  let* closed := Shape_closePath shape in
  Returns (setCurrent (subpathStartX this) (subpathStartY this) this, closed).

(** The [switch (type.toLowerCase())] of [parseCommand].  Only
    [handleClosePath] calls what may throw. *)
Definition switchCommand (type : ascii) (coords : list num)
                         (this : AdvancedSVGPathParser) (shape : Shape)
  : Completion (AdvancedSVGPathParser * Shape) :=
  let isUpper (c : ascii) := Ascii.eqb type c in
  let lower := toLowerCase type in
  if Ascii.eqb lower "m" then Returns (handleMoveTo coords (isUpper "M"%char) this shape)
  else if Ascii.eqb lower "l" then Returns (handleLineTo coords (isUpper "L"%char) this shape)
  else if Ascii.eqb lower "h"
  then Returns (handleHorizontalLine coords (isUpper "H"%char) this shape)
  else if Ascii.eqb lower "v"
  then Returns (handleVerticalLine coords (isUpper "V"%char) this shape)
  else if Ascii.eqb lower "c"
  then Returns (handleCubicBezier coords (isUpper "C"%char) this shape)
  else if Ascii.eqb lower "s"
  then Returns (handleSmoothCubicBezier coords (isUpper "S"%char) this shape)
  else if Ascii.eqb lower "q"
  then Returns (handleQuadraticBezier coords (isUpper "Q"%char) this shape)
  else if Ascii.eqb lower "t"
  then Returns (handleSmoothQuadraticBezier coords (isUpper "T"%char) this shape)
  else if Ascii.eqb lower "a" then Returns (handleArc coords (isUpper "A"%char) this shape)
  else if Ascii.eqb lower "z" then handleClosePath this shape
  else (* default: a console line, nothing else *) Returns (this, shape).

(** [command.slice(1).trim().split(/[\s,]+/).filter(Boolean).map(Number)]. *)
Definition commandCoords (rest : string) : list num :=
  map Number (splitArgs rest).

(** [parseCommand]; [command[0]] exists for every match of the command
    expression. *)
Definition parseCommand (command : string)
                        (this : AdvancedSVGPathParser) (shape : Shape)
  : Completion (AdvancedSVGPathParser * Shape) :=
  match command with
  | EmptyString => Returns (this, shape)
  | String type rest => switchCommand type (commandCoords rest) this shape
  end.

(** The [for (const command of commands)] loop: the parser and the shape
    when it ends or when a command throws, and what was thrown. *)
Definition parseCommands (commands : list string)
                         (state : AdvancedSVGPathParser * Shape)
  : (AdvancedSVGPathParser * Shape) * option Exception :=
  forEach (fun command st => parseCommand command (fst st) (snd st)) commands state.

(** The body of [parsePath]: the parser's fields and the shape when it
    returns or throws, and what it threw.  [reset()] overwrites every field,
    so the run does not depend on what the parser object parsed before. *)
Definition parsePathRun (pathData : string)
  : (AdvancedSVGPathParser * Shape) * option Exception :=
  let commands := matchCommands pathData in
  match parseCommands commands (reset, new_Shape) with
  | (state, Some exception) => (state, Some exception)
  | ((this, shape), None) =>
      if negb (includes pathData "Z") && negb (includes pathData "z")
      then match Shape_closePath shape with
           | Returns closed => ((this, closed), None)
           | Throws exception => ((this, shape), Some exception)
           end
      else ((this, shape), None)
  end.

(** The parser and the shape when [parsePath] returns or throws. *)
Definition parsePathState (pathData : string) : AdvancedSVGPathParser * Shape :=
  fst (parsePathRun pathData).

(** [parsePath(pathData)]: the shape it returns, or what it throws. *)
Definition parsePath (pathData : string) : Completion Shape :=
  match parsePathRun pathData with
  | ((_, shape), None) => Returns shape
  | (_, Some exception) => Throws exception
  end.

(* ================================================================== *)
(** * The simple parser: [parseSVGPath] *)

Module SimpleParser.

(** The local variables of [parseSVGPath]. *)
Record Locals : Type := {
  currentX : num;
  currentY : num;
  startX : num;
  startY : num
}.

(** [v || 0]: 0 for a missing argument, for NaN and for 0. *)
Definition orZero (v : num) : num :=
  match v with
  | NaN => 0
  | Fin q => if Qeq_bool q 0 then 0 else v
  | _ => v
  end.

Definition moveCurrent (vx vy : num) (locals : Locals) : Locals :=
  {| currentX := vx; currentY := vy;
     startX := startX locals; startY := startY locals |}.

Definition markStart (locals : Locals) : Locals :=
  {| currentX := currentX locals; currentY := currentY locals;
     startX := currentX locals; startY := currentY locals |}.

(** One turn of the loop over the commands: the [switch].  In the case
    [z], [path.closePath()] comes first: when it throws, the locals are as
    they were. *)
Definition switchCommand (type : ascii) (coords : list num)
                         (locals : Locals) (path : Shape)
  : Completion (Locals * Shape) :=
  let lower := toLowerCase type in
  if Ascii.eqb lower "m" then
    let moved :=
      if Ascii.eqb type "M"
      then moveCurrent (orZero (at_ coords 0)) (orZero (at_ coords 1)) locals
      else moveCurrent (currentX locals + orZero (at_ coords 0))%num
                       (currentY locals + orZero (at_ coords 1))%num locals in
    Returns (markStart moved, Shape_moveTo (currentX moved) (currentY moved) path)
  else if Ascii.eqb lower "l" then
    if (2 <=? List.length coords)%nat then
      let moved :=
        if Ascii.eqb type "L"
        then moveCurrent (at_ coords 0) (at_ coords 1) locals
        else moveCurrent (currentX locals + at_ coords 0)%num
                         (currentY locals + at_ coords 1)%num locals in
      Returns (moved, Shape_lineTo (currentX moved) (currentY moved) path)
    else Returns (locals, path)
  else if Ascii.eqb lower "h" then
    let moved :=
      if Ascii.eqb type "H"
      then moveCurrent (orZero (at_ coords 0)) (currentY locals) locals
      else moveCurrent (currentX locals + orZero (at_ coords 0))%num
                       (currentY locals) locals in
    Returns (moved, Shape_lineTo (currentX moved) (currentY moved) path)
  else if Ascii.eqb lower "v" then
    let moved :=
      if Ascii.eqb type "V"
      then moveCurrent (currentX locals) (orZero (at_ coords 0)) locals
      else moveCurrent (currentX locals)
                       (currentY locals + orZero (at_ coords 0))%num locals in
    Returns (moved, Shape_lineTo (currentX moved) (currentY moved) path)
  else if Ascii.eqb lower "z" then
    let* closed := Shape_closePath path in
    Returns (moveCurrent (startX locals) (startY locals) locals, closed)
  else
    (* default: "For unsupported commands, create a simple line" *)
    if (2 <=? List.length coords)%nat then
      let moved := moveCurrent (at_ coords 0) (at_ coords 1) locals in
      Returns (moved, Shape_lineTo (currentX moved) (currentY moved) path)
    else Returns (locals, path).

Definition parseCommand (command : string) (locals : Locals) (path : Shape)
  : Completion (Locals * Shape) :=
  match command with
  | EmptyString => Returns (locals, path)
  | String type rest => switchCommand type (commandCoords rest) locals path
  end.

(** [parseSVGPath(pathData, path)]: the path after the calls it carried
    out, and what the function threw, if it did.  The caller keeps the path
    in either case. *)
Definition parseSVGPath (pathData : string) (path : Shape) : Shape * option Exception :=
  let commands := matchCommands pathData in
  let start := {| currentX := 0; currentY := 0; startX := 0; startY := 0 |} in
  match forEach (fun command st => parseCommand command (fst st) (snd st))
                commands (start, path) with
  | ((_, drawn), Some exception) => (drawn, Some exception)
  | ((_, drawn), None) =>
      if negb (includes pathData "Z") && negb (includes pathData "z")
      then match Shape_closePath drawn with
           | Returns closed => (closed, None)
           | Throws exception => (drawn, Some exception)
           end
      else (drawn, None)
  end.

End SimpleParser.

(* ================================================================== *)
(** * The records of advancedSvgProcessor.ts and detailedShapeConverter.ts *)

Module BoundingBox.
Record t : Type := { min : Vector2; max : Vector2; size : Vector2 }.
End BoundingBox.

(** The value [analyzeShape] returns. *)
Module ShapeAnalysis.
Record t : Type := {
  boundingBox : BoundingBox.t;
  complexity : num;
  curveCount : num
}.
End ShapeAnalysis.

(** A DOM element, as far as the processor reads it: [getAttribute('d')]. *)
Record Element : Type := { getAttribute_d : option string }.

(** An entry of [svgData.paths]: [userData && userData.node]. *)
Record SVGResultPath : Type := { userData_node : option Element }.

Module IndividualShape.
Record t : Type := {
  shape : Shape;
  boundingBox : BoundingBox.t;
  complexity : num;
  curveCount : num;
  pathData : string;
  element : Element
}.
End IndividualShape.

(** [AdvancedSVGData]; [curves] holds the points of each
    [CatmullRomCurve3]; [metadata] is read from the DOM and left out. *)
Module AdvancedSVGData.
Record t : Type := {
  shapes : list Shape;
  curves : list (list Vector2);
  svgString : string;
  individualShapes : list IndividualShape.t
}.
End AdvancedSVGData.

Module AdvancedProcessedSVGResult.
Record t : Type := {
  success : bool;
  data : option AdvancedSVGData.t;
  error : option string
}.
End AdvancedProcessedSVGResult.

(** What the [FileReader] and the [SVGLoader] do with a file: the read
    fails; the text is read and loading it throws; or the text is read and
    the loader returns [svgData.paths] (absent and empty are the same to the
    processor). *)
Inductive FileEvent : Type :=
| ReadFails
| LoadThrows (text : string) (thrown : string)
| Loaded (text : string) (paths : list SVGResultPath).

Module DetailedShapeSettings.
Record t : Type := {
  resolution : num;
  extrudeDepth : num;
  bevelEnabled : bool;
  bevelThickness : num;
  bevelSize : num;
  bevelSegments : num;
  curveSegments : num;
  steps : num
}.
End DetailedShapeSettings.

(** [DetailedShapeResult], the part the repository computes: the number of
    [THREE.Line] objects in [curves], and [complexity].  The geometry, its
    wireframe, bounding box and vertex count are three.js objects. *)
Module DetailedShapeResult.
Record t : Type := {
  curves : nat;
  complexity : num
}.
End DetailedShapeResult.

Module ZoomInfo.
Record t : Type := {
  boundingBox : BoundingBox.t;
  complexity : num;
  curveCount : num;
  isComplex : bool;
  hasManyCurves : bool;
  size : num
}.
End ZoomInfo.

(** The value [analyzeShapeForZoom] returns. *)
Module ZoomAnalysis.
Record t : Type := {
  shape : IndividualShape.t;
  optimalSettings : DetailedShapeSettings.t;
  analysis : ZoomInfo.t
}.
End ZoomAnalysis.

Module DetailLevel.
Record t : Type := {
  level : nat;
  settings : DetailedShapeSettings.t;
  result : DetailedShapeResult.t
}.
End DetailLevel.

(* ================================================================== *)
(** * [analyzeShape], [processAdvancedSVGFile], and the detail planner *)

Section Pipeline.

(** [shape.getPoints(divisions)] and [vector.length()], three.js's. *)
Variable Shape_getPoints : Shape -> num -> list Vector2.
Variable Vector2_length : Vector2 -> num.

Definition analyzeShape (shape : Shape) (pathData : string) : ShapeAnalysis.t :=
  let points := Shape_getPoints shape 100 in
  let '(minX, minY, maxX, maxY) :=
    fold_left
      (fun '(minX, minY, maxX, maxY) point =>
         (Math_min minX (x point), Math_min minY (y point),
          Math_max maxX (x point), Math_max maxY (y point)))
      points (PInf, PInf, NInf, NInf) in
  let boundingBox :=
    {| BoundingBox.min := {| x := minX; y := minY |};
       BoundingBox.max := {| x := maxX; y := maxY |};
       BoundingBox.size := {| x := (maxX - minX)%num; y := (maxY - minY)%num |} |} in
  let curveCommands := matchCurveLetters pathData in
  let curveCount := ofNat (List.length curveCommands) in
  let complexity := (ofNat (List.length points) + curveCount * 10)%num in
  {| ShapeAnalysis.boundingBox := boundingBox;
     ShapeAnalysis.complexity := complexity;
     ShapeAnalysis.curveCount := curveCount |}.

(** The square substituted when no shape was created: the shape after
    [moveTo], three [lineTo] and [closePath], which returns, a [lineTo]
    having come before it (see [fallbackShape_calls]). *)
Definition fallbackShape : Shape :=
  let drawn :=
    Shape_lineTo (-10) 10
      (Shape_lineTo 10 10
        (Shape_lineTo 10 (-10)
          (Shape_moveTo (-10) (-10) new_Shape))) in
  match Shape_closePath drawn with
  | Returns closed => closed
  | Throws _ => drawn
  end.

(** One turn of the loop over [svgData.paths], with its [try]: when
    [parsePath] throws, nothing has been pushed yet and the [catch] writes a
    console line only, so the path leaves no trace. *)
Definition processPath (acc : AdvancedSVGData.t) (svgPath : SVGResultPath)
  : AdvancedSVGData.t :=
  match userData_node svgPath with
  | Some node =>
      match getAttribute_d node with
      | Some pathData =>
          if String.eqb pathData "" then acc
          else
            match parsePath pathData with
            | Throws _ => acc
            | Returns shape =>
                let analysis := analyzeShape shape pathData in
                let entry :=
                  {| IndividualShape.shape := shape;
                     IndividualShape.boundingBox := ShapeAnalysis.boundingBox analysis;
                     IndividualShape.complexity := ShapeAnalysis.complexity analysis;
                     IndividualShape.curveCount := ShapeAnalysis.curveCount analysis;
                     IndividualShape.pathData := pathData;
                     IndividualShape.element := node |} in
                let points := Shape_getPoints shape 100 in
                {| AdvancedSVGData.shapes := AdvancedSVGData.shapes acc ++ [shape];
                   AdvancedSVGData.curves :=
                     if (2 <? List.length points)%nat
                     then AdvancedSVGData.curves acc ++ [points]
                     else AdvancedSVGData.curves acc;
                   AdvancedSVGData.svgString := AdvancedSVGData.svgString acc;
                   AdvancedSVGData.individualShapes :=
                     AdvancedSVGData.individualShapes acc ++ [entry] |}
            end
      | None => acc
      end
  | None => acc
  end.

Definition processAdvancedSVGFile (file : FileEvent) : AdvancedProcessedSVGResult.t :=
  match file with
  | ReadFails =>
      {| AdvancedProcessedSVGResult.success := false;
         AdvancedProcessedSVGResult.data := None;
         AdvancedProcessedSVGResult.error := Some "Failed to read file" |}
  | LoadThrows _ thrown =>
      {| AdvancedProcessedSVGResult.success := false;
         AdvancedProcessedSVGResult.data := None;
         AdvancedProcessedSVGResult.error :=
           Some (String.append "Advanced SVG processing failed: " thrown) |}
  | Loaded text paths =>
      let empty :=
        {| AdvancedSVGData.shapes := [];
           AdvancedSVGData.curves := [];
           AdvancedSVGData.svgString := text;
           AdvancedSVGData.individualShapes := [] |} in
      let filled := fold_left processPath paths empty in
      let shapes :=
        match AdvancedSVGData.shapes filled with
        | [] => [fallbackShape]
        | created => created
        end in
      {| AdvancedProcessedSVGResult.success := true;
         AdvancedProcessedSVGResult.data :=
           Some {| AdvancedSVGData.shapes := shapes;
                   AdvancedSVGData.curves := AdvancedSVGData.curves filled;
                   AdvancedSVGData.svgString := text;
                   AdvancedSVGData.individualShapes :=
                     AdvancedSVGData.individualShapes filled |};
         AdvancedProcessedSVGResult.error := None |}
  end.

(** ** detailedShapeConverter.ts *)

Definition createDetailedShape (shape : Shape) (settings : DetailedShapeSettings.t)
  : DetailedShapeResult.t :=
  let points := Shape_getPoints shape (DetailedShapeSettings.resolution settings) in
  {| DetailedShapeResult.curves := if (2 <? List.length points)%nat then 1 else 0;
     DetailedShapeResult.complexity :=
       (ofNat (List.length points)
        + DetailedShapeSettings.curveSegments settings * 10)%num |}.

Definition analyzeShapeForZoom (svgData : AdvancedSVGData.t) (shapeIndex : nat)
  : option ZoomAnalysis.t :=
  match nth_error (AdvancedSVGData.individualShapes svgData) shapeIndex with
  | None => None
  | Some shape =>
      let boundingBox := IndividualShape.boundingBox shape in
      let complexity := IndividualShape.complexity shape in
      let curveCount := IndividualShape.curveCount shape in
      let baseResolution := Math_max 50 (Math_min 200 (complexity / 10)%num) in
      let optimalSettings :=
        {| DetailedShapeSettings.resolution := baseResolution;
           DetailedShapeSettings.extrudeDepth :=
             Math_max (Fin 0.5)
               (Math_min 5 (Vector2_length (BoundingBox.size boundingBox) / 20)%num);
           DetailedShapeSettings.bevelEnabled := gtb curveCount 5;
           DetailedShapeSettings.bevelThickness :=
             if gtb curveCount 10 then Fin 0.3 else Fin 0.1;
           DetailedShapeSettings.bevelSize :=
             if gtb curveCount 10 then Fin 0.2 else Fin 0.05;
           DetailedShapeSettings.bevelSegments :=
             Math_max 2 (Math_min 8 (curveCount / 2)%num);
           DetailedShapeSettings.curveSegments :=
             Math_max 32 (Math_min 128 (complexity / 5)%num);
           DetailedShapeSettings.steps :=
             Math_max 1 (Math_min 4 (Math_floor (complexity / 50)%num)) |} in
      Some {| ZoomAnalysis.shape := shape;
              ZoomAnalysis.optimalSettings := optimalSettings;
              ZoomAnalysis.analysis :=
                {| ZoomInfo.boundingBox := boundingBox;
                   ZoomInfo.complexity := complexity;
                   ZoomInfo.curveCount := curveCount;
                   ZoomInfo.isComplex := gtb complexity 100;
                   ZoomInfo.hasManyCurves := gtb curveCount 5;
                   ZoomInfo.size := Vector2_length (BoundingBox.size boundingBox) |} |}
  end.

(** [level] and [multiplier] of the four rungs. *)
Definition levels : list (nat * num) :=
  [(1%nat, Fin 0.5); (2%nat, Fin 1); (3%nat, Fin 2); (4%nat, Fin 4)].

Definition levelSettings (optimal : DetailedShapeSettings.t) (multiplier : num)
  : DetailedShapeSettings.t :=
  {| DetailedShapeSettings.resolution :=
       Math_floor (DetailedShapeSettings.resolution optimal * multiplier)%num;
     DetailedShapeSettings.extrudeDepth := DetailedShapeSettings.extrudeDepth optimal;
     DetailedShapeSettings.bevelEnabled := DetailedShapeSettings.bevelEnabled optimal;
     DetailedShapeSettings.bevelThickness := DetailedShapeSettings.bevelThickness optimal;
     DetailedShapeSettings.bevelSize := DetailedShapeSettings.bevelSize optimal;
     DetailedShapeSettings.bevelSegments := DetailedShapeSettings.bevelSegments optimal;
     DetailedShapeSettings.curveSegments :=
       Math_floor (DetailedShapeSettings.curveSegments optimal * multiplier)%num;
     DetailedShapeSettings.steps :=
       Math_max 1 (Math_floor (DetailedShapeSettings.steps optimal * multiplier)%num) |}.

Definition createProgressiveDetailLevels (svgData : AdvancedSVGData.t) (shapeIndex : nat)
  : list DetailLevel.t :=
  match analyzeShapeForZoom svgData shapeIndex with
  | None => []
  | Some analysis =>
      map (fun '(level, multiplier) =>
             let settings := levelSettings (ZoomAnalysis.optimalSettings analysis) multiplier in
             {| DetailLevel.level := level;
                DetailLevel.settings := settings;
                DetailLevel.result :=
                  createDetailedShape
                    (IndividualShape.shape (ZoomAnalysis.shape analysis)) settings |})
          levels
  end.

End Pipeline.

(* ================================================================== *)
(** * The specification's vocabulary *)

(** The number of arguments one group of a command takes. *)
Definition arity (type : ascii) : nat :=
  let lower := toLowerCase type in
  if Ascii.eqb lower "m" then 2
  else if Ascii.eqb lower "l" then 2
  else if Ascii.eqb lower "h" then 1
  else if Ascii.eqb lower "v" then 1
  else if Ascii.eqb lower "c" then 6
  else if Ascii.eqb lower "s" then 4
  else if Ascii.eqb lower "q" then 4
  else if Ascii.eqb lower "t" then 2
  else if Ascii.eqb lower "a" then 7
  else 0.

(** The specification's [clamp(x, lo, hi)]. *)
Definition clamp (v lo hi : num) : num :=
  if ltb v lo then lo else if gtb v hi then hi else v.

(** A number that is an integer. *)
Definition isInt (a : num) : Prop := exists z : Z, same a (ofZ z).



(** The [d] attribute the loop parses, if any. *)
Definition pathDataOf (svgPath : SVGResultPath) : option string :=
  match userData_node svgPath with
  | Some node =>
      match getAttribute_d node with
      | Some pathData => if String.eqb pathData "" then None else Some pathData
      | None => None
      end
  | None => None
  end.

Definition pathDatas (paths : list SVGResultPath) : list string :=
  flat_map (fun p => match pathDataOf p with Some d => [d] | None => [] end) paths.

(** An [AdvancedSVGData] with one entry of the given complexity and curve
    count, for examples. *)
Definition oneShape (complexity curveCount : num) (size : Vector2) : AdvancedSVGData.t :=
  let origin := {| x := 0; y := 0 |} in
  {| AdvancedSVGData.shapes := [];
     AdvancedSVGData.curves := [];
     AdvancedSVGData.svgString := "";
     AdvancedSVGData.individualShapes :=
       [ {| IndividualShape.shape := [];
            IndividualShape.boundingBox :=
              {| BoundingBox.min := origin; BoundingBox.max := size;
                 BoundingBox.size := size |};
            IndividualShape.complexity := complexity;
            IndividualShape.curveCount := curveCount;
            IndividualShape.pathData := "";
            IndividualShape.element := {| getAttribute_d := None |} |} ] |}.

(** The control point the parser keeps for the next smooth command. *)
Definition lastControl (this : AdvancedSVGPathParser) : Vector2 :=
  {| x := lastControlX this; y := lastControlY this |}.


(** The shape a call returned, the empty shape when it threw. *)
Definition shapeOf (call : Completion Shape) : Shape :=
  match call with
  | Returns shape => shape
  | Throws _ => new_Shape
  end.

(** The path data [parsePath] returns a shape for. *)
Definition parsedDatas (paths : list SVGResultPath) : list string :=
  filter (fun pathData =>
            match parsePath pathData with Returns _ => true | Throws _ => false end)
         (pathDatas paths).

(** The shapes [parsePath] returns for the path data of the paths, in
    order. *)
Definition parsedShapes (paths : list SVGResultPath) : list Shape :=
  flat_map (fun pathData =>
              match parsePath pathData with
              | Returns shape => [shape]
              | Throws _ => []
              end)
           (pathDatas paths).

(** The points of a polyline: one per [moveTo] and [lineTo] of numbers. *)
Definition vertices (shape : Shape) : list Vector2 :=
  flat_map (fun call =>
              match call with
              | moveTo px py => [{| x := px; y := py |}]
              | lineTo (XY px py) => [{| x := px; y := py |}]
              | _ => []
              end) shape.

(* ================================================================== *)
(** * Vocabulary for the properties of the code *)

(** The letter a command starts with. *)
Definition commandLetter (command : string) : option ascii :=
  match command with
  | String c _ => Some c
  | EmptyString => None
  end.

(** A [Z] or [z] command. *)
Definition isCloseCommand (command : string) : bool :=
  match command with
  | String c _ => Ascii.eqb (toLowerCase c) "z"
  | EmptyString => false
  end.

(** A command that draws a segment: its letter is one of L, H, V, C, S, Q,
    T, A in either case, and it carries at least the arguments of one
    group. *)
Definition drawsSegment (command : string) : bool :=
  match command with
  | EmptyString => false
  | String type rest =>
      charIn "LlHhVvCcSsQqTtAa" type
      && (arity type <=? List.length (commandCoords rest))%nat
  end.

(** The commands call for [closePath] before any of them has drawn a
    segment: a [Z] or [z] comes before every drawing command, or there is
    no drawing command. *)
Fixpoint closesBeforeDrawing (commands : list string) : bool :=
  match commands with
  | [] => true
  | command :: rest =>
      if drawsSegment command then false
      else if isCloseCommand command then true
      else closesBeforeDrawing rest
  end.

(** An [M], [L], [H] or [V] command, in either case. *)
Definition isLineCommand (command : string) : bool :=
  match command with
  | String c _ => charIn "MmLlHhVv" c
  | EmptyString => false
  end.

Definition isClosePath (call : PathCall) : bool :=
  match call with
  | closePath => true
  | _ => false
  end.

(** The number of [closePath] calls a shape received. *)
Definition closeCount (shape : Shape) : nat := List.length (filter isClosePath shape).

(** The point of the last [moveTo] a shape received, (0,0) before any. *)
Definition lastMoveTo (shape : Shape) : Vector2 :=
  fold_left (fun point call =>
               match call with
               | moveTo px py => {| x := px; y := py |}
               | _ => point
               end) shape {| x := 0; y := 0 |}.

(** The numbers of the last [moveTo] or [lineTo] a shape received, (0,0)
    before any. *)
Definition penPosition (shape : Shape) : Vector2 :=
  fold_left (fun point call =>
               match call with
               | moveTo px py => {| x := px; y := py |}
               | lineTo (XY px py) => {| x := px; y := py |}
               | _ => point
               end) shape {| x := 0; y := 0 |}.

(** An argument as [splitArgs] yields them: not empty, and without white
    space or comma. *)
Definition cleanArg (word : string) : bool :=
  negb (String.eqb word "")
  && forallb (fun c => negb (isSeparator c)) (list_ascii_of_string word).

(** A non-empty run of separators. *)
Definition isSeparatorRun (sep : string) : bool :=
  negb (String.eqb sep "") && forallb isSeparator (list_ascii_of_string sep).

(** The start of the current subpath, as the parser keeps it. *)
Definition subpathStart (this : AdvancedSVGPathParser) : Vector2 :=
  {| x := subpathStartX this; y := subpathStartY this |}.

(** A number that is neither NaN nor an infinity. *)
Definition isFinite (a : num) : bool :=
  match a with
  | Fin _ => true
  | _ => false
  end.

Definition isFinitePoint (p : Vector2) : bool := isFinite (x p) && isFinite (y p).

(** [lo <= v <= hi], or [v] is NaN. *)
Definition within (lo hi : Q) (v : num) : Prop :=
  v = NaN \/ exists q, v = Fin q /\ (lo <= q <= hi)%Q.

(** An entry of [individualShapes] holds what [analyzeShape] returns for its
    shape and its path. *)
Definition entryIsAnalysed (Shape_getPoints : Shape -> num -> list Vector2)
           (entry : IndividualShape.t) : Prop :=
  let analysis :=
    analyzeShape Shape_getPoints (IndividualShape.shape entry)
                 (IndividualShape.pathData entry) in
  parsePath (IndividualShape.pathData entry) = Returns (IndividualShape.shape entry)
  /\ IndividualShape.boundingBox entry = ShapeAnalysis.boundingBox analysis
  /\ IndividualShape.complexity entry = ShapeAnalysis.complexity analysis
  /\ IndividualShape.curveCount entry = ShapeAnalysis.curveCount analysis.

(* ================================================================== *)
(** * More of JavaScript: [parseInt], 32-bit operators, property lookup *)

Module Builtins.

(** The character class [\d]. *)
Definition isDigit (c : ascii) : bool :=
  let n := nat_of_ascii c in
  ((48 <=? n) && (n <=? 57))%nat.

(** [s.startsWith(prefix)]. *)
Definition startsWith (s prefix : string) : bool := String.prefix prefix s.

(** [s.slice(1)]. *)
Definition slice1 (s : string) : string :=
  match s with
  | String _ rest => rest
  | EmptyString => EmptyString
  end.

(** [s.toLowerCase()], ASCII part. *)
Fixpoint String_toLowerCase (s : string) : string :=
  match s with
  | String c rest => String (toLowerCase c) (String_toLowerCase rest)
  | EmptyString => EmptyString
  end.

(** The white space [parseInt] skips, ASCII part. *)
Fixpoint trimStart (s : string) : string :=
  match s with
  | String c rest => if isSpace c then trimStart rest else s
  | EmptyString => s
  end.

(** [parseInt(s, radix)]; [radix] 0 stands for a call without radix.  White
    space is skipped, then a sign, then [0x] when the radix allows it; the
    longest run of digits in the radix is the value, NaN when it is empty. *)
Definition parseInt (s : string) (radix : Z) : num :=
  let trimmed := trimStart s in
  let (negative, unsigned) :=
    match trimmed with
    | String c rest =>
        if Ascii.eqb c "-" then (true, rest)
        else if Ascii.eqb c "+" then (false, rest)
        else (false, trimmed)
    | EmptyString => (false, trimmed)
    end in
  if negb (radix =? 0)%Z && ((radix <? 2)%Z || (36 <? radix)%Z) then NaN
  else
    let stripPrefix := ((radix =? 0) || (radix =? 16))%Z in
    let given := (if radix =? 0 then 10 else radix)%Z in
    let (base, body) :=
      match unsigned with
      | String c (String x rest) =>
          if stripPrefix && Ascii.eqb c "0" && (Ascii.eqb x "x" || Ascii.eqb x "X")
          then (16%Z, rest)
          else (given, unsigned)
      | _ => (given, unsigned)
      end in
    match digits base 0 0 body with
    | (_, O, _) => NaN
    | (value, _, _) => ofZ (if negative then - value else value)
    end.

(** [s.match(/\d+/g) || []]: the maximal runs of digits, with the run the
    string starts with kept apart while scanning. *)
Fixpoint digitRuns (s : string) : string * list string :=
  match s with
  | EmptyString => (EmptyString, [])
  | String c rest =>
      let (run, runs) := digitRuns rest in
      if isDigit c
      then (String c run, runs)
      else (EmptyString,
            match run with EmptyString => runs | _ => run :: runs end)
  end.

Definition matchDigits (s : string) : list string :=
  let (run, runs) := digitRuns s in
  match run with EmptyString => runs | _ => run :: runs end.

(** ToInt32: the integer part, modulo 2^32, as a signed 32-bit number; 0 for
    NaN and the infinities. *)
Definition wrap32 (z : Z) : Z := ((z + 2 ^ 31) mod 2 ^ 32 - 2 ^ 31)%Z.

Definition ToInt32 (v : num) : Z :=
  match v with
  | Fin q => wrap32 (Z.quot (Qnum q) (Z.pos (Qden q)))
  | _ => 0%Z
  end.

(** [a << count] for a literal [count]. *)
Definition shiftLeft (a : num) (count : Z) : num :=
  ofZ (wrap32 (Z.shiftl (ToInt32 a) (count mod 32))).

(** [a | b]. *)
Definition bitOr (a b : num) : num := ofZ (Z.lor (ToInt32 a) (ToInt32 b)).

(** The values a colour variable holds: a number, [undefined], or a member
    of [Object.prototype] that a lookup by name found. *)
Inductive Value : Type :=
| Num (n : num)
| Undefined
| Inherited (key : string).

(** The names every object literal inherits from [Object.prototype]. *)
Definition objectPrototypeKeys : list string :=
  ["constructor"; "__defineGetter__"; "__defineSetter__"; "hasOwnProperty";
   "__lookupGetter__"; "__lookupSetter__"; "isPrototypeOf";
   "propertyIsEnumerable"; "toString"; "valueOf"; "__proto__";
   "toLocaleString"].

(** [object[key]] for an object literal of numbers. *)
Definition getProperty (own : list (string * num)) (key : string) : Value :=
  match find (fun entry => String.eqb (fst entry) key) own with
  | Some entry => Num (snd entry)
  | None =>
      if existsb (String.eqb key) objectPrototypeKeys
      then Inherited key
      else Undefined
  end.

(** Truthiness of a number: neither 0 nor NaN. *)
Definition truthyNum (n : num) : bool :=
  match n with
  | Fin q => negb (Qeq_bool q 0)
  | NaN => false
  | _ => true
  end.

Definition truthy (v : Value) : bool :=
  match v with
  | Num n => truthyNum n
  | Undefined => false
  | Inherited _ => true
  end.

(** [v || fallback]. *)
Definition orElse (v fallback : Value) : Value := if truthy v then v else fallback.

(** [v || fallback] for a number that may be missing. *)
Definition orNum (v : option num) (fallback : num) : num :=
  match v with
  | Some n => if truthyNum n then n else fallback
  | None => fallback
  end.

(** Truthiness of a flag that may be missing. *)
Definition isSet (flag : option bool) : bool :=
  match flag with
  | Some true => true
  | _ => false
  end.

(** [s && s !== 'none'] for an attribute, a string or null: the string when
    it is neither empty nor [none]. *)
Definition paintable (s : option string) : option string :=
  match s with
  | Some text =>
      if negb (String.eqb text "") && negb (String.eqb text "none")
      then Some text
      else None
  | None => None
  end.

End Builtins.

Import Builtins.

(* ================================================================== *)
(** * The entries of [svgData.paths], as the processors inspect them *)

(** A DOM node: [getAttribute], when the node has one, gives a string or
    null. *)
Record DomNode : Type := { getAttribute : option (string -> option string) }.

(** [userData]; [node] is absent when it is falsy. *)
Record UserData : Type := { node : option DomNode }.

(** An object among the paths: the drawing calls it holds when it is a
    [THREE.Path]; [getPoints] when it is a function, with what the call does;
    [userData] when it is truthy. *)
Record PathObject : Type := {
  self : Shape;
  getPoints : option (Completion (list Vector2));
  userData : option UserData
}.

(** A value among the paths: null or undefined, a primitive value, or an
    object. *)
Inductive LoaderPath : Type :=
| Nullish
| Primitive
| Object (o : PathObject).

(** The object literal [{}]. *)
Definition emptyObject : LoaderPath :=
  Object {| self := []; getPoints := None; userData := None |}.

(** The node of a path, [path.userData?.node]: reading [userData] of null or
    undefined throws. *)
Definition userDataNode (path : LoaderPath) : Completion (option DomNode) :=
  match path with
  | Nullish => Throws TypeError
  | Primitive => Returns None
  | Object o =>
      match userData o with
      | Some data => Returns (node data)
      | None => Returns None
      end
  end.

(** [node.getAttribute(name)]: calling what is not there throws. *)
Definition callGetAttribute (n : DomNode) (name : string) : Completion (option string) :=
  match getAttribute n with
  | Some get => Returns (get name)
  | None => Throws TypeError
  end.

(* ================================================================== *)
(** * enhancedGeometryCreator.ts *)

Module AdvancedExtrudeSettings.
Inductive BevelType : Type := round | chamfer.
Record t : Type := {
  depth : num;
  bevelEnabled : bool;
  bevelThickness : num;
  bevelSize : num;
  bevelOffset : num;
  bevelSegments : num;
  curveSegments : num;
  steps : num;
  bevelType : option BevelType;
  bevelThicknessCurve : option Curve;
  bevelSizeCurve : option Curve;
  bevelThicknessCurveTension : option num;
  bevelSizeCurveTension : option num
}.
End AdvancedExtrudeSettings.

(** The options handed to [new THREE.ExtrudeGeometry]. *)
Module ExtrudeGeometryOptions.
Record t : Type := {
  depth : num;
  bevelEnabled : bool;
  bevelThickness : num;
  bevelSize : num;
  bevelOffset : num;
  bevelSegments : num;
  curveSegments : num;
  steps : num;
  bevelThicknessCurve : option Curve;
  bevelSizeCurve : option Curve;
  bevelThicknessCurveTension : option num;
  bevelSizeCurveTension : option num
}.
End ExtrudeGeometryOptions.

Module GeometryOptimizationSettings.
Record t : Type := {
  simplify : option bool;
  simplificationRatio : option num;
  mergeVertices : option bool;
  computeNormals : option bool;
  computeTangents : option bool;
  optimizeForRendering : option bool
}.

(** The default [{}]. *)
Definition empty : t :=
  {| simplify := None; simplificationRatio := None; mergeVertices := None;
     computeNormals := None; computeTangents := None;
     optimizeForRendering := None |}.
End GeometryOptimizationSettings.

(** A [THREE.ExtrudeGeometry]: what it was constructed from, and the calls
    made on it since.  [simplifyGeometry] rewrites the position buffer
    three.js filled; the model records that it ran, and with which ratio. *)
Module ExtrudeGeometry.
Inductive Call : Type :=
| computeVertexNormals
| computeTangents
| computeBoundingBox
| computeBoundingSphere
| simplifyGeometry (ratio : num).

Record t : Type := {
  shapes : list Shape;
  options : ExtrudeGeometryOptions.t;
  calls : list Call
}.

Definition new (shapes : list Shape) (options : ExtrudeGeometryOptions.t) : t :=
  {| shapes := shapes; options := options; calls := [] |}.

Definition call (c : Call) (geometry : t) : t :=
  {| shapes := shapes geometry; options := options geometry;
     calls := calls geometry ++ [c] |}.
End ExtrudeGeometry.

Module MaterialSettings.
Inductive Kind : Type := phong | lambert | standard | physical.
Inductive Side : Type := front | back | double.
Record t : Type := {
  type : option Kind;
  color : Value;
  metalness : option num;
  roughness : option num;
  emissive : option num;
  emissiveIntensity : option num;
  shininess : option num;
  specular : option num;
  transparent : option bool;
  opacity : option num;
  side : option Side
}.

Definition setColor (v : Value) (s : t) : t :=
  {| type := type s; color := v; metalness := metalness s;
     roughness := roughness s; emissive := emissive s;
     emissiveIntensity := emissiveIntensity s; shininess := shininess s;
     specular := specular s; transparent := transparent s;
     opacity := opacity s; side := side s |}.

Definition setType (k : Kind) (s : t) : t :=
  {| type := Some k; color := color s; metalness := metalness s;
     roughness := roughness s; emissive := emissive s;
     emissiveIntensity := emissiveIntensity s; shininess := shininess s;
     specular := specular s; transparent := transparent s;
     opacity := opacity s; side := side s |}.

(** The default [{ type: 'phong' }]. *)
Definition default : t :=
  {| type := Some phong; color := Undefined; metalness := None;
     roughness := None; emissive := None; emissiveIntensity := None;
     shininess := None; specular := None; transparent := None;
     opacity := None; side := None |}.
End MaterialSettings.

(** The three.js materials, with the parameters their constructors get. *)
Module Material.
Inductive Side : Type := FrontSide | BackSide | DoubleSide.

Record Base : Type := {
  color : Value;
  transparent : bool;
  opacity : num;
  side : Side
}.

Inductive t : Type :=
| MeshStandardMaterial (base : Base) (metalness roughness emissive emissiveIntensity : num)
| MeshPhysicalMaterial (base : Base) (metalness roughness emissive emissiveIntensity : num)
| MeshLambertMaterial (base : Base)
| MeshPhongMaterial (base : Base) (shininess specular : num).

Definition baseOf (m : t) : Base :=
  match m with
  | MeshStandardMaterial base _ _ _ _ => base
  | MeshPhysicalMaterial base _ _ _ _ => base
  | MeshLambertMaterial base => base
  | MeshPhongMaterial base _ _ => base
  end.
End Material.

Module EnhancedGeometryCreator.

(** [...(value && { key: value })]: a missing, zero or NaN tension adds no
    key. *)
Definition whenTruthy (v : option num) : option num :=
  match v with
  | Some n => if truthyNum n then Some n else None
  | None => None
  end.

Definition createExtrudeSettings (settings : AdvancedExtrudeSettings.t)
  : ExtrudeGeometryOptions.t :=
  {| ExtrudeGeometryOptions.depth := AdvancedExtrudeSettings.depth settings;
     ExtrudeGeometryOptions.bevelEnabled := AdvancedExtrudeSettings.bevelEnabled settings;
     ExtrudeGeometryOptions.bevelThickness := AdvancedExtrudeSettings.bevelThickness settings;
     ExtrudeGeometryOptions.bevelSize := AdvancedExtrudeSettings.bevelSize settings;
     ExtrudeGeometryOptions.bevelOffset := AdvancedExtrudeSettings.bevelOffset settings;
     ExtrudeGeometryOptions.bevelSegments := AdvancedExtrudeSettings.bevelSegments settings;
     ExtrudeGeometryOptions.curveSegments := AdvancedExtrudeSettings.curveSegments settings;
     ExtrudeGeometryOptions.steps := AdvancedExtrudeSettings.steps settings;
     ExtrudeGeometryOptions.bevelThicknessCurve :=
       AdvancedExtrudeSettings.bevelThicknessCurve settings;
     ExtrudeGeometryOptions.bevelSizeCurve :=
       AdvancedExtrudeSettings.bevelSizeCurve settings;
     ExtrudeGeometryOptions.bevelThicknessCurveTension :=
       whenTruthy (AdvancedExtrudeSettings.bevelThicknessCurveTension settings);
     ExtrudeGeometryOptions.bevelSizeCurveTension :=
       whenTruthy (AdvancedExtrudeSettings.bevelSizeCurveTension settings) |}.

(** [mergeVertices] only writes to the console. *)
Definition applyOptimizations (geometry : ExtrudeGeometry.t)
                              (settings : GeometryOptimizationSettings.t)
  : ExtrudeGeometry.t :=
  let normals :=
    if isSet (GeometryOptimizationSettings.computeNormals settings)
    then ExtrudeGeometry.call ExtrudeGeometry.computeVertexNormals geometry
    else geometry in
  let tangents :=
    if isSet (GeometryOptimizationSettings.computeTangents settings)
    then ExtrudeGeometry.call ExtrudeGeometry.computeTangents normals
    else normals in
  let bounds :=
    if isSet (GeometryOptimizationSettings.optimizeForRendering settings)
    then ExtrudeGeometry.call ExtrudeGeometry.computeBoundingSphere
           (ExtrudeGeometry.call ExtrudeGeometry.computeBoundingBox tangents)
    else tangents in
  if isSet (GeometryOptimizationSettings.simplify settings) then
    match whenTruthy (GeometryOptimizationSettings.simplificationRatio settings) with
    | Some ratio => ExtrudeGeometry.call (ExtrudeGeometry.simplifyGeometry ratio) bounds
    | None => bounds
    end
  else bounds.

(** [shapes] is an array; [optimizationSettings] defaults to
    [GeometryOptimizationSettings.empty]. *)
Definition createExtrudeGeometry (shapes : list Shape)
                                 (extrudeSettings : AdvancedExtrudeSettings.t)
                                 (optimizationSettings : GeometryOptimizationSettings.t)
  : Completion ExtrudeGeometry.t :=
  match shapes with
  | [] => Throws (Error "No shapes provided for geometry creation")
  | _ =>
      let settings := createExtrudeSettings extrudeSettings in
      let geometry := ExtrudeGeometry.new shapes settings in
      Returns (applyOptimizations geometry optimizationSettings)
  end.

(** The default of [targetVertices]. *)
Definition defaultTargetVertices : num := 50000.

Definition createUltraHighSegmentGeometry (shapes : list Shape) (targetVertices : num)
  : Completion ExtrudeGeometry.t :=
  let estimatedVerticesPerShape := (targetVertices / ofNat (List.length shapes))%num in
  let curveSegments :=
    Math_max 256 (Math_min 512 (Math_floor (estimatedVerticesPerShape / 10)%num)) in
  let bevelSegments :=
    Math_max 12 (Math_min 24 (Math_floor (curveSegments / 20)%num)) in
  let steps :=
    Math_max 4 (Math_min 8 (Math_floor (curveSegments / 50)%num)) in
  let ultraSettings :=
    {| AdvancedExtrudeSettings.depth := 10;
       AdvancedExtrudeSettings.bevelEnabled := true;
       AdvancedExtrudeSettings.bevelThickness := 2;
       AdvancedExtrudeSettings.bevelSize := 1;
       AdvancedExtrudeSettings.bevelOffset := 0;
       AdvancedExtrudeSettings.bevelSegments := bevelSegments;
       AdvancedExtrudeSettings.curveSegments := curveSegments;
       AdvancedExtrudeSettings.steps := steps;
       AdvancedExtrudeSettings.bevelType := None;
       AdvancedExtrudeSettings.bevelThicknessCurve := None;
       AdvancedExtrudeSettings.bevelSizeCurve := None;
       AdvancedExtrudeSettings.bevelThicknessCurveTension := None;
       AdvancedExtrudeSettings.bevelSizeCurveTension := None |} in
  let optimizationSettings :=
    {| GeometryOptimizationSettings.simplify := Some false;
       GeometryOptimizationSettings.simplificationRatio := None;
       GeometryOptimizationSettings.mergeVertices := Some true;
       GeometryOptimizationSettings.computeNormals := Some true;
       GeometryOptimizationSettings.computeTangents := Some true;
       GeometryOptimizationSettings.optimizeForRendering := Some true |} in
  createExtrudeGeometry shapes ultraSettings optimizationSettings.

(** ** Materials *)

Definition namedColors : list (string * num) :=
  [("red", 0xff0000); ("green", 0x00ff00); ("blue", 0x0000ff);
   ("black", 0x000000); ("white", 0xffffff); ("gray", 0x808080);
   ("yellow", 0xffff00); ("cyan", 0x00ffff); ("magenta", 0xff00ff)]%num.

Definition parseColor (colorString : string) : Value :=
  if startsWith colorString "#" then Num (parseInt (slice1 colorString) 16)
  else
    let named :=
      orElse (getProperty namedColors (String_toLowerCase colorString))
             (Num 0x666666) in
    if startsWith colorString "rgb" then
      match matchDigits colorString with
      | m0 :: m1 :: m2 :: _ =>
          let r := parseInt m0 0 in
          let g := parseInt m1 0 in
          let b := parseInt m2 0 in
          Num (bitOr (bitOr (shiftLeft r 16) (shiftLeft g 8)) b)
      | _ => named
      end
    else named.

Definition colors : list num :=
  [0xff6b6b; 0x4ecdc4; 0x45b7d1; 0x96ceb4; 0xfeca57;
   0xff9ff3; 0x54a0ff; 0x5f27cd; 0x00d2d3; 0xff9f43;
   0xee5a24; 0x0984e3; 0x6c5ce7; 0xa29bfe; 0xfd79a8]%num.

(** [index] is the counter of a loop over an array. *)
Definition generateColor (index : nat) : Value :=
  match nth_error colors (index mod List.length colors) with
  | Some c => Num c
  | None => Undefined
  end.

Definition createMaterial (settings : MaterialSettings.t) : Material.t :=
  let baseMaterial :=
    {| Material.color := orElse (MaterialSettings.color settings) (Num 0x666666);
       Material.transparent := isSet (MaterialSettings.transparent settings);
       Material.opacity := orNum (MaterialSettings.opacity settings) 1;
       Material.side :=
         match MaterialSettings.side settings with
         | Some MaterialSettings.double => Material.DoubleSide
         | Some MaterialSettings.back => Material.BackSide
         | _ => Material.FrontSide
         end |} in
  match MaterialSettings.type settings with
  | Some MaterialSettings.standard =>
      Material.MeshStandardMaterial baseMaterial
        (orNum (MaterialSettings.metalness settings) 0)
        (orNum (MaterialSettings.roughness settings) (Fin 0.5))
        (orNum (MaterialSettings.emissive settings) 0x000000)
        (orNum (MaterialSettings.emissiveIntensity settings) 0)
  | Some MaterialSettings.physical =>
      Material.MeshPhysicalMaterial baseMaterial
        (orNum (MaterialSettings.metalness settings) 0)
        (orNum (MaterialSettings.roughness settings) (Fin 0.5))
        (orNum (MaterialSettings.emissive settings) 0x000000)
        (orNum (MaterialSettings.emissiveIntensity settings) 0)
  | Some MaterialSettings.lambert =>
      Material.MeshLambertMaterial baseMaterial
  | _ =>
      Material.MeshPhongMaterial baseMaterial
        (orNum (MaterialSettings.shininess settings) 30)
        (orNum (MaterialSettings.specular settings) 0x111111)
  end.

(** [{ color: settings.color || 0x666666, ...settings, type: settings.type ||
    'phong' }]: the spread puts [settings.color] back when [settings] has
    one. *)
Definition createDefaultMaterial (settings : MaterialSettings.t) : Material.t :=
  let color :=
    match MaterialSettings.color settings with
    | Undefined => Num 0x666666
    | given => given
    end in
  let type :=
    match MaterialSettings.type settings with
    | Some given => given
    | None => MaterialSettings.phong
    end in
  createMaterial (MaterialSettings.setType type (MaterialSettings.setColor color settings)).

Definition createMaterialForPath (path : LoaderPath)
                                 (baseSettings : MaterialSettings.t) (index : nat)
  : Completion Material.t :=
  let* found := userDataNode path in
  let* settings :=
    match found with
    | Some n =>
        let* fill := callGetAttribute n "fill" in
        let* stroke := callGetAttribute n "stroke" in
        match paintable fill with
        | Some text =>
            Returns (MaterialSettings.setColor (parseColor text) baseSettings)
        | None =>
            match paintable stroke with
            | Some line =>
                Returns (MaterialSettings.setColor (parseColor line) baseSettings)
            | None => Returns baseSettings
            end
        end
    | None => Returns baseSettings
    end in
  let coloured :=
    if truthy (MaterialSettings.color settings)
    then settings
    else MaterialSettings.setColor (generateColor index) settings in
  Returns (createMaterial coloured).

(** The loop of [createAdvancedMaterials], from the index [i] on. *)
Fixpoint createMaterialsFrom (i : nat) (paths : list LoaderPath)
                             (materialSettings : MaterialSettings.t)
  : Completion (list Material.t) :=
  match paths with
  | [] => Returns []
  | path :: rest =>
      let* material := createMaterialForPath path materialSettings i in
      let* materials := createMaterialsFrom (S i) rest materialSettings in
      Returns (material :: materials)
  end.

(** [materialSettings] defaults to [MaterialSettings.default]. *)
Definition createAdvancedMaterials (paths : list LoaderPath)
                                   (materialSettings : MaterialSettings.t)
  : Completion (list Material.t) :=
  let* materials := createMaterialsFrom 0 paths materialSettings in
  match materials with
  | [] => Returns [createDefaultMaterial materialSettings]
  | _ => Returns materials
  end.

Definition createMultiMaterialGeometry (shapes : list Shape)
                                       (extrudeSettings : AdvancedExtrudeSettings.t)
                                       (materialSettings : MaterialSettings.t)
  : Completion (ExtrudeGeometry.t * list Material.t) :=
  let* geometry :=
    createExtrudeGeometry shapes extrudeSettings GeometryOptimizationSettings.empty in
  let type :=
    match MaterialSettings.type materialSettings with
    | Some given => given
    | None => MaterialSettings.phong
    end in
  let* materials :=
    createAdvancedMaterials (map (fun _ => emptyObject) shapes)
                            (MaterialSettings.setType type materialSettings) in
  Returns (geometry, materials).

End EnhancedGeometryCreator.

(* ================================================================== *)
(** * The simple processor: [createFallbackGeometry], [processSVGPaths],
      [processSVGFile] *)

Module SimpleProcessor.

Record SVGData : Type := {
  paths : list Shape;
  svgString : string
}.

Record ProcessedSVGResult : Type := {
  success : bool;
  data : option SVGData;
  error : option string
}.

(** What the [FileReader] and the [SVGLoader] do with a file: the read
    fails; the text is read and loading it throws; or the text is read and
    the loader returns, with or without [svgData.paths]. *)
Inductive FileEvent : Type :=
| ReadFails
| LoadThrows (text : string)
| Loaded (text : string) (paths : option (list LoaderPath)).

(** [createFallbackGeometry()]: the path after [moveTo], three [lineTo]
    and [closePath], which returns, a [lineTo] having come before it (see
    [createFallbackGeometry_calls]). *)
Definition createFallbackGeometry : Shape :=
  let drawn :=
    Shape_lineTo (-10) 10
      (Shape_lineTo 10 10
        (Shape_lineTo 10 (-10)
          (Shape_moveTo (-10) (-10) new_Shape))) in
  match Shape_closePath drawn with
  | Returns closed => closed
  | Throws _ => drawn
  end.

(** The five calls of "create a simple square", written five times in
    [processSVGPaths], on the path as it is; [closePath] returns, a
    [lineTo] having come before it (see [simpleSquare_calls]). *)
Definition simpleSquare (newPath : Shape) : Shape :=
  let drawn :=
    Shape_lineTo (-8) 8
      (Shape_lineTo 8 8
        (Shape_lineTo 8 (-8)
          (Shape_moveTo (-8) (-8) newPath))) in
  match Shape_closePath drawn with
  | Returns closed => closed
  | Throws _ => drawn
  end.

(** The callback of [svgData.paths.map].  Its outer [try] catches the
    [TypeError] of reading [userData] of null or undefined and what
    [getPoints] throws; the inner one catches what [parseSVGPath] throws and
    draws the square on the same path, after the calls already made. *)
Definition processSVGPath (svgPath : LoaderPath) : Shape :=
  match svgPath with
  | Nullish => createFallbackGeometry
  | Primitive => simpleSquare new_Shape
  | Object o =>
      match getPoints o with
      | Some (Returns points) =>
          if (0 <? List.length points)%nat then self o else createFallbackGeometry
      | Some (Throws _) => createFallbackGeometry
      | None =>
          let newPath := new_Shape in
          match userData o with
          | Some data =>
              match node data with
              | Some n =>
                  match getAttribute n with
                  | Some get =>
                      match get "d" with
                      | Some pathData =>
                          if String.eqb pathData ""
                          then simpleSquare newPath
                          else
                            match SimpleParser.parseSVGPath pathData newPath with
                            | (drawn, None) => drawn
                            | (drawn, Some _) => simpleSquare drawn
                            end
                      | None => simpleSquare newPath
                      end
                  | None => simpleSquare newPath
                  end
              | None => simpleSquare newPath
              end
          | None => simpleSquare newPath
          end
      end
  end.

Definition processSVGPaths (svgDataPaths : list LoaderPath) : list Shape :=
  map processSVGPath svgDataPaths.

Definition processSVGFile (file : FileEvent) : ProcessedSVGResult :=
  match file with
  | ReadFails =>
      {| success := false; data := None; error := Some "Failed to read file" |}
  | LoadThrows text =>
      {| success := true;
         data := Some {| paths := [createFallbackGeometry]; svgString := text |};
         error := None |}
  | Loaded text None
  | Loaded text (Some []) =>
      {| success := true;
         data := Some {| paths := [createFallbackGeometry]; svgString := text |};
         error := None |}
  | Loaded text (Some svgDataPaths) =>
      {| success := true;
         data := Some {| paths := processSVGPaths svgDataPaths; svgString := text |};
         error := None |}
  end.

End SimpleProcessor.

(* ================================================================== *)
(** * improvedSvgProcessor.ts: colours, materials, [enhanceShapeSegments] *)

Module ImprovedSVGProcessor.

(** The parameters of [new THREE.MeshPhongMaterial]. *)
Record MeshPhongMaterial : Type := {
  color : Value;
  shininess : option num;
  specular : option num
}.

Definition namedColors : list (string * num) :=
  [("red", 0xff0000); ("green", 0x00ff00); ("blue", 0x0000ff);
   ("black", 0x000000); ("white", 0xffffff); ("gray", 0x808080)]%num.

Definition parseColor (colorString : string) : Value :=
  if startsWith colorString "#" then Num (parseInt (slice1 colorString) 16)
  else
    let named :=
      orElse (getProperty namedColors (String_toLowerCase colorString))
             (Num 0x666666) in
    if startsWith colorString "rgb" then
      match matchDigits colorString with
      | m0 :: m1 :: m2 :: _ =>
          let r := parseInt m0 0 in
          let g := parseInt m1 0 in
          let b := parseInt m2 0 in
          Num (bitOr (bitOr (shiftLeft r 16) (shiftLeft g 8)) b)
      | _ => named
      end
    else named.

Definition extractColorFromPath (path : LoaderPath) : Completion Value :=
  let* found := userDataNode path in
  match found with
  | Some n =>
      let* fill := callGetAttribute n "fill" in
      let* stroke := callGetAttribute n "stroke" in
      match paintable fill with
      | Some text => Returns (parseColor text)
      | None =>
          match paintable stroke with
          | Some line => Returns (parseColor line)
          | None => Returns (Num 0x666666)
          end
      end
  | None => Returns (Num 0x666666)
  end.

(** The loop of [createMaterials]. *)
Fixpoint createMaterialsLoop (paths : list LoaderPath)
  : Completion (list MeshPhongMaterial) :=
  match paths with
  | [] => Returns []
  | path :: rest =>
      let* color := extractColorFromPath path in
      let material :=
        {| color := color; shininess := Some 30%num; specular := Some 0x111111%num |} in
      let* materials := createMaterialsLoop rest in
      Returns (material :: materials)
  end.

Definition createMaterials (paths : list LoaderPath)
  : Completion (list MeshPhongMaterial) :=
  let* materials := createMaterialsLoop paths in
  match materials with
  | [] => Returns [{| color := Num 0x666666; shininess := None; specular := None |}]
  | _ => Returns materials
  end.

(** [enhanceShapeSegments(shape)]: [points] is what
    [shape.getPoints(this.options.curveSegments)] returned, [autoClose] the
    flag of the shape.  The method has no [try]: what [closePath] throws,
    it throws. *)
Definition enhanceShapeSegments (points : list Vector2) (autoClose : bool)
  : Completion Shape :=
  let enhancedShape := new_Shape in
  match points with
  | [] => Returns enhancedShape
  | first :: _ =>
      let moved := Shape_moveTo (x first) (y first) enhancedShape in
      let drawn :=
        fold_left (fun shape point => Shape_lineTo (x point) (y point) shape)
                  (tl points) moved in
      if negb autoClose then Shape_closePath drawn else Returns drawn
  end.

End ImprovedSVGProcessor.

(* ================================================================== *)
(** * Vocabulary for the properties of the simple parser and the colours *)

(** A call that draws no sampled curve point. *)
Definition isStraight (call : PathCall) : bool :=
  match call with
  | lineTo (Sampled _ _ _) => false
  | _ => true
  end.

(** A command that makes the simple parser draw a line: H and V always, L
    and the letters without a case of their own (C, S, Q, T, A) with two
    arguments or more. *)
Definition drawsLine (command : string) : bool :=
  match command with
  | EmptyString => false
  | String type rest =>
      let lower := toLowerCase type in
      if Ascii.eqb lower "m" then false
      else if Ascii.eqb lower "z" then false
      else if Ascii.eqb lower "h" then true
      else if Ascii.eqb lower "v" then true
      else (2 <=? List.length (commandCoords rest))%nat
  end.

(** The commands ask the simple parser to close the path before one of them
    has drawn a line: a [Z] or [z] comes before every command that draws, or
    no command draws. *)
Fixpoint closesBeforeLine (commands : list string) : bool :=
  match commands with
  | [] => true
  | command :: rest =>
      if drawsLine command then false
      else if isCloseCommand command then true
      else closesBeforeLine rest
  end.

(** The text the [FileReader] read, when it did. *)
Definition textOf (file : SimpleProcessor.FileEvent) : option string :=
  match file with
  | SimpleProcessor.ReadFails => None
  | SimpleProcessor.LoadThrows text => Some text
  | SimpleProcessor.Loaded text _ => Some text
  end.

(** The paths the loader returned, none when it threw or returned without. *)
Definition loadedPaths (file : SimpleProcessor.FileEvent) : list LoaderPath :=
  match file with
  | SimpleProcessor.Loaded _ (Some svgDataPaths) => svgDataPaths
  | _ => []
  end.

(** A path of the loader for an element whose [d] attribute is as given. *)
Definition pathWithData (d : option string) : LoaderPath :=
  Object {| self := [];
            getPoints := None;
            userData :=
              Some {| node :=
                        Some {| getAttribute :=
                                  Some (fun name =>
                                          if String.eqb name "d" then d else None) |} |} |}.

(** Both [parseColor] methods are this function of their table of names. *)
Definition parseColorWith (table : list (string * num)) (colorString : string) : Value :=
  if startsWith colorString "#" then Num (parseInt (slice1 colorString) 16)
  else
    let named :=
      orElse (getProperty table (String_toLowerCase colorString)) (Num 0x666666) in
    if startsWith colorString "rgb" then
      match matchDigits colorString with
      | m0 :: m1 :: m2 :: _ =>
          Num (bitOr (bitOr (shiftLeft (parseInt m0 0) 16) (shiftLeft (parseInt m1 0) 8))
                     (parseInt m2 0))
      | _ => named
      end
    else named.

(** The decimal digits of a natural number. *)
Definition decimal (n : nat) : string := NilEmpty.string_of_uint (Nat.to_uint n).

(** A channel of a colour: a whole number in 0..255. *)
Definition isChannel (n : nat) : bool := (n <=? 255)%nat.

(** A string of hexadecimal digits. *)
Definition isHex (s : string) : bool :=
  forallb (fun c => match digitValue 16 c with Some _ => true | None => false end)
          (list_ascii_of_string s).

(** A string without a digit. *)
Definition digitFree (s : string) : bool :=
  forallb (fun c => negb (isDigit c)) (list_ascii_of_string s).

(** A string that does not start with a digit. *)
Definition startsWithoutDigit (s : string) : bool :=
  match s with
  | String c _ => negb (isDigit c)
  | EmptyString => true
  end.

(** A string of decimal digits. *)
Definition allDigits (s : string) : bool :=
  forallb isDigit (list_ascii_of_string s).

(** The number a string of hexadecimal digits spells. *)
Definition hexValue (s : string) : Z :=
  fold_left (fun acc c =>
               (16 * acc + match digitValue 16 c with Some d => d | None => 0 end)%Z)
            (list_ascii_of_string s) 0%Z.

(** The colour and the opacity a material was constructed with. *)
Definition colorOf (m : Material.t) : Value := Material.color (Material.baseOf m).
Definition opacityOf (m : Material.t) : num := Material.opacity (Material.baseOf m).

(** A path whose node has a [getAttribute] that answers [fill] and [stroke]
    as given, and nothing else. *)
Definition paintedPath (fill stroke : option string) : LoaderPath :=
  Object {| self := [];
            getPoints := None;
            userData :=
              Some {| node :=
                        Some {| getAttribute :=
                                  Some (fun name =>
                                          if String.eqb name "fill" then fill
                                          else if String.eqb name "stroke" then stroke
                                          else None) |} |} |}.

(** A path that makes the material code throw: null or undefined, or a node
    without [getAttribute]. *)
Definition isMalformed (path : LoaderPath) : bool :=
  match path with
  | Nullish => true
  | Primitive => false
  | Object o =>
      match userData o with
      | Some data =>
          match node data with
          | Some n => match getAttribute n with Some _ => false | None => true end
          | None => false
          end
      | None => false
      end
  end.

(* ================================================================== *)
(** * Numbers: lemmas *)

Lemma Qltb_lt (a b : Q) : Qltb a b = true <-> (a < b)%Q.
Proof.
  unfold Qltb. rewrite negb_true_iff, <- not_true_iff_false, Qle_bool_iff.
  split; [apply Qnot_le_lt | apply Qlt_not_le].
Qed.

Lemma Qltb_ge (a b : Q) : Qltb a b = false <-> (b <= a)%Q.
Proof.
  unfold Qltb. rewrite negb_false_iff. apply Qle_bool_iff.
Qed.

Lemma fin_same (p q : Q) : (p == q)%Q -> fin p = fin q.
Proof. intros H. unfold fin. f_equal. now apply Qred_complete. Qed.

(** [Math.max(lo, Math.min(hi, v))] lies between its bounds, or is NaN. *)
Lemma max_min_range (lo hi : Q) (v : num) :
  (lo <= hi)%Q ->
  Math_max (Fin lo) (Math_min (Fin hi) v) = NaN
  \/ exists q, Math_max (Fin lo) (Math_min (Fin hi) v) = Fin q /\ (lo <= q <= hi)%Q.
Proof.
  intros Hle. destruct v as [q | | |]; simpl.
  - right. destruct (Qltb q hi) eqn:E1; simpl.
    + destruct (Qltb lo q) eqn:E2.
      * exists q. apply Qltb_lt in E1, E2. split; [reflexivity | split; lra].
      * exists lo. split; [reflexivity | split; lra].
    + destruct (Qltb lo hi) eqn:E2.
      * exists hi. split; [reflexivity | split; lra].
      * exists lo. apply Qltb_ge in E2. split; [reflexivity | split; lra].
  - right. destruct (Qltb lo hi) eqn:E2.
    + exists hi. split; [reflexivity | split; lra].
    + exists lo. apply Qltb_ge in E2. split; [reflexivity | split; lra].
  - right. exists lo. split; [reflexivity | split; lra].
  - now left.
Qed.

(** [Math.max(lo, Math.min(hi, v))] is the specification's clamp. *)
Lemma max_min_clamp (lo hi : Q) (v : num) :
  (lo <= hi)%Q ->
  same (Math_max (Fin lo) (Math_min (Fin hi) v)) (clamp v (Fin lo) (Fin hi)).
Proof.
  intros Hle. unfold clamp, gtb. destruct v as [q | | |]; simpl.
  - destruct (Qltb q hi) eqn:E1; simpl.
    + destruct (Qltb lo q) eqn:E2; destruct (Qltb q lo) eqn:E3; simpl;
        try apply Qltb_lt in E1; try apply Qltb_lt in E2; try apply Qltb_lt in E3;
        try apply Qltb_ge in E2; try apply Qltb_ge in E3; try lra.
      * destruct (Qltb hi q) eqn:E4; simpl; [apply Qltb_lt in E4 |]; lra.
      * destruct (Qltb hi q) eqn:E4; simpl; [apply Qltb_lt in E4 |]; lra.
    + apply Qltb_ge in E1.
      destruct (Qltb q lo) eqn:E3; [apply Qltb_lt in E3; lra |].
      destruct (Qltb lo hi) eqn:E2; destruct (Qltb hi q) eqn:E4; simpl;
        try apply Qltb_lt in E2; try apply Qltb_lt in E4;
        try apply Qltb_ge in E2; try apply Qltb_ge in E4; lra.
  - destruct (Qltb lo hi) eqn:E2; simpl; [| apply Qltb_ge in E2]; lra.
  - lra.
  - exact I.
Qed.

(** A floor of a product stays below the product's bound. *)
Lemma floor_mul_below (q m : Q) (limit : Z) :
  (q * m <= inject_Z limit)%Q ->
  gtb (Math_floor (Fin q * Fin m)%num) (ofZ limit) = false.
Proof.
  intros H. unfold JS.mul, fin, Math_floor, gtb, ofZ, ltb. apply Qltb_ge.
  rewrite <- Zle_Qle. rewrite <- (Qfloor_Z limit).
  apply Qfloor_resp_le. now rewrite Qred_correct.
Qed.

(** A clamped floor is a whole number. *)
Lemma max_min_floor_whole (lo hi : Z) (v : num) :
  Math_max (ofZ lo) (Math_min (ofZ hi) (Math_floor v)) = NaN
  \/ exists z, Math_max (ofZ lo) (Math_min (ofZ hi) (Math_floor v)) = ofZ z.
Proof.
  destruct v as [q | | |]; cbn [Math_floor].
  - right. unfold ofZ. cbn [Math_min Math_max ltb].
    destruct (Qltb (inject_Z (Qfloor q)) (inject_Z hi));
      cbn [ltb];
      match goal with
      | |- context [if ?b then _ else _] => destruct b
      end; eauto.
  - right. unfold ofZ. cbn [Math_min Math_max ltb].
    match goal with
    | |- context [if ?b then _ else _] => destruct b
    end; eauto.
  - right. exists lo. reflexivity.
  - now left.
Qed.

Lemma floor_times_one (v : num) : Math_floor (v * Fin 1)%num = Math_floor v.
Proof.
  destruct v as [q | | |]; try reflexivity.
  unfold JS.mul, fin, Math_floor. f_equal.
  apply Qfloor_comp. rewrite Qred_correct. ring.
Qed.

(** A plan's steps: a whole number from 1 to 4, or NaN. *)
Lemma plan_steps_whole (v : num) :
  Math_max 1 (Math_min 4 (Math_floor v)) = NaN
  \/ exists z, Math_max 1 (Math_min 4 (Math_floor v)) = ofZ z /\ (1 <= z <= 4)%Z.
Proof.
  pose proof (max_min_floor_whole 1 4 v) as W.
  change (ofZ 1) with 1%num in W. change (ofZ 4) with 4%num in W.
  destruct W as [E | [z E]]; [now left | right].
  exists z. split; [exact E |].
  pose proof (@max_min_range 1 4 (Math_floor v)) as R.
  change (Fin 1) with 1%num in R. change (Fin 4) with 4%num in R.
  destruct R as [N | [q [N [Hlo Hhi]]]]; [lra | rewrite E in N; discriminate N |].
  rewrite E in N. injection N as <-.
  change 1%Q with (inject_Z 1) in Hlo. change 4%Q with (inject_Z 4) in Hhi.
  rewrite <- Zle_Qle in Hlo, Hhi. lia.
Qed.

(** A plan's steps, taken once and rounded down, are the plan's steps. *)
Lemma steps_times_one (v : num) :
  Math_max 1 (Math_floor (Math_max 1 (Math_min 4 (Math_floor v)) * Fin 1)%num)
  = Math_max 1 (Math_min 4 (Math_floor v)).
Proof.
  rewrite floor_times_one.
  destruct (plan_steps_whole v) as [N | [z [E Hz]]]; rewrite ?N, ?E; [reflexivity |].
  replace (Math_floor (ofZ z)) with (ofZ z)
    by (unfold Math_floor, ofZ; now rewrite Qfloor_Z).
  change 1%num with (ofZ 1). unfold Math_max, ofZ, ltb.
  destruct (Qltb (inject_Z 1) (inject_Z z)) eqn:L; [reflexivity |].
  apply Qltb_ge in L. rewrite <- Zle_Qle in L.
  assert (z = 1%Z) by lia. now subst z.
Qed.

(** Numbers that are the same have the same floor. *)
Lemma floor_same (a b : num) : same a b -> same (Math_floor a) (Math_floor b).
Proof.
  destruct a as [p | | |], b as [q | | |]; cbn [same Math_floor]; try tauto.
  intros H. unfold ofZ. cbn [same]. now rewrite (Qfloor_comp _ _ H).
Qed.

(* ================================================================== *)
(** * The detail planner *)

Lemma plan_of_entry (Vector2_length : Vector2 -> num)
      (svgData : AdvancedSVGData.t) (shapeIndex : nat) (plan : ZoomAnalysis.t) :
  analyzeShapeForZoom Vector2_length svgData shapeIndex = Some plan ->
  exists entry,
    nth_error (AdvancedSVGData.individualShapes svgData) shapeIndex = Some entry
    /\ DetailedShapeSettings.curveSegments (ZoomAnalysis.optimalSettings plan)
       = Math_max 32 (Math_min 128 (IndividualShape.complexity entry / 5)%num).
Proof.
  unfold analyzeShapeForZoom.
  destruct (nth_error (AdvancedSVGData.individualShapes svgData) shapeIndex) as [entry |];
    [| discriminate].
  intros H. injection H as <-. exists entry. split; reflexivity.
Qed.

(** A rung's [curveSegments] for a multiplier of at most 4. *)
Lemma rung_below_ceiling (v : num) (m : Q) :
  (0 <= m <= 4)%Q ->
  gtb (Math_floor (Math_max 32 (Math_min 128 v) * Fin m)%num) 512 = false.
Proof.
  intros Hm.
  destruct (@max_min_range 32 128 v) as [E | [q [E [Hlo Hhi]]]]; [lra | |];
    change (Fin 32) with 32%num in E; change (Fin 128) with 128%num in E; rewrite E.
  - reflexivity.
  - apply floor_mul_below. change (inject_Z 512) with 512%Q. nra.
Qed.

(** C7: for every shape analysis and every rung of the ladder (Low x0.5,
    Medium x1, High x2, Ultra x4), the planned [curveSegments] (the
    specification's [curveResolution]) is never greater than 512; the ladder
    of a shape that exists has exactly these four rungs, and the plan itself
    obeys the same ceiling. *)
Theorem C7_curveSegments_never_exceed_512
        (Shape_getPoints : Shape -> num -> list Vector2)
        (Vector2_length : Vector2 -> num)
        (svgData : AdvancedSVGData.t) (shapeIndex : nat) :
  Forall (fun rung =>
            gtb (DetailedShapeSettings.curveSegments (DetailLevel.settings rung)) 512
            = false)
         (createProgressiveDetailLevels Shape_getPoints Vector2_length svgData shapeIndex)
  /\ map DetailLevel.level
         (createProgressiveDetailLevels Shape_getPoints Vector2_length svgData shapeIndex)
     = (if (shapeIndex <? List.length (AdvancedSVGData.individualShapes svgData))%nat
        then [1; 2; 3; 4]%nat else [])
  /\ match analyzeShapeForZoom Vector2_length svgData shapeIndex with
     | Some plan =>
         gtb (DetailedShapeSettings.curveSegments (ZoomAnalysis.optimalSettings plan)) 512
         = false
     | None => True
     end.
Proof.
  unfold createProgressiveDetailLevels.
  destruct (analyzeShapeForZoom Vector2_length svgData shapeIndex) as [plan |] eqn:E.
  - destruct (plan_of_entry _ _ _ E) as [entry [Hnth Hcs]].
    assert (Hlt : (shapeIndex <? List.length (AdvancedSVGData.individualShapes svgData))%nat
                  = true).
    { apply Nat.ltb_lt, nth_error_Some. now rewrite Hnth. }
    rewrite Hlt. split; [| split; [reflexivity |]].
    + unfold levels. simpl map.
      repeat constructor; cbn [DetailLevel.settings levelSettings
                               DetailedShapeSettings.curveSegments];
        rewrite Hcs; apply rung_below_ceiling; lra.
    + rewrite Hcs.
      destruct (@max_min_range 32 128 (IndividualShape.complexity entry / 5)%num)
        as [N | [q [N [Hlo Hhi]]]]; [lra | |];
        change (Fin 32) with 32%num in N; change (Fin 128) with 128%num in N; rewrite N.
      * reflexivity.
      * unfold gtb, ofZ, ltb. apply Qltb_ge. change (inject_Z 512) with 512%Q. lra.
  - unfold analyzeShapeForZoom in E.
    destruct (nth_error (AdvancedSVGData.individualShapes svgData) shapeIndex) eqn:Hnth;
      [discriminate |].
    apply nth_error_None in Hnth.
    assert (Hge : (shapeIndex <? List.length (AdvancedSVGData.individualShapes svgData))%nat
                  = false) by now apply Nat.ltb_ge.
    rewrite Hge. repeat split. constructor.
Qed.

(** The ceiling is reached: a shape of complexity 100051 has an Ultra rung of
    exactly 512 curve segments. *)
Example ultra_rung_reaches_512
        (Shape_getPoints : Shape -> num -> list Vector2)
        (Vector2_length : Vector2 -> num) :
  map (fun rung => DetailedShapeSettings.curveSegments (DetailLevel.settings rung))
      (createProgressiveDetailLevels Shape_getPoints Vector2_length
         (oneShape 100051 10000 {| x := 3; y := 4 |}) 0)
  = [64; 128; 256; 512]%num.
Proof. reflexivity. Qed.

(** The other resolution of the settings, [resolution], has no such ceiling:
    the same shape's Ultra rung samples 800 points per curve. *)
Example ultra_rung_resolution_is_800
        (Shape_getPoints : Shape -> num -> list Vector2)
        (Vector2_length : Vector2 -> num) :
  map (fun rung => DetailedShapeSettings.resolution (DetailLevel.settings rung))
      (createProgressiveDetailLevels Shape_getPoints Vector2_length
         (oneShape 100051 10000 {| x := 3; y := 4 |}) 0)
  = [100; 200; 400; 800]%num.
Proof. reflexivity. Qed.

(** C8, as stated, fails on the Medium rung, the second of the ladder, for a
    shape of complexity 163 with five curve commands: its [curveSegments]
    is 32, the floor of clamp(163/5, 32, 128) = 32.6 and not that number,
    and its [bevelSegments] is 5/2, which is not an integer. *)
Lemma C8_medium_rung_is_floored_and_bevel_is_not :
  (fun (Shape_getPoints : Shape -> num -> list Vector2)
       (Vector2_length : Vector2 -> num) =>
     map (fun rung =>
            (DetailLevel.level rung,
             DetailedShapeSettings.curveSegments (DetailLevel.settings rung),
             DetailedShapeSettings.bevelSegments (DetailLevel.settings rung)))
         (createProgressiveDetailLevels Shape_getPoints Vector2_length
            (oneShape 163 5 {| x := 3; y := 4 |}) 0))
  = (fun _ _ =>
       [(1%nat, 16%num, Fin (5 # 2)); (2%nat, 32%num, Fin (5 # 2));
        (3%nat, 65%num, Fin (5 # 2)); (4%nat, 130%num, Fin (5 # 2))])
  /\ clamp (163 / 5)%num 32 128 = Fin (163 # 5)
  /\ ~ same 32%num (clamp (163 / 5)%num 32 128)
  /\ clamp (5 / 2)%num 2 8 = Fin (5 # 2)
  /\ ~ isInt (Fin (5 # 2)).
Proof.
  split; [reflexivity |]. split; [reflexivity |].
  split; [vm_compute; discriminate |]. split; [reflexivity |].
  intros [z Hz]. unfold same, ofZ, Qeq, inject_Z in Hz. cbn [Qnum Qden] in Hz. lia.
Qed.

(** C8, amended: the Medium rung is the second rung of the ladder
    [createProgressiveDetailLevels] returns, made from the plan of
    [analyzeShapeForZoom] with the multiplier 1.  Its settings are
    [curveSegments = floor(clamp(complexity/5, 32, 128))], rounded down,
    where the plan holds the clamp itself;
    [bevelEnabled = (curveCount > 5)],
    [bevelThickness = 0.3 if curveCount > 10 else 0.1],
    [bevelSize = 0.2 if curveCount > 10 else 0.05],
    [bevelSegments = clamp(curveCount/2, 2, 8)] as a number that is not
    rounded to an integer,
    [steps = clamp(floor(complexity/50), 1, 4)] and
    [extrudeDepth = clamp(length of the bounding box's size / 20, 0.5, 5)].
    There is a plan, and a ladder, exactly for the shapes that exist. *)
Theorem C8_medium_rung_settings
        (Shape_getPoints : Shape -> num -> list Vector2)
        (Vector2_length : Vector2 -> num)
        (svgData : AdvancedSVGData.t) (shapeIndex : nat) :
  match nth_error (AdvancedSVGData.individualShapes svgData) shapeIndex,
        analyzeShapeForZoom Vector2_length svgData shapeIndex,
        createProgressiveDetailLevels Shape_getPoints Vector2_length svgData shapeIndex with
  | Some entry, Some plan, [low; medium; high; ultra] =>
      let p := ZoomAnalysis.optimalSettings plan in
      let s := DetailLevel.settings medium in
      let complexity := IndividualShape.complexity entry in
      let curveCount := IndividualShape.curveCount entry in
      let diagonal := Vector2_length (BoundingBox.size (IndividualShape.boundingBox entry)) in
      DetailLevel.level medium = 2%nat
      /\ same (DetailedShapeSettings.curveSegments s)
              (Math_floor (clamp (complexity / 5)%num 32 128))
      /\ same (DetailedShapeSettings.curveSegments p) (clamp (complexity / 5)%num 32 128)
      /\ DetailedShapeSettings.bevelEnabled s = gtb curveCount 5
      /\ DetailedShapeSettings.bevelThickness s
         = (if gtb curveCount 10 then Fin 0.3 else Fin 0.1)
      /\ DetailedShapeSettings.bevelSize s
         = (if gtb curveCount 10 then Fin 0.2 else Fin 0.05)
      /\ same (DetailedShapeSettings.bevelSegments s) (clamp (curveCount / 2)%num 2 8)
      /\ same (DetailedShapeSettings.steps s)
              (clamp (Math_floor (complexity / 50)%num) 1 4)
      /\ same (DetailedShapeSettings.extrudeDepth s)
              (clamp (diagonal / 20)%num (Fin 0.5) 5)
      /\ DetailedShapeSettings.bevelEnabled p = DetailedShapeSettings.bevelEnabled s
      /\ DetailedShapeSettings.bevelThickness p = DetailedShapeSettings.bevelThickness s
      /\ DetailedShapeSettings.bevelSize p = DetailedShapeSettings.bevelSize s
      /\ DetailedShapeSettings.bevelSegments p = DetailedShapeSettings.bevelSegments s
      /\ DetailedShapeSettings.steps p = DetailedShapeSettings.steps s
      /\ DetailedShapeSettings.extrudeDepth p = DetailedShapeSettings.extrudeDepth s
  | None, None, [] => True
  | _, _, _ => False
  end.
Proof.
  unfold createProgressiveDetailLevels, analyzeShapeForZoom.
  destruct (nth_error (AdvancedSVGData.individualShapes svgData) shapeIndex) as [entry |];
    [| exact I].
  unfold levels. cbn [map]. cbv zeta.
  cbn [DetailLevel.level DetailLevel.settings levelSettings ZoomAnalysis.optimalSettings
       DetailedShapeSettings.curveSegments
       DetailedShapeSettings.bevelEnabled DetailedShapeSettings.bevelThickness
       DetailedShapeSettings.bevelSize DetailedShapeSettings.bevelSegments
       DetailedShapeSettings.steps DetailedShapeSettings.extrudeDepth].
  rewrite steps_times_one, floor_times_one.
  split; [reflexivity |].
  split; [apply floor_same, (@max_min_clamp _ _ _); lra |].
  split; [apply (@max_min_clamp _ _ _); lra |].
  split; [reflexivity |]. split; [reflexivity |]. split; [reflexivity |].
  split; [apply (@max_min_clamp _ _ _); lra |].
  split; [apply (@max_min_clamp _ _ _); lra |].
  split; [apply (@max_min_clamp _ _ _); lra |].
  repeat split.
Qed.

(* ================================================================== *)
(** * The tokenizer *)






(* ================================================================== *)
(** * Runs of the parser *)

Lemma forEach_app {S : Type} (step : string -> S -> Completion S)
      (first later : list string) (state : S) :
  forEach step (first ++ later) state
  = match forEach step first state with
    | (mid, None) => forEach step later mid
    | (mid, Some exception) => (mid, Some exception)
    end.
Proof.
  revert state. induction first as [| command first IH]; intros state; [reflexivity |].
  cbn [app forEach]. destruct (step command state) as [next | exception]; [apply IH | reflexivity].
Qed.

(** What holds before a loop and is kept by every step that returns holds
    of the state the loop ends in, or throws in. *)
Lemma forEach_invariant {S : Type} (step : string -> S -> Completion S)
      (C : string -> Prop) (P : S -> Prop) :
  (forall command state next,
      C command -> P state -> step command state = Returns next -> P next) ->
  forall commands state,
    Forall C commands -> P state -> P (fst (forEach step commands state)).
Proof.
  intros Hstep commands. induction commands as [| command commands IH];
    intros state HC HP; [exact HP |].
  inversion HC as [| ? ? Hc Hcs]; subst.
  cbn [forEach]. destruct (step command state) as [next | exception] eqn:E; [| exact HP].
  apply IH; [exact Hcs |]. exact (Hstep command state next Hc HP E).
Qed.

(** A loop that throws throws what one of its steps threw, in the state the
    loop is left in. *)
Lemma forEach_throws {S : Type} (step : string -> S -> Completion S)
      (commands : list string) (state final : S) (exception : Exception) :
  forEach step commands state = (final, Some exception) ->
  exists command, In command commands /\ step command final = Throws exception.
Proof.
  revert state. induction commands as [| command commands IH]; intros state H;
    [discriminate H |].
  cbn [forEach] in H. destruct (step command state) as [next | thrown] eqn:E.
  - destruct (IH next H) as [later [Hin Hlater]]. exists later. split; [now right | exact Hlater].
  - injection H as <- <-. exists command. split; [now left | exact E].
Qed.

Lemma tl_getPoints_length (curve : Curve) (divisions : nat) :
  List.length (tl (Curve_getPoints curve divisions)) = divisions.
Proof.
  unfold Curve_getPoints. cbn [seq map tl].
  now rewrite length_map, length_seq.
Qed.

Lemma hasCurve_app (a b : Shape) : hasCurve (a ++ b) = hasCurve a || hasCurve b.
Proof. apply existsb_app. Qed.

(** The sampled points of a curve, after the first, add a curve to the shape. *)
Lemma hasCurve_sampled (curve : Curve) (divisions : nat) :
  hasCurve (map lineTo (tl (Curve_getPoints curve (S divisions)))) = true.
Proof. reflexivity. Qed.

Lemma closeCount_app (a b : Shape) : closeCount (a ++ b) = (closeCount a + closeCount b)%nat.
Proof. unfold closeCount. now rewrite filter_app, length_app. Qed.

Lemma closeCount_lines (points : list Point) : closeCount (map lineTo points) = 0%nat.
Proof. induction points as [| p points IH]; [reflexivity | exact IH]. Qed.

Lemma close_letter (c : ascii) :
  Ascii.eqb (toLowerCase c) "z" = (Ascii.eqb "Z" c || Ascii.eqb "z" c).
Proof. destruct c as [[] [] [] [] [] [] [] []]; reflexivity. Qed.

Lemma close_letter_is_command_letter (c : ascii) :
  Ascii.eqb (toLowerCase c) "z" = true -> isCommandLetter c = true.
Proof.
  destruct c as [[] [] [] [] [] [] [] []]; vm_compute; intros E;
    first [reflexivity | discriminate E].
Qed.

(** The letters of the commands that draw, by their lower case. *)
Lemma drawing_letter (c : ascii) :
  charIn "LlHhVvCcSsQqTtAa" c
  = existsb (Ascii.eqb (toLowerCase c)) (list_ascii_of_string "lhvcsqta").
Proof. destruct c as [[] [] [] [] [] [] [] []]; reflexivity. Qed.

(** The path holds a [Z] or [z] exactly when one of its commands is a close
    command. *)
Lemma includes_close_letter (s : string) :
  includes s "Z" || includes s "z" = existsb isCloseCommand (matchCommands s).
Proof.
  unfold includes, matchCommands.
  induction s as [| c rest IH]; [reflexivity |].
  cbn [list_ascii_of_string existsb scanCommands].
  destruct (scanCommands rest) as [run commands]. cbn [snd] in IH.
  pose proof (close_letter c) as Hz.
  pose proof (close_letter_is_command_letter c) as Hc.
  destruct (isCommandLetter c) eqn:E; cbn [snd existsb isCloseCommand].
  - rewrite Hz, <- IH.
    destruct (Ascii.eqb "Z" c), (Ascii.eqb "z" c),
      (existsb (Ascii.eqb "Z") (list_ascii_of_string rest)); reflexivity.
  - rewrite <- IH.
    destruct (Ascii.eqb (toLowerCase c) "z"); [now discriminate Hc |].
    symmetry in Hz. apply orb_false_elim in Hz. destruct Hz as [H1 H2].
    now rewrite H1, H2.
Qed.

Lemma existsb_filter_length {A : Type} (f : A -> bool) (l : list A) :
  existsb f l = negb (List.length (filter f l) =? 0)%nat.
Proof.
  induction l as [| a l IH]; [reflexivity |].
  cbn [existsb filter]. destruct (f a); [reflexivity | exact IH].
Qed.

(** Two letters cannot both be the lower case of one. *)
Ltac clash_of_letters :=
  match goal with
  | H1 : Ascii.eqb ?a ?b = true, H2 : Ascii.eqb ?a ?c = true |- _ =>
      apply Ascii.eqb_eq in H1; apply Ascii.eqb_eq in H2;
      rewrite H1 in H2; discriminate H2
  end.

(** Unfolds the switch and its handlers, one goal per branch. *)
Ltac switch_branches :=
  unfold switchCommand;
  repeat match goal with
         | |- context [Ascii.eqb (toLowerCase ?a) ?b] =>
             destruct (Ascii.eqb (toLowerCase a) b) eqn:?
         end;
  try clash_of_letters;
  cbv beta iota zeta;
  unfold handleMoveTo, handleLineTo, handleHorizontalLine, handleVerticalLine,
    handleCubicBezier, handleSmoothCubicBezier, handleQuadraticBezier,
    handleSmoothQuadraticBezier, handleArc, createEllipticalArc;
  repeat match goal with
         | |- context [if (?n <=? ?m)%nat then _ else _] =>
             destruct (n <=? m)%nat eqn:?
         end;
  cbv zeta; cbn [fst snd];
  unfold Shape_moveTo, Shape_lineTo, Shape_lineToEachAfterFirst.

(** [shape.closePath()] returns on a shape with a curve and throws on a
    shape without. *)
Lemma handleClosePath_cases (this : AdvancedSVGPathParser) (shape : Shape) :
  handleClosePath this shape
  = if hasCurve shape
    then Returns (setCurrent (subpathStartX this) (subpathStartY this) this,
                  shape ++ [closePath])
    else Throws TypeError.
Proof. unfold handleClosePath, Shape_closePath. now destruct (hasCurve shape). Qed.

Lemma parseCommand_close (command : string)
      (this : AdvancedSVGPathParser) (shape : Shape) :
  isCloseCommand command = true ->
  parseCommand command this shape = handleClosePath this shape.
Proof.
  destruct command as [| type rest]; [discriminate |].
  cbn [isCloseCommand parseCommand]. intros Hz. unfold switchCommand.
  repeat match goal with
         | |- context [Ascii.eqb (toLowerCase type) ?b] =>
             destruct (Ascii.eqb (toLowerCase type) b) eqn:?
         end;
    first [clash_of_letters | reflexivity | discriminate Hz].
Qed.

(** A command that is no [Z] returns, having added to the shape at most the
    50 points of a flattened curve and no [closePath]; it has added a curve
    exactly when it draws a segment. *)
Lemma parseCommand_other (command : string)
      (this : AdvancedSVGPathParser) (shape : Shape) :
  isCloseCommand command = false ->
  exists next added,
    parseCommand command this shape = Returns (next, shape ++ added)
    /\ (List.length added <= 50)%nat
    /\ closeCount added = 0%nat
    /\ hasCurve added = drawsSegment command.
Proof.
  destruct command as [| type rest].
  - intros _. exists this, []. rewrite app_nil_r. repeat split. cbn. lia.
  - cbn [isCloseCommand parseCommand drawsSegment].
    rewrite drawing_letter. cbn [list_ascii_of_string existsb]. unfold arity.
    switch_branches; intros Hz; try discriminate Hz; cbn [orb andb];
      first [ exists this, []; rewrite app_nil_r; repeat split; cbn; lia
            | eexists; eexists; split; [reflexivity |];
              rewrite ?length_map, ?tl_getPoints_length, ?closeCount_lines;
              repeat split; cbn; lia ].
Qed.

Lemma drawing_is_no_close (command : string) :
  drawsSegment command = true -> isCloseCommand command = false.
Proof.
  destruct command as [| type rest]; [reflexivity |].
  cbn [drawsSegment isCloseCommand]. rewrite drawing_letter.
  cbn [list_ascii_of_string existsb].
  destruct (Ascii.eqb (toLowerCase type) "z") eqn:Hz; [| reflexivity].
  apply Ascii.eqb_eq in Hz. rewrite Hz. cbn. discriminate.
Qed.

(** Once the shape has a curve the loop runs to its end: every [Z] closes. *)
Lemma parseCommands_after_drawing (commands : list string)
      (state : AdvancedSVGPathParser * Shape) :
  hasCurve (snd state) = true ->
  exists final,
    parseCommands commands state = (final, None)
    /\ hasCurve (snd final) = true
    /\ closeCount (snd final)
       = (closeCount (snd state) + List.length (filter isCloseCommand commands))%nat.
Proof.
  revert state. induction commands as [| command commands IH]; intros [this shape] Hc.
  - exists (this, shape). cbn. repeat split; [exact Hc | lia].
  - cbn [snd fst] in *. unfold parseCommands. cbn [forEach filter fst snd].
    destruct (isCloseCommand command) eqn:Hz.
    + rewrite (parseCommand_close _ _ _ Hz), handleClosePath_cases, Hc.
      destruct (IH (setCurrent (subpathStartX this) (subpathStartY this) this,
                    shape ++ [closePath])) as [final [Hrun [Hcurve Hcount]]].
      { cbn [snd]. rewrite hasCurve_app, Hc. reflexivity. }
      exists final. split; [exact Hrun |]. split; [exact Hcurve |].
      rewrite Hcount. cbn [snd]. rewrite closeCount_app. cbn. lia.
    + destruct (parseCommand_other command this shape Hz)
        as [next [added [Hstep [_ [Hclose _]]]]].
      rewrite Hstep.
      destruct (IH (next, shape ++ added)) as [final [Hrun [Hcurve Hcount]]].
      { cbn [snd]. rewrite hasCurve_app, Hc. reflexivity. }
      exists final. split; [exact Hrun |]. split; [exact Hcurve |].
      rewrite Hcount. cbn [snd]. rewrite closeCount_app, Hclose. lia.
Qed.

(** On a shape without a curve, the loop throws at the first [Z] unless a
    command before it draws a segment. *)
Lemma parseCommands_before_drawing (commands : list string)
      (state : AdvancedSVGPathParser * Shape) :
  hasCurve (snd state) = false ->
  exists final,
    if closesBeforeDrawing commands
    then parseCommands commands state
         = (final, if existsb isCloseCommand commands then Some TypeError else None)
         /\ hasCurve (snd final) = false
         /\ closeCount (snd final) = closeCount (snd state)
    else parseCommands commands state = (final, None)
         /\ hasCurve (snd final) = true
         /\ closeCount (snd final)
            = (closeCount (snd state) + List.length (filter isCloseCommand commands))%nat.
Proof.
  revert state. induction commands as [| command commands IH]; intros [this shape] Hc.
  - exists (this, shape). cbn. repeat split. exact Hc.
  - cbn [snd fst] in *. unfold parseCommands.
    cbn [forEach filter fst snd closesBeforeDrawing existsb].
    destruct (drawsSegment command) eqn:Hd.
    + pose proof (drawing_is_no_close command Hd) as Hz. rewrite Hz.
      destruct (parseCommand_other command this shape Hz)
        as [next [added [Hstep [_ [Hclose Hcurve]]]]].
      rewrite Hstep.
      destruct (@parseCommands_after_drawing commands (next, shape ++ added))
        as [final [Hrun [Hfinal Hcount]]].
      { cbn [snd]. rewrite hasCurve_app, Hcurve, Hd. apply orb_true_r. }
      exists final. split; [exact Hrun |]. split; [exact Hfinal |].
      rewrite Hcount. cbn [snd]. rewrite closeCount_app, Hclose. lia.
    + destruct (isCloseCommand command) eqn:Hz.
      * rewrite (parseCommand_close _ _ _ Hz), handleClosePath_cases, Hc.
        exists (this, shape). cbn [orb snd]. repeat split. exact Hc.
      * destruct (parseCommand_other command this shape Hz)
          as [next [added [Hstep [_ [Hclose Hcurve]]]]].
        rewrite Hstep. cbn [orb].
        destruct (IH (next, shape ++ added)) as [final Hfinal].
        { cbn [snd]. rewrite hasCurve_app, Hc, Hcurve, Hd. reflexivity. }
        exists final. cbn [snd] in Hfinal. rewrite closeCount_app, Hclose in Hfinal.
        rewrite Nat.add_0_r in Hfinal. exact Hfinal.
Qed.

(** How a call of [parsePath] ends.  It throws, a [TypeError], exactly when
    the path asks for [closePath] before a segment was drawn; the shape then
    holds no [closePath].  Otherwise it returns, and the shape was closed
    once per [Z] or [z], or once at the end when the path has none. *)
Lemma parsePathRun_outcome (pathData : string) :
  let run := parsePathRun pathData in
  let closes := List.length (filter isCloseCommand (matchCommands pathData)) in
  if closesBeforeDrawing (matchCommands pathData)
  then snd run = Some TypeError
       /\ hasCurve (snd (fst run)) = false
       /\ closeCount (snd (fst run)) = 0%nat
  else snd run = None
       /\ hasCurve (snd (fst run)) = true
       /\ closeCount (snd (fst run)) = (if (closes =? 0)%nat then 1 else closes)%nat.
Proof.
  cbv zeta. unfold parsePathRun.
  pose proof (includes_close_letter pathData) as Hz.
  rewrite <- negb_orb, Hz. clear Hz.
  destruct (@parseCommands_before_drawing (matchCommands pathData) (reset, new_Shape) eq_refl)
    as [[this shape] H].
  rewrite existsb_filter_length in *.
  destruct (closesBeforeDrawing (matchCommands pathData)).
  - destruct H as [Hrun [Hcurve Hcount]]. rewrite Hrun. cbn [fst snd] in *.
    destruct (List.length (filter isCloseCommand (matchCommands pathData)) =? 0)%nat;
      cbn [negb].
    + unfold Shape_closePath. rewrite Hcurve. cbn [fst snd]. repeat split; assumption.
    + cbn [fst snd]. repeat split; assumption.
  - destruct H as [Hrun [Hcurve Hcount]]. rewrite Hrun. cbn [fst snd] in *.
    destruct (List.length (filter isCloseCommand (matchCommands pathData)) =? 0)%nat eqn:E;
      cbn [negb].
    + unfold Shape_closePath. rewrite Hcurve. cbn [fst snd].
      apply Nat.eqb_eq in E. rewrite hasCurve_app, Hcurve, closeCount_app, Hcount, E.
      repeat split.
    + cbn [fst snd]. rewrite Hcount. repeat split. exact Hcurve.
Qed.

Lemma parsePath_outcome (pathData : string) :
  parsePath pathData
  = if closesBeforeDrawing (matchCommands pathData)
    then Throws TypeError
    else Returns (snd (parsePathState pathData)).
Proof.
  pose proof (parsePathRun_outcome pathData) as H. cbv zeta in H.
  unfold parsePath, parsePathState.
  destruct (parsePathRun pathData) as [[this shape] thrown].
  destruct (closesBeforeDrawing (matchCommands pathData));
    destruct H as [H _]; cbn [snd] in H; subst thrown; reflexivity.
Qed.

(* ================================================================== *)
(** * Commands and their arguments *)

Lemma leb_firstn (n : nat) (coords : list num) :
  (n <=? List.length (firstn n coords))%nat = (n <=? List.length coords)%nat.
Proof.
  rewrite length_firstn.
  destruct (Nat.leb_spec n (List.length coords)) as [H | H].
  - apply Nat.leb_le. lia.
  - apply Nat.leb_gt. lia.
Qed.

Lemma at_firstn (n i : nat) (coords : list num) :
  (i < n)%nat -> at_ (firstn n coords) i = at_ coords i.
Proof.
  intros H. unfold at_. rewrite nth_firstn.
  apply Nat.ltb_lt in H. now rewrite H.
Qed.

Ltac first_group :=
  intros; unfold handleMoveTo, handleLineTo, handleHorizontalLine,
            handleVerticalLine, handleCubicBezier, handleSmoothCubicBezier,
            handleQuadraticBezier, handleSmoothQuadraticBezier, handleArc, resolve;
  rewrite leb_firstn, !at_firstn by lia; reflexivity.

Section FirstGroup.

Variable coords : list num.
Variable isAbsolute : bool.
Variable this : AdvancedSVGPathParser.
Variable shape : Shape.

Lemma handleMoveTo_first_group :
  handleMoveTo (firstn 2 coords) isAbsolute this shape
  = handleMoveTo coords isAbsolute this shape.
Proof. first_group. Qed.

Lemma handleLineTo_first_group :
  handleLineTo (firstn 2 coords) isAbsolute this shape
  = handleLineTo coords isAbsolute this shape.
Proof. first_group. Qed.

Lemma handleHorizontalLine_first_group :
  handleHorizontalLine (firstn 1 coords) isAbsolute this shape
  = handleHorizontalLine coords isAbsolute this shape.
Proof. first_group. Qed.

Lemma handleVerticalLine_first_group :
  handleVerticalLine (firstn 1 coords) isAbsolute this shape
  = handleVerticalLine coords isAbsolute this shape.
Proof. first_group. Qed.

Lemma handleCubicBezier_first_group :
  handleCubicBezier (firstn 6 coords) isAbsolute this shape
  = handleCubicBezier coords isAbsolute this shape.
Proof. first_group. Qed.

Lemma handleSmoothCubicBezier_first_group :
  handleSmoothCubicBezier (firstn 4 coords) isAbsolute this shape
  = handleSmoothCubicBezier coords isAbsolute this shape.
Proof. first_group. Qed.

Lemma handleQuadraticBezier_first_group :
  handleQuadraticBezier (firstn 4 coords) isAbsolute this shape
  = handleQuadraticBezier coords isAbsolute this shape.
Proof. first_group. Qed.

Lemma handleSmoothQuadraticBezier_first_group :
  handleSmoothQuadraticBezier (firstn 2 coords) isAbsolute this shape
  = handleSmoothQuadraticBezier coords isAbsolute this shape.
Proof. first_group. Qed.

Lemma handleArc_first_group :
  handleArc (firstn 7 coords) isAbsolute this shape
  = handleArc coords isAbsolute this shape.
Proof. first_group. Qed.

End FirstGroup.





(** C2, as stated, fails: one [L] followed by three coordinate pairs draws one
    line, to the first pair; the other two pairs are discarded, where three
    [L] commands draw three lines. *)
Lemma C2_extra_groups_are_discarded :
  parsePath "M0,0 L10,0 10,10 0,10"
  = Returns [moveTo 0 0; lineTo (XY 10 0); closePath]
  /\ commandCoords "10,0 10,10 0,10" = [10; 0; 10; 10; 0; 10]%num
  /\ parsePath "M0,0 L10,0 L10,10 L0,10"
     = Returns [moveTo 0 0; lineTo (XY 10 0); lineTo (XY 10 10); lineTo (XY 0 10);
                closePath]
  /\ parsePath "M0,0 L10,0 10,10 0,10" <> parsePath "M0,0 L10,0 L10,10 L0,10".
Proof.
  split; [vm_compute; reflexivity |]. split; [vm_compute; reflexivity |].
  split; [vm_compute; reflexivity |]. vm_compute. discriminate.
Qed.

(** C2, amended: a command letter is handled once, from the first group of
    its arguments (two numbers for M, L and T, one for H and V, six for C,
    four for S and Q, seven for A, none for Z); the arguments after the first
    group are ignored and are no repeat of the command.  One [L] or [l]
    followed by two numbers or more draws exactly one line, to the point its
    first pair names, and makes that point the current point; with fewer
    than two numbers it draws nothing. *)
Theorem C2_only_the_first_group_is_read :
  (forall type coords this shape,
      switchCommand type coords this shape
      = switchCommand type (firstn (arity type) coords) this shape)
  /\ (forall rest this shape,
         parseCommand (String "L" rest) this shape
         = Returns (handleLineTo (commandCoords rest) true this shape)
         /\ parseCommand (String "l" rest) this shape
            = Returns (handleLineTo (commandCoords rest) false this shape))
  /\ (forall isAbsolute this shape a b rest,
         let coords := a :: b :: rest in
         let px := resolve coords isAbsolute (currentX this) 0 in
         let py := resolve coords isAbsolute (currentY this) 1 in
         handleLineTo coords isAbsolute this shape
         = (setCurrent px py this, shape ++ [lineTo (XY px py)]))
  /\ (forall isAbsolute this shape a,
         handleLineTo [] isAbsolute this shape = (this, shape)
         /\ handleLineTo [a] isAbsolute this shape = (this, shape)).
Proof.
  split; [| split; [| split]].
  - intros type coords this shape. unfold switchCommand, arity.
    repeat match goal with
           | |- context [if Ascii.eqb ?a ?b then _ else _] =>
               destruct (Ascii.eqb a b) eqn:?
           end;
      first [ reflexivity
            | f_equal; symmetry;
              first [ apply handleMoveTo_first_group
                    | apply handleLineTo_first_group
                    | apply handleHorizontalLine_first_group
                    | apply handleVerticalLine_first_group
                    | apply handleCubicBezier_first_group
                    | apply handleSmoothCubicBezier_first_group
                    | apply handleQuadraticBezier_first_group
                    | apply handleSmoothQuadraticBezier_first_group
                    | apply handleArc_first_group ] ].
  - intros rest this shape. split; reflexivity.
  - intros isAbsolute this shape a b rest. cbv zeta.
    unfold handleLineTo, resolve, Shape_lineTo. cbn [List.length Nat.leb].
    now destruct isAbsolute.
  - intros isAbsolute this shape a. split; reflexivity.
Qed.

(* ================================================================== *)
(** * Smooth curves and the stored control point *)

(** C3, as stated, fails.  After a line the stored control point is still the
    cubic's (10,10): the [S] that follows the line at (5,5) gets the control
    point (0,0), not the current point (5,5).  An [S] with no curve before it
    reflects the initial (0,0): at (5,5) its control point is (10,10).  A [T]
    after a cubic reflects the cubic's control point: at (0,10) its control
    point is (-10,10), not (0,10). *)
Lemma C3_control_point_is_not_reset :
  parsePath "M0,0 C10,0 10,10 0,10 L5,5 S20,20 30,30"
  = Returns
      ([moveTo 0 0]
       ++ map lineTo
            (tl (Curve_getPoints
                   (CubicBezierCurve {| x := 0; y := 0 |} {| x := 10; y := 0 |}
                                     {| x := 10; y := 10 |} {| x := 0; y := 10 |}) 50))
       ++ [lineTo (XY 5 5)]
       ++ map lineTo
            (tl (Curve_getPoints
                   (CubicBezierCurve {| x := 5; y := 5 |} {| x := 0; y := 0 |}
                                     {| x := 20; y := 20 |} {| x := 30; y := 30 |}) 50))
       ++ [closePath])
  /\ parsePath "M5,5 S20,20 30,30"
     = Returns
         ([moveTo 5 5]
          ++ map lineTo
               (tl (Curve_getPoints
                      (CubicBezierCurve {| x := 5; y := 5 |} {| x := 10; y := 10 |}
                                        {| x := 20; y := 20 |} {| x := 30; y := 30 |}) 50))
          ++ [closePath])
  /\ parsePath "M0,0 C10,0 10,10 0,10 T5,5"
     = Returns
         ([moveTo 0 0]
          ++ map lineTo
               (tl (Curve_getPoints
                      (CubicBezierCurve {| x := 0; y := 0 |} {| x := 10; y := 0 |}
                                        {| x := 10; y := 10 |} {| x := 0; y := 10 |}) 50))
          ++ map lineTo
               (tl (Curve_getPoints
                      (QuadraticBezierCurve {| x := 0; y := 10 |} {| x := (-10); y := 10 |}
                                            {| x := 5; y := 5 |}) 30))
          ++ [closePath]).
Proof. split; [| split]; vm_compute; reflexivity. Qed.

(** The reflection of the specification's example: after
    [C10,0 10,10 0,10] the [S] at (0,10) gets the control point (-10,10). *)
Example reflection_after_a_cubic :
  parsePath "M0,0 C10,0 10,10 0,10 S-10,20 0,30"
  = Returns
      ([moveTo 0 0]
       ++ map lineTo
            (tl (Curve_getPoints
                   (CubicBezierCurve {| x := 0; y := 0 |} {| x := 10; y := 0 |}
                                     {| x := 10; y := 10 |} {| x := 0; y := 10 |}) 50))
       ++ map lineTo
            (tl (Curve_getPoints
                   (CubicBezierCurve {| x := 0; y := 10 |} {| x := (-10); y := 10 |}
                                     {| x := (-10); y := 20 |} {| x := 0; y := 30 |}) 50))
       ++ [closePath]).
Proof. vm_compute. reflexivity. Qed.

(** C3, amended: the first control point an [S] or a [T] synthesizes is
    always [current - (lastControl - current)], computed in this order,
    where [lastControl] is the control point stored by the latest C, S, Q or
    T of the parse (the second control point of a cubic, the control point
    of a quadratic; (0,0) before any), whichever family that curve was of
    and whatever came in between: both smooth commands store their own
    control point for the next one, and M, L, H, V, A and Z leave the stored
    control point as it is. *)
Theorem C3_smooth_control_reflects_the_stored_control_point :
  (forall isAbsolute this shape a b c d rest,
      let coords := a :: b :: c :: d :: rest in
      let cp1 := {| x := (currentX this - (lastControlX this - currentX this))%num;
                    y := (currentY this - (lastControlY this - currentY this))%num |} in
      let cp2 := {| x := resolve coords isAbsolute (currentX this) 0;
                    y := resolve coords isAbsolute (currentY this) 1 |} in
      let end_ := {| x := resolve coords isAbsolute (currentX this) 2;
                     y := resolve coords isAbsolute (currentY this) 3 |} in
      handleSmoothCubicBezier coords isAbsolute this shape
      = (setLastControl (x cp2) (y cp2) (setCurrent (x end_) (y end_) this),
         shape ++ map lineTo
                      (tl (Curve_getPoints (CubicBezierCurve (here this) cp1 cp2 end_) 50))))
  /\ (forall isAbsolute this shape a b rest,
         let coords := a :: b :: rest in
         let cp := {| x := (currentX this - (lastControlX this - currentX this))%num;
                      y := (currentY this - (lastControlY this - currentY this))%num |} in
         let end_ := {| x := resolve coords isAbsolute (currentX this) 0;
                        y := resolve coords isAbsolute (currentY this) 1 |} in
         handleSmoothQuadraticBezier coords isAbsolute this shape
         = (setLastControl (x cp) (y cp) (setCurrent (x end_) (y end_) this),
            shape ++ map lineTo
                         (tl (Curve_getPoints (QuadraticBezierCurve (here this) cp end_) 30))))
  /\ (forall isAbsolute this shape a b c d e f rest,
         let coords := a :: b :: c :: d :: e :: f :: rest in
         lastControl (fst (handleCubicBezier coords isAbsolute this shape))
         = {| x := resolve coords isAbsolute (currentX this) 2;
              y := resolve coords isAbsolute (currentY this) 3 |})
  /\ (forall isAbsolute this shape a b c d rest,
         let coords := a :: b :: c :: d :: rest in
         lastControl (fst (handleQuadraticBezier coords isAbsolute this shape))
         = {| x := resolve coords isAbsolute (currentX this) 0;
              y := resolve coords isAbsolute (currentY this) 1 |})
  /\ (forall coords isAbsolute this shape,
         lastControl (fst (handleMoveTo coords isAbsolute this shape)) = lastControl this
         /\ lastControl (fst (handleLineTo coords isAbsolute this shape)) = lastControl this
         /\ lastControl (fst (handleHorizontalLine coords isAbsolute this shape))
            = lastControl this
         /\ lastControl (fst (handleVerticalLine coords isAbsolute this shape))
            = lastControl this
         /\ lastControl (fst (handleArc coords isAbsolute this shape)) = lastControl this
         /\ match handleClosePath this shape with
            | Returns next => lastControl (fst next) = lastControl this
            | Throws _ => True
            end)
  /\ lastControl reset = {| x := 0; y := 0 |}.
Proof.
  split; [| split; [| split; [| split; [| split]]]].
  - intros. reflexivity.
  - intros. reflexivity.
  - intros. reflexivity.
  - intros. reflexivity.
  - intros coords isAbsolute this shape.
    rewrite handleClosePath_cases.
    unfold handleMoveTo, handleLineTo, handleHorizontalLine, handleVerticalLine,
      handleArc.
    repeat split;
      repeat match goal with
             | |- context [if ?b then _ else _] => destruct b
             end; reflexivity.
  - reflexivity.
Qed.

(* ================================================================== *)
(** * Arcs *)

(** C4: an arc with [rx = ry = 0], and an arc whose end is its start, are not
    flattened to the line to the arc's end.  [createEllipticalArc] never
    returns [null], so the line of the [else] branch is never drawn: the
    shape receives the 50 sampled points of an ellipse around the midpoint of
    start and end. *)
Theorem C4_degenerate_arc_is_sampled_not_a_line :
  (forall x1 y1 x2 y2 rx ry rotation largeArcFlag sweepFlag,
      createEllipticalArc x1 y1 x2 y2 rx ry rotation largeArcFlag sweepFlag <> None)
  /\ parsePath "M0,0 A0,0 0 0 0 10,10"
     = Returns
         ([moveTo 0 0]
          ++ map lineTo
               (tl (Curve_getPoints
                      (EllipseCurve 5 5 0 0 (Math_atan2 (-5) (-5)) (Math_atan2 5 5)
                                    false 0) 50))
          ++ [closePath])
  /\ List.length (shapeOf (parsePath "M0,0 A0,0 0 0 0 10,10")) = 52%nat
  /\ parsePath "M0,0 A0,0 0 0 0 10,10"
     <> Returns [moveTo 0 0; lineTo (XY 10 10); closePath]
  /\ parsePath "M0,0 L4,0 A5,5 0 0 0 4,0"
     = Returns
         ([moveTo 0 0; lineTo (XY 4 0)]
          ++ map lineTo
               (tl (Curve_getPoints
                      (EllipseCurve 4 0 5 5 (Math_atan2 0 0) (Math_atan2 0 0)
                                    false 0) 50))
          ++ [closePath]).
Proof.
  split; [discriminate |].
  split; [vm_compute; reflexivity |].
  split; [vm_compute; reflexivity |].
  split; [| vm_compute; reflexivity].
  intros H. apply (f_equal (fun call => List.length (shapeOf call))) in H.
  vm_compute in H. discriminate H.
Qed.

(** C10: two arc commands with the same radii and the same end, handled from
    the same parser state, add the same calls to the shape and leave the
    same state, whatever their rotation, large-arc flag and sweep flag: the
    ellipse is built on the midpoint of start and end, counterclockwise, with
    rotation 0. *)
Theorem C10_arc_ignores_rotation_and_flags :
  (forall rx ry rotation1 large1 sweep1 rotation2 large2 sweep2 endX endY
          rest1 rest2 isAbsolute this shape,
      handleArc (rx :: ry :: rotation1 :: large1 :: sweep1 :: endX :: endY :: rest1)
                isAbsolute this shape
      = handleArc (rx :: ry :: rotation2 :: large2 :: sweep2 :: endX :: endY :: rest2)
                  isAbsolute this shape)
  /\ (forall x1 y1 x2 y2 rx ry rotation largeArcFlag sweepFlag,
         createEllipticalArc x1 y1 x2 y2 rx ry rotation largeArcFlag sweepFlag
         = Some (EllipseCurve ((x1 + x2) / 2)%num ((y1 + y2) / 2)%num rx ry
                              (Math_atan2 (y1 - (y1 + y2) / 2)%num
                                          (x1 - (x1 + x2) / 2)%num)
                              (Math_atan2 (y2 - (y1 + y2) / 2)%num
                                          (x2 - (x1 + x2) / 2)%num)
                              false 0))
  /\ parsePath "M0,0 A5,3 0 0 0 10,10" = parsePath "M0,0 A5,3 45 1 1 10,10"
  /\ parsePath "M0,0 A5,3 45 1 1 10,10"
     = Returns
         ([moveTo 0 0]
          ++ map lineTo
               (tl (Curve_getPoints
                      (EllipseCurve 5 5 5 3 (Math_atan2 (-5) (-5)) (Math_atan2 5 5)
                                    false 0) 50))
          ++ [closePath]).
Proof.
  split; [| split; [| split]].
  - intros. reflexivity.
  - intros. reflexivity.
  - vm_compute. reflexivity.
  - vm_compute. reflexivity.
Qed.

(* ================================================================== *)
(** * Closing the path *)

(** The example of the specification: without a [Z] the four points are
    closed by a synthesized [closePath], exactly as with a trailing [Z]. *)
Example square_is_closed_without_Z :
  parsePath "M0,0 L10,0 L10,10 L0,10"
  = Returns [moveTo 0 0; lineTo (XY 10 0); lineTo (XY 10 10); lineTo (XY 0 10);
             closePath]
  /\ parsePath "M0,0 L10,0 L10,10 L0,10 Z" = parsePath "M0,0 L10,0 L10,10 L0,10".
Proof. split; vm_compute; reflexivity. Qed.

(** Paths that ask to close before a segment was drawn: [closePath] throws
    on the empty path, on a lone [Z], on a move followed by [Z] whatever
    comes after, and on a line with a single number; a line from the origin
    is enough for it to return. *)
Example paths_closed_before_drawing :
  parsePath "" = Throws TypeError
  /\ parsePath "Z" = Throws TypeError
  /\ parsePath "M0,0 Z M10,10 L20,10 L20,20 Z" = Throws TypeError
  /\ snd (parsePathState "M0,0 Z M10,10 L20,10 L20,20 Z") = [moveTo 0 0]
  /\ parsePath "M0,0 L1" = Throws TypeError
  /\ parsePath "L1,1" = Returns [lineTo (XY 1 1); closePath]
  /\ parsePath "M0,0 H5 Z M10,10 Z"
     = Returns [moveTo 0 0; lineTo (XY 5 0); closePath; moveTo 10 10; closePath].
Proof. repeat (split; [vm_compute; reflexivity |]). vm_compute. reflexivity. Qed.

(** A path without any [Z] or [z] that draws a segment ends with a
    [closePath]; one that draws none makes [parsePath] throw. *)
Lemma closed_when_the_path_has_no_Z (pathData : string) :
  includes pathData "Z" = false ->
  includes pathData "z" = false ->
  match parsePath pathData with
  | Returns shape => exists calls, shape = calls ++ [closePath]
  | Throws exception => exception = TypeError
  end.
Proof.
  intros HZ Hz. unfold parsePath, parsePathRun. rewrite HZ, Hz.
  destruct (parseCommands (matchCommands pathData) (reset, new_Shape))
    as [[this shape] [thrown |]] eqn:E.
  - unfold parseCommands in E. apply forEach_throws in E.
    destruct E as [command [_ E]]. cbn [fst snd] in E.
    destruct (isCloseCommand command) eqn:C.
    + rewrite (parseCommand_close _ _ _ C), handleClosePath_cases in E.
      destruct (hasCurve shape); [discriminate E | now injection E].
    + destruct (parseCommand_other command this shape C) as [next [added [R _]]].
      rewrite R in E. discriminate E.
  - cbn [negb andb]. unfold Shape_closePath.
    destruct (hasCurve shape); [exists shape |]; reflexivity.
Qed.

(** A path with a [Z] or [z] anywhere gets no [closePath] of its own at the
    end. *)
Lemma not_closed_again_when_the_path_has_a_Z (pathData : string) :
  includes pathData "Z" || includes pathData "z" = true ->
  parsePathRun pathData = parseCommands (matchCommands pathData) (reset, new_Shape).
Proof.
  intros H. unfold parsePathRun.
  destruct (parseCommands (matchCommands pathData) (reset, new_Shape))
    as [[this shape] [thrown |]]; [reflexivity |].
  destruct (includes pathData "Z"), (includes pathData "z");
    first [discriminate H | reflexivity].
Qed.

(** C5: a path whose first subpath is closed by [Z] and whose last subpath is
    not: the shape ends with the line to (30,30), no [closePath] follows it,
    the last subpath stays open. *)
Theorem C5_last_subpath_stays_open_after_an_earlier_Z :
  parsePath "M0,0 L10,0 L10,10 Z M20,20 L30,20 L30,30"
  = Returns [moveTo 0 0; lineTo (XY 10 0); lineTo (XY 10 10); closePath;
             moveTo 20 20; lineTo (XY 30 20); lineTo (XY 30 30)]
  /\ last (shapeOf (parsePath "M0,0 L10,0 L10,10 Z M20,20 L30,20 L30,30")) (moveTo 0 0)
     <> closePath.
Proof. split; [vm_compute; reflexivity | vm_compute; discriminate]. Qed.

(* ================================================================== *)
(** * Processing a file *)



(** The paths that are parsed are those that draw a segment before they
    close; their shapes are the shapes [parsePath] leaves. *)
Lemma parsed_paths (paths : list SVGResultPath) :
  parsedDatas paths
  = filter (fun pathData => negb (closesBeforeDrawing (matchCommands pathData)))
           (pathDatas paths)
  /\ parsedShapes paths
     = map (fun pathData => snd (parsePathState pathData)) (parsedDatas paths).
Proof.
  unfold parsedDatas, parsedShapes.
  induction (pathDatas paths) as [| d datas [IHd IHs]]; [split; reflexivity |].
  cbn [filter flat_map]. rewrite parsePath_outcome.
  destruct (closesBeforeDrawing (matchCommands d)); cbn [negb map app].
  - split; [exact IHd | exact IHs].
  - split; [now rewrite IHd | now rewrite IHs].
Qed.



(* ================================================================== *)
(** * Complexity *)



(** [createDetailedShape] computes another number under the same name: the
    points sampled at the settings' resolution plus ten times the settings'
    [curveSegments], a tessellation setting and not a count of curves. *)
Remark createDetailedShape_complexity
       (Shape_getPoints : Shape -> num -> list Vector2)
       (shape : Shape) (settings : DetailedShapeSettings.t) :
  DetailedShapeResult.complexity (createDetailedShape Shape_getPoints shape settings)
  = (ofNat (List.length
              (Shape_getPoints shape (DetailedShapeSettings.resolution settings)))
     + DetailedShapeSettings.curveSegments settings * 10)%num.
Proof. reflexivity. Qed.


(* ================================================================== *)
(** * More on the tokenizer *)

(** X1: The parser sees the supported letters of a path, all of them and in
    their order: one command per letter. *)
Theorem commands_are_the_supported_letters (pathData : string) :
  map commandLetter (matchCommands pathData)
  = map Some (filter isCommandLetter (list_ascii_of_string pathData)).
Proof.
  unfold matchCommands.
  induction pathData as [| c rest IH]; [reflexivity |].
  simpl. destruct (scanCommands rest) as [run commands]. simpl in IH.
  destruct (isCommandLetter c); simpl; now rewrite IH.
Qed.

Lemma fields_word_clean (s : string) :
  forallb (fun c => negb (isSeparator c)) (list_ascii_of_string (fst (fields s))) = true
  /\ Forall (fun word => cleanArg word = true) (snd (fields s)).
Proof.
  induction s as [| c rest [IHw IHl]]; [split; [reflexivity | constructor] |].
  simpl. destruct (fields rest) as [word words]. simpl in *.
  destruct (isSeparator c) eqn:E; simpl.
  - split; [reflexivity |].
    destruct word as [| d word']; [exact IHl |].
    constructor; [| exact IHl]. unfold cleanArg. now rewrite IHw.
  - rewrite E. split; [exact IHw | exact IHl].
Qed.

(** X2: Every argument of a command is a non-empty text without white space or
    comma, so [Number] is never applied to an empty string. *)
Theorem splitArgs_yields_clean_arguments (s : string) :
  Forall (fun word => cleanArg word = true) (splitArgs s).
Proof.
  unfold splitArgs. destruct (fields_word_clean s) as [Hw Hl].
  destruct (fields s) as [word words]. simpl in *.
  destruct word as [| d word']; [exact Hl |].
  constructor; [| exact Hl]. unfold cleanArg. now rewrite Hw.
Qed.

Lemma append_empty_r (s : string) : String.append s EmptyString = s.
Proof. induction s as [| c s IH]; simpl; [reflexivity | now rewrite IH]. Qed.

Lemma fields_clean_prefix (word rest : string) :
  forallb (fun c => negb (isSeparator c)) (list_ascii_of_string word) = true ->
  fields (String.append word rest)
  = (String.append word (fst (fields rest)), snd (fields rest)).
Proof.
  induction word as [| c word IH]; simpl; intros H.
  - now destruct (fields rest).
  - apply andb_true_iff in H. destruct H as [Hc Hw].
    rewrite (IH Hw). apply negb_true_iff in Hc. now rewrite Hc.
Qed.

Lemma fields_separator_prefix (sep rest : string) :
  isSeparatorRun sep = true ->
  fields (String.append sep rest) = (EmptyString, splitArgs rest).
Proof.
  unfold isSeparatorRun.
  induction sep as [| c sep IH]; [discriminate |].
  cbn [String.eqb negb andb list_ascii_of_string forallb String.append].
  intros H. apply andb_true_iff in H. destruct H as [Hc Hs].
  cbn [fields]. rewrite Hc.
  destruct sep as [| d sep'].
  - cbn [String.append]. unfold splitArgs. now destruct (fields rest).
  - rewrite IH by (cbn [String.eqb negb andb]; exact Hs). reflexivity.
Qed.

Lemma splitArgs_clean_then_separator (word sep rest : string) :
  cleanArg word = true -> isSeparatorRun sep = true ->
  splitArgs (String.append word (String.append sep rest)) = word :: splitArgs rest.
Proof.
  unfold cleanArg. intros Hw Hs. apply andb_true_iff in Hw. destruct Hw as [Hne Hw].
  unfold splitArgs at 1. rewrite (fields_clean_prefix _ _ Hw).
  rewrite (fields_separator_prefix _ _ Hs). cbn [fst snd].
  destruct word as [| c word]; [discriminate |].
  now rewrite append_empty_r.
Qed.

Lemma splitArgs_single_clean (word : string) :
  cleanArg word = true -> splitArgs word = [word].
Proof.
  unfold cleanArg. intros Hw. apply andb_true_iff in Hw. destruct Hw as [Hne Hw].
  unfold splitArgs. rewrite <- (append_empty_r word) at 1.
  rewrite (fields_clean_prefix _ _ Hw). cbn [fields fst snd].
  rewrite append_empty_r. destruct word; [discriminate | reflexivity].
Qed.

(** X3: Splitting is the inverse of joining: arguments without white space or
    comma, joined by any run of white space and commas, are split back into
    themselves. *)
Theorem splitArgs_of_joined_arguments (sep : string) (words : list string) :
  isSeparatorRun sep = true ->
  Forall (fun word => cleanArg word = true) words ->
  splitArgs (String.concat sep words) = words.
Proof.
  intros Hs Hw. induction Hw as [| word words Hword Hwords IH]; [reflexivity |].
  destruct words as [| next words].
  - now apply splitArgs_single_clean.
  - change (String.concat sep (word :: next :: words))
      with (String.append word (String.append sep (String.concat sep (next :: words)))).
    rewrite splitArgs_clean_then_separator by assumption. now rewrite IH.
Qed.

(** Three arguments joined by a comma and a space. *)
Lemma splitArgs_of_joined_arguments_example :
  (isSeparatorRun ", " = true
   /\ Forall (fun word => cleanArg word = true) ["10"; "-5.5"; "1e3"])
  /\ splitArgs "10, -5.5, 1e3" = ["10"; "-5.5"; "1e3"].
Proof.
  split; [split; [reflexivity | repeat constructor] |].
  apply (@splitArgs_of_joined_arguments ", " ["10"; "-5.5"; "1e3"]).
  - reflexivity.
  - repeat constructor.
Defined.

(* ================================================================== *)
(** * More on the parser *)

(** What [parseCommand] throws is the [TypeError] of [closePath], on a shape
    without a curve. *)
Lemma parseCommand_throws (command : string)
      (this : AdvancedSVGPathParser) (shape : Shape) (exception : Exception) :
  parseCommand command this shape = Throws exception ->
  exception = TypeError /\ hasCurve shape = false /\ isCloseCommand command = true.
Proof.
  intros E. destruct (isCloseCommand command) eqn:C.
  - rewrite (parseCommand_close _ _ _ C), handleClosePath_cases in E.
    destruct (hasCurve shape); [discriminate E |]. injection E as <-. repeat split.
  - destruct (parseCommand_other command this shape C) as [next [added [R _]]].
    rewrite R in E. discriminate E.
Qed.

Lemma parseCommands_budget (commands : list string)
      (state : AdvancedSVGPathParser * Shape) :
  exists added,
    snd (fst (parseCommands commands state)) = snd state ++ added
    /\ (List.length added <= 50 * List.length commands)%nat.
Proof.
  revert state. induction commands as [| command commands IH]; intros [this shape].
  - exists []. split; [now rewrite app_nil_r | cbn; lia].
  - unfold parseCommands. cbn [forEach fst snd].
    destruct (parseCommand command this shape) as [next | thrown] eqn:E.
    + destruct (IH next) as [more [Hmore Hlen]].
      unfold parseCommands in Hmore. rewrite Hmore.
      assert (Hfirst : exists first,
                 snd next = shape ++ first /\ (List.length first <= 50)%nat).
      { destruct (isCloseCommand command) eqn:C.
        - rewrite (parseCommand_close _ _ _ C), handleClosePath_cases in E.
          destruct (hasCurve shape); [| discriminate E]. injection E as <-.
          exists [closePath]. split; [reflexivity | cbn; lia].
        - destruct (parseCommand_other command this shape C)
            as [next' [added [R [Hlen' _]]]].
          rewrite R in E. injection E as <-. exists added. split; [reflexivity | exact Hlen']. }
      destruct Hfirst as [first [Hfirst Hlen']]. rewrite Hfirst.
      exists (first ++ more). split; [now rewrite app_assoc |].
      rewrite length_app. cbn [List.length]. lia.
    + exists []. cbn [fst snd]. split; [now rewrite app_nil_r | cbn; lia].
Qed.

(** X4: A path of [n] commands makes at most [50 n + 1] calls on its shape,
    whether [parsePath] returns the shape or throws: every command adds at
    most the 50 points of one flattened curve, and one [closePath] may close
    the path. *)
Theorem parsePath_call_budget (pathData : string) :
  (List.length (snd (parsePathState pathData))
   <= 50 * List.length (matchCommands pathData) + 1)%nat
  /\ (List.length (shapeOf (parsePath pathData))
      <= 50 * List.length (matchCommands pathData) + 1)%nat.
Proof.
  unfold parsePath, parsePathState, parsePathRun.
  destruct (parseCommands_budget (matchCommands pathData) (reset, new_Shape))
    as [added [Hadded Hlen]].
  destruct (parseCommands (matchCommands pathData) (reset, new_Shape))
    as [[this shape] [thrown |]].
  - cbn [fst snd] in *. change (new_Shape ++ added) with added in Hadded. subst shape.
    cbn [shapeOf]. unfold new_Shape. cbn [List.length]. lia.
  - cbn [fst snd] in *. change (new_Shape ++ added) with added in Hadded. subst shape.
    destruct (negb (includes pathData "Z") && negb (includes pathData "z")).
    + unfold Shape_closePath. destruct (hasCurve added);
        cbn [fst snd shapeOf]; unfold new_Shape; rewrite ?length_app;
        cbn [List.length]; lia.
    + cbn [fst snd shapeOf]. lia.
Qed.

(** X5: [parsePath] returns exactly when a segment is drawn before the path
    is closed, and the shape it returns is closed once per [Z] or [z]
    command, or once at the end when the path has none.  Otherwise it throws
    the [TypeError] of [closePath] on a shape without a segment, and the
    shape is not closed at all. *)
Theorem parsePath_closes_once_per_Z (pathData : string) :
  let closes := List.length (filter isCloseCommand (matchCommands pathData)) in
  match parsePath pathData with
  | Returns shape =>
      closesBeforeDrawing (matchCommands pathData) = false
      /\ closeCount shape = (if (closes =? 0)%nat then 1%nat else closes)
  | Throws exception =>
      closesBeforeDrawing (matchCommands pathData) = true
      /\ exception = TypeError
      /\ closeCount (snd (parsePathState pathData)) = 0%nat
  end.
Proof.
  cbv zeta. rewrite parsePath_outcome.
  pose proof (parsePathRun_outcome pathData) as H. cbv zeta in H.
  unfold parsePathState.
  destruct (closesBeforeDrawing (matchCommands pathData)).
  - destruct H as [_ [_ H]]. repeat split. exact H.
  - destruct H as [_ [_ H]]. split; [reflexivity | exact H].
Qed.

(** X6: A command with fewer arguments than its group takes is skipped: it
    changes neither the parser nor the shape, and raises nothing. *)
Theorem command_with_too_few_arguments_is_skipped
        (type : ascii) (coords : list num)
        (this : AdvancedSVGPathParser) (shape : Shape) :
  (List.length coords < arity type)%nat ->
  switchCommand type coords this shape = Returns (this, shape).
Proof.
  unfold arity. switch_branches; intros H;
    repeat match goal with
           | E : (_ <=? _)%nat = true |- _ => apply Nat.leb_le in E
           end;
    first [reflexivity | lia].
Qed.

(** A line to a single number, a cubic with five. *)
Lemma command_with_too_few_arguments_example :
  ((List.length [5%num] < arity "L")%nat
   /\ (List.length [1; 2; 3; 4; 5]%num < arity "c")%nat)
  /\ switchCommand "L" [5%num] reset [moveTo 1 1] = Returns (reset, [moveTo 1 1])
  /\ switchCommand "c" [1; 2; 3; 4; 5]%num reset [moveTo 1 1]
     = Returns (reset, [moveTo 1 1]).
Proof.
  split; [split; vm_compute; repeat constructor |].
  split.
  - apply (@command_with_too_few_arguments_is_skipped "L" [5%num] reset [moveTo 1 1]).
    vm_compute. repeat constructor.
  - apply (@command_with_too_few_arguments_is_skipped "c" [1; 2; 3; 4; 5]%num reset
             [moveTo 1 1]).
    vm_compute. repeat constructor.
Defined.

Lemma lastMoveTo_app (shape added : Shape) :
  lastMoveTo (shape ++ added)
  = fold_left (fun point call =>
                 match call with
                 | moveTo px py => {| x := px; y := py |}
                 | _ => point
                 end) added (lastMoveTo shape).
Proof. unfold lastMoveTo. now rewrite fold_left_app. Qed.

Lemma lastMoveTo_lines (points : list Point) (start : Vector2) :
  fold_left (fun point call =>
               match call with
               | moveTo px py => {| x := px; y := py |}
               | _ => point
               end) (map lineTo points) start = start.
Proof. induction points as [| p points IH]; [reflexivity | exact IH]. Qed.

(** The absolute and the relative case of a handler. *)
Ltac either_case :=
  repeat match goal with
         | |- context [if Ascii.eqb ?a ?b then _ else _] => destruct (Ascii.eqb a b)
         end.

(** One command keeps the subpath start on the last [moveTo], and the
    current point too as long as no segment was drawn. *)
Lemma parseCommand_keeps_subpath_start (command : string)
      (state next : AdvancedSVGPathParser * Shape) :
  subpathStart (fst state) = lastMoveTo (snd state)
  /\ (hasCurve (snd state) = false -> here (fst state) = lastMoveTo (snd state)) ->
  parseCommand command (fst state) (snd state) = Returns next ->
  subpathStart (fst next) = lastMoveTo (snd next)
  /\ (hasCurve (snd next) = false -> here (fst next) = lastMoveTo (snd next)).
Proof.
  destruct state as [this shape]. cbn [fst snd]. intros [Hstart Hhere].
  destruct command as [| type rest]; cbn [parseCommand].
  - intros E. injection E as <-. now split.
  - switch_branches; try rewrite handleClosePath_cases;
      try destruct (hasCurve shape) eqn:Hc;
      intros E; try discriminate E; injection E as <-; cbn [fst snd];
      either_case;
      rewrite ?lastMoveTo_app, ?lastMoveTo_lines, ?hasCurve_app, ?Hc;
      cbn [fold_left hasCurve existsb addsCurve orb];
      rewrite ?hasCurve_sampled, ?orb_true_r;
      (split; [first [exact Hstart | reflexivity]
              | intros F; first [discriminate F | reflexivity | now apply Hhere]]).
Qed.

Lemma parseCommands_keep_subpath_start (commands : list string) :
  let final := fst (parseCommands commands (reset, new_Shape)) in
  subpathStart (fst final) = lastMoveTo (snd final)
  /\ (hasCurve (snd final) = false -> here (fst final) = lastMoveTo (snd final)).
Proof.
  cbv zeta. unfold parseCommands.
  apply (@forEach_invariant _ _ (fun _ => True)
           (fun state =>
              subpathStart (fst state) = lastMoveTo (snd state)
              /\ (hasCurve (snd state) = false
                  -> here (fst state) = lastMoveTo (snd state)))).
  - intros command state next _ H E.
    exact (@parseCommand_keeps_subpath_start command state next H E).
  - apply Forall_forall. intros; exact I.
  - split; [reflexivity | intros _; reflexivity].
Qed.

Lemma scanCommands_then_Z (s : string) :
  scanCommands (String.append s "Z")
  = (fst (scanCommands s), snd (scanCommands s) ++ ["Z"]).
Proof.
  induction s as [| c rest IH]; [reflexivity |].
  cbn [String.append scanCommands]. rewrite IH.
  destruct (scanCommands rest) as [run commands].
  destruct (isCommandLetter c); reflexivity.
Qed.

Lemma includes_then_Z (s : string) : includes (String.append s "Z") "Z" = true.
Proof.
  unfold includes. induction s as [| c rest IH]; [reflexivity |].
  cbn [String.append list_ascii_of_string existsb]. rewrite IH. apply orb_true_r.
Qed.

(** X7: The parser's subpath start is the point of the last [moveTo] the shape
    received ((0,0) before any); so a [Z] after any path puts the current
    point back on that point, from where the next relative command counts. *)
Theorem closing_returns_to_the_last_moveTo (pathData : string) :
  subpathStart (fst (parsePathState pathData)) = lastMoveTo (snd (parsePathState pathData))
  /\ here (fst (parsePathState (String.append pathData "Z")))
     = lastMoveTo (snd (parsePathState (String.append pathData "Z"))).
Proof.
  split.
  - unfold parsePathState, parsePathRun.
    destruct (parseCommands_keep_subpath_start (matchCommands pathData)) as [Hstart _].
    destruct (parseCommands (matchCommands pathData) (reset, new_Shape))
      as [[this shape] [thrown |]]; cbn [fst snd] in *; [exact Hstart |].
    destruct (negb (includes pathData "Z") && negb (includes pathData "z"));
      cbn [fst snd]; [| exact Hstart].
    unfold Shape_closePath. destruct (hasCurve shape); cbn [fst snd]; [| exact Hstart].
    rewrite lastMoveTo_app. exact Hstart.
  - unfold parsePathState.
    rewrite not_closed_again_when_the_path_has_a_Z
      by (rewrite includes_then_Z; reflexivity).
    unfold matchCommands. rewrite scanCommands_then_Z. cbn [snd].
    unfold parseCommands. rewrite forEach_app.
    fold (parseCommands (snd (scanCommands pathData)) (reset, new_Shape)).
    destruct (parseCommands_keep_subpath_start (snd (scanCommands pathData)))
      as [Hstart Hhere].
    destruct (parseCommands (snd (scanCommands pathData)) (reset, new_Shape))
      as [[this shape] [thrown |]] eqn:E; cbn [fst snd] in *.
    + apply Hhere. unfold parseCommands in E. apply forEach_throws in E.
      destruct E as [command [_ E]]. cbn [fst snd] in E.
      now apply parseCommand_throws in E.
    + cbn [forEach fst snd].
      change (parseCommand "Z" this shape) with (handleClosePath this shape).
      rewrite handleClosePath_cases.
      destruct (hasCurve shape) eqn:Hc; cbn [fst snd]; [| now apply Hhere].
      rewrite lastMoveTo_app. cbn [fold_left]. rewrite <- Hstart. reflexivity.
Qed.

Lemma line_letter_lower (type : ascii) :
  charIn "MmLlHhVv" type = true ->
  existsb (Ascii.eqb (toLowerCase type)) (list_ascii_of_string "mlhv") = true.
Proof.
  destruct type as [[] [] [] [] [] [] [] []]; vm_compute; intros E;
    first [reflexivity | discriminate E].
Qed.

Lemma penPosition_app (shape added : Shape) :
  penPosition (shape ++ added)
  = fold_left (fun point call =>
                 match call with
                 | moveTo px py => {| x := px; y := py |}
                 | lineTo (XY px py) => {| x := px; y := py |}
                 | _ => point
                 end) added (penPosition shape).
Proof. unfold penPosition. now rewrite fold_left_app. Qed.

(** A move or a line leaves the current point on the point it handed to the
    shape. *)
Lemma parseCommand_line_keeps_pen (command : string)
      (state next : AdvancedSVGPathParser * Shape) :
  isLineCommand command = true ->
  here (fst state) = penPosition (snd state) ->
  parseCommand command (fst state) (snd state) = Returns next ->
  here (fst next) = penPosition (snd next).
Proof.
  destruct state as [this shape]. cbn [fst snd].
  destruct command as [| type rest]; [discriminate |].
  cbn [isLineCommand parseCommand]. intros Hline. apply line_letter_lower in Hline.
  revert Hline. cbn [list_ascii_of_string existsb].
  switch_branches; either_case; intros Hline H E;
    first [ discriminate Hline
          | injection E as <-; cbn [fst snd];
            first [exact H | rewrite penPosition_app; reflexivity] ].
Qed.

(** X8: In a path of moves and lines (M, L, H, V in either case) the parser's
    current point is always the point it last handed to the shape: relative
    coordinates count from the last point drawn. *)
Theorem current_point_is_the_last_point_drawn (pathData : string) :
  forallb isLineCommand (matchCommands pathData) = true ->
  here (fst (parsePathState pathData)) = penPosition (snd (parsePathState pathData)).
Proof.
  intros Hl. unfold parsePathState, parsePathRun.
  assert (H : here (fst (fst (parseCommands (matchCommands pathData) (reset, new_Shape))))
              = penPosition
                  (snd (fst (parseCommands (matchCommands pathData) (reset, new_Shape))))).
  { unfold parseCommands.
    apply (@forEach_invariant _ _ (fun command => isLineCommand command = true)
             (fun state => here (fst state) = penPosition (snd state))).
    - intros command state next Hc H E.
      exact (@parseCommand_line_keeps_pen command state next Hc H E).
    - apply Forall_forall. now apply forallb_forall.
    - reflexivity. }
  destruct (parseCommands (matchCommands pathData) (reset, new_Shape))
    as [[this shape] [thrown |]]; cbn [fst snd] in *; [exact H |].
  destruct (negb (includes pathData "Z") && negb (includes pathData "z"));
    cbn [fst snd]; [| exact H].
  unfold Shape_closePath. destruct (hasCurve shape); cbn [fst snd]; [| exact H].
  rewrite penPosition_app. exact H.
Qed.

(** A move, a relative line, a vertical line and a horizontal line end at
    (0,4). *)
Lemma current_point_is_the_last_point_drawn_example :
  forallb isLineCommand (matchCommands "M1,1 l2,0 v3 H0") = true
  /\ here (fst (parsePathState "M1,1 l2,0 v3 H0")) = {| x := 0; y := 4 |}
  /\ penPosition (snd (parsePathState "M1,1 l2,0 v3 H0")) = {| x := 0; y := 4 |}.
Proof.
  split; [reflexivity |].
  pose proof (@current_point_is_the_last_point_drawn "M1,1 l2,0 v3 H0" eq_refl) as H.
  split; [vm_compute; reflexivity | rewrite <- H; vm_compute; reflexivity].
Defined.

(** X9: A lower-case command is the upper-case command with its coordinates
    counted from the current point: both coordinates of m, l and t, the one
    of h and v, all six of c, all four of s and q, and of an arc only its
    end, the radii, rotation and flags being taken as they are. *)
Theorem relative_commands_count_from_the_current_point
        (this : AdvancedSVGPathParser) (shape : Shape)
        (a b c d e f g : num) (rest : list num) :
  let X v := (currentX this + v)%num in
  let Y v := (currentY this + v)%num in
  switchCommand "m" (a :: b :: rest) this shape
  = switchCommand "M" (X a :: Y b :: rest) this shape
  /\ switchCommand "l" (a :: b :: rest) this shape
     = switchCommand "L" (X a :: Y b :: rest) this shape
  /\ switchCommand "h" (a :: rest) this shape
     = switchCommand "H" (X a :: rest) this shape
  /\ switchCommand "v" (a :: rest) this shape
     = switchCommand "V" (Y a :: rest) this shape
  /\ switchCommand "c" (a :: b :: c :: d :: e :: f :: rest) this shape
     = switchCommand "C" (X a :: Y b :: X c :: Y d :: X e :: Y f :: rest) this shape
  /\ switchCommand "s" (a :: b :: c :: d :: rest) this shape
     = switchCommand "S" (X a :: Y b :: X c :: Y d :: rest) this shape
  /\ switchCommand "q" (a :: b :: c :: d :: rest) this shape
     = switchCommand "Q" (X a :: Y b :: X c :: Y d :: rest) this shape
  /\ switchCommand "t" (a :: b :: rest) this shape
     = switchCommand "T" (X a :: Y b :: rest) this shape
  /\ switchCommand "a" (a :: b :: c :: d :: e :: f :: g :: rest) this shape
     = switchCommand "A" (a :: b :: c :: d :: e :: X f :: Y g :: rest) this shape.
Proof.
  cbv zeta. repeat (split; [reflexivity |]). reflexivity.
Qed.

(* ================================================================== *)
(** * The bounding box of [analyzeShape] *)

Lemma box_fold (points : list Vector2) (a b c d : num) :
  fold_left
    (fun '(minX, minY, maxX, maxY) point =>
       (Math_min minX (x point), Math_min minY (y point),
        Math_max maxX (x point), Math_max maxY (y point)))
    points (a, b, c, d)
  = (fold_left Math_min (map x points) a, fold_left Math_min (map y points) b,
     fold_left Math_max (map x points) c, fold_left Math_max (map y points) d).
Proof.
  revert a b c d. induction points as [| p points IH]; intros; [reflexivity |].
  cbn [fold_left map]. now rewrite IH.
Qed.

Lemma analyzeShape_box (Shape_getPoints : Shape -> num -> list Vector2)
      (shape : Shape) (pathData : string) :
  let points := Shape_getPoints shape 100%num in
  let minX := fold_left Math_min (map x points) PInf in
  let minY := fold_left Math_min (map y points) PInf in
  let maxX := fold_left Math_max (map x points) NInf in
  let maxY := fold_left Math_max (map y points) NInf in
  ShapeAnalysis.boundingBox (analyzeShape Shape_getPoints shape pathData)
  = {| BoundingBox.min := {| x := minX; y := minY |};
       BoundingBox.max := {| x := maxX; y := maxY |};
       BoundingBox.size := {| x := (maxX - minX)%num; y := (maxY - minY)%num |} |}.
Proof.
  cbv zeta. unfold analyzeShape. now rewrite box_fold.
Qed.

Lemma fold_min_finite (values : list num) (start : Q) :
  forallb isFinite values = true ->
  exists m,
    fold_left Math_min values (Fin start) = Fin m
    /\ (m <= start)%Q
    /\ Forall (fun v => exists q, v = Fin q /\ (m <= q)%Q) values
    /\ In (Fin m) (Fin start :: values).
Proof.
  revert start. induction values as [| v values IH]; intros start Hf.
  - exists start. repeat split; [apply Qle_refl | constructor | now left].
  - cbn [forallb] in Hf. apply andb_true_iff in Hf. destruct Hf as [Hv Hf].
    destruct v as [q | | |]; try discriminate Hv.
    cbn [fold_left Math_min ltb].
    destruct (Qltb q start) eqn:E.
    + apply Qltb_lt in E. destruct (IH q Hf) as [m [Hm [Hle [Hall Hin]]]].
      exists m. split; [exact Hm |]. split; [lra |].
      split; [constructor; [exists q; split; [reflexivity | exact Hle] | exact Hall] |].
      right. exact Hin.
    + apply Qltb_ge in E. destruct (IH start Hf) as [m [Hm [Hle [Hall Hin]]]].
      exists m. split; [exact Hm |]. split; [exact Hle |].
      split; [constructor; [exists q; split; [reflexivity | lra] | exact Hall] |].
      destruct Hin as [Hin | Hin]; [now left | right; now right].
Qed.

Lemma fold_max_finite (values : list num) (start : Q) :
  forallb isFinite values = true ->
  exists m,
    fold_left Math_max values (Fin start) = Fin m
    /\ (start <= m)%Q
    /\ Forall (fun v => exists q, v = Fin q /\ (q <= m)%Q) values
    /\ In (Fin m) (Fin start :: values).
Proof.
  revert start. induction values as [| v values IH]; intros start Hf.
  - exists start. repeat split; [apply Qle_refl | constructor | now left].
  - cbn [forallb] in Hf. apply andb_true_iff in Hf. destruct Hf as [Hv Hf].
    destruct v as [q | | |]; try discriminate Hv.
    cbn [fold_left Math_max ltb].
    destruct (Qltb start q) eqn:E.
    + apply Qltb_lt in E. destruct (IH q Hf) as [m [Hm [Hle [Hall Hin]]]].
      exists m. split; [exact Hm |]. split; [lra |].
      split; [constructor; [exists q; split; [reflexivity | exact Hle] | exact Hall] |].
      right. exact Hin.
    + apply Qltb_ge in E. destruct (IH start Hf) as [m [Hm [Hle [Hall Hin]]]].
      exists m. split; [exact Hm |]. split; [exact Hle |].
      split; [constructor; [exists q; split; [reflexivity | lra] | exact Hall] |].
      destruct Hin as [Hin | Hin]; [now left | right; now right].
Qed.

(** The extremes of a non-empty list of finite numbers, folded from the
    infinities as [analyzeShape] does. *)
Lemma extremes_of_finite (values : list num) :
  values <> [] -> forallb isFinite values = true ->
  exists lo hi,
    fold_left Math_min values PInf = Fin lo
    /\ fold_left Math_max values NInf = Fin hi
    /\ Forall (fun v => exists q, v = Fin q /\ (lo <= q <= hi)%Q) values
    /\ In (Fin lo) values /\ In (Fin hi) values.
Proof.
  intros Hne Hf. destruct values as [| v values]; [contradiction |].
  cbn [forallb] in Hf. apply andb_true_iff in Hf. destruct Hf as [Hv Hf].
  destruct v as [q | | |]; try discriminate Hv.
  destruct (fold_min_finite values q Hf) as [lo [Hlo [Hlole [Hloall Hloin]]]].
  destruct (fold_max_finite values q Hf) as [hi [Hhi [Hhile [Hhiall Hhiin]]]].
  exists lo, hi. cbn [fold_left]. change (Math_min PInf (Fin q)) with (Fin q).
  change (Math_max NInf (Fin q)) with (Fin q).
  repeat split; try assumption.
  constructor; [exists q; split; [reflexivity | split; assumption] |].
  rewrite Forall_forall in *. intros v Hin.
  destruct (Hloall v Hin) as [a [Ha Hla]], (Hhiall v Hin) as [b [Hb Hlb]].
  exists a. split; [exact Ha |]. rewrite Ha in Hb. injection Hb as <-. split; assumption.
Qed.

(** X10: The bounding box of a shape with points, all finite: its corners are
    finite, every point lies between them, each bound is the coordinate of
    some point, and the size is the difference of the corners, never
    negative. *)
Theorem bounding_box_contains_the_points
        (Shape_getPoints : Shape -> num -> list Vector2)
        (shape : Shape) (pathData : string) :
  let points := Shape_getPoints shape 100%num in
  let box := ShapeAnalysis.boundingBox (analyzeShape Shape_getPoints shape pathData) in
  points <> [] ->
  forallb isFinitePoint points = true ->
  exists minX minY maxX maxY : Q,
    BoundingBox.min box = {| x := Fin minX; y := Fin minY |}
    /\ BoundingBox.max box = {| x := Fin maxX; y := Fin maxY |}
    /\ BoundingBox.size box = {| x := fin (maxX - minX); y := fin (maxY - minY) |}
    /\ (0 <= maxX - minX)%Q /\ (0 <= maxY - minY)%Q
    /\ Forall (fun p => exists px py,
                   p = {| x := Fin px; y := Fin py |}
                   /\ (minX <= px <= maxX)%Q /\ (minY <= py <= maxY)%Q) points
    /\ In (Fin minX) (map x points) /\ In (Fin maxX) (map x points)
    /\ In (Fin minY) (map y points) /\ In (Fin maxY) (map y points).
Proof.
  intros points box Hne Hf. subst box. rewrite analyzeShape_box. cbv zeta.
  fold points.
  assert (Hx : forallb isFinite (map x points) = true).
  { rewrite forallb_forall in *. intros v Hin. apply in_map_iff in Hin.
    destruct Hin as [p [<- Hp]]. specialize (Hf p Hp). unfold isFinitePoint in Hf.
    now apply andb_true_iff in Hf. }
  assert (Hy : forallb isFinite (map y points) = true).
  { rewrite forallb_forall in *. intros v Hin. apply in_map_iff in Hin.
    destruct Hin as [p [<- Hp]]. specialize (Hf p Hp). unfold isFinitePoint in Hf.
    now apply andb_true_iff in Hf. }
  assert (Hnx : map x points <> []) by (destruct points; [contradiction | discriminate]).
  assert (Hny : map y points <> []) by (destruct points; [contradiction | discriminate]).
  destruct (extremes_of_finite Hnx Hx) as [minX [maxX [Hminx [Hmaxx [Hallx [Hinx Hinx']]]]]].
  destruct (extremes_of_finite Hny Hy) as [minY [maxY [Hminy [Hmaxy [Hally [Hiny Hiny']]]]]].
  exists minX, minY, maxX, maxY. rewrite Hminx, Hmaxx, Hminy, Hmaxy.
  rewrite Forall_forall in Hallx, Hally.
  assert (Hex : exists p, In p points) by (destruct points as [| p ?]; [contradiction | exists p; now left]).
  destruct Hex as [p0 Hp0].
  destruct (Hallx (x p0) (in_map x _ _ Hp0)) as [a0 [_ Ha0]].
  destruct (Hally (y p0) (in_map y _ _ Hp0)) as [b0 [_ Hb0]].
  repeat split; try assumption; try lra.
  rewrite Forall_forall. intros p Hp.
  destruct (Hallx (x p) (in_map x _ _ Hp)) as [px [Hpx Hbx]].
  destruct (Hally (y p) (in_map y _ _ Hp)) as [py [Hpy Hby]].
  exists px, py. destruct p as [vx vy]. cbn [x y] in *. subst vx vy.
  repeat split; tauto.
Qed.

(** Three points: the box is (0,-1) to (4,3), its size (4,4). *)
Lemma bounding_box_contains_the_points_example :
  let Shape_getPoints := fun (shape : Shape) (_ : num) => vertices shape in
  let shape := shapeOf (parsePath "M0,0 L4,3 L2,-1") in
  (Shape_getPoints shape 100%num <> []
   /\ forallb isFinitePoint (Shape_getPoints shape 100%num) = true)
  /\ ShapeAnalysis.boundingBox (analyzeShape Shape_getPoints shape "M0,0 L4,3 L2,-1")
     = {| BoundingBox.min := {| x := 0; y := (-1) |};
          BoundingBox.max := {| x := 4; y := 3 |};
          BoundingBox.size := {| x := 4; y := 4 |} |}
  /\ exists minX minY maxX maxY : Q,
       BoundingBox.size
         (ShapeAnalysis.boundingBox
            (analyzeShape Shape_getPoints shape "M0,0 L4,3 L2,-1"))
       = {| x := fin (maxX - minX); y := fin (maxY - minY) |}.
Proof.
  cbv zeta. split; [split; [discriminate | reflexivity] |].
  split; [vm_compute; reflexivity |].
  destruct (@bounding_box_contains_the_points
              (fun (shape : Shape) (_ : num) => vertices shape)
              (shapeOf (parsePath "M0,0 L4,3 L2,-1")) "M0,0 L4,3 L2,-1")
    as [minX [minY [maxX [maxY [_ [_ [Hsize _]]]]]]].
  - discriminate.
  - reflexivity.
  - exists minX, minY, maxX, maxY. exact Hsize.
Defined.

Lemma fold_min_NaN (values : list num) : fold_left Math_min values NaN = NaN.
Proof. induction values as [| v values IH]; [reflexivity | exact IH]. Qed.

Lemma fold_max_NaN (values : list num) : fold_left Math_max values NaN = NaN.
Proof. induction values as [| v values IH]; [reflexivity | exact IH]. Qed.

Lemma fold_min_poisoned (values : list num) (start : num) :
  In NaN values -> fold_left Math_min values start = NaN.
Proof.
  revert start. induction values as [| v values IH]; intros start Hin; [contradiction |].
  cbn [fold_left]. destruct Hin as [-> | Hin]; [| now apply IH].
  replace (Math_min start NaN) with NaN by (now destruct start).
  apply fold_min_NaN.
Qed.

Lemma fold_max_poisoned (values : list num) (start : num) :
  In NaN values -> fold_left Math_max values start = NaN.
Proof.
  revert start. induction values as [| v values IH]; intros start Hin; [contradiction |].
  cbn [fold_left]. destruct Hin as [-> | Hin]; [| now apply IH].
  replace (Math_max start NaN) with NaN by (now destruct start).
  apply fold_max_NaN.
Qed.

Lemma sub_NaN (a : num) : (a - NaN)%num = NaN.
Proof. now destruct a. Qed.

(** X11: The bounding box of a shape without points, and of a shape with a point
    that is not a number.  Without points the corners are the infinities the
    scan starts from and the size is minus infinity; one NaN abscissa among
    the points makes the abscissas of both corners and of the size NaN. *)
Theorem bounding_box_of_degenerate_points
        (Shape_getPoints : Shape -> num -> list Vector2)
        (shape : Shape) (pathData : string) :
  let points := Shape_getPoints shape 100%num in
  let box := ShapeAnalysis.boundingBox (analyzeShape Shape_getPoints shape pathData) in
  (points = [] ->
   box = {| BoundingBox.min := {| x := PInf; y := PInf |};
            BoundingBox.max := {| x := NInf; y := NInf |};
            BoundingBox.size := {| x := NInf; y := NInf |} |})
  /\ (In NaN (map x points) ->
      x (BoundingBox.min box) = NaN /\ x (BoundingBox.max box) = NaN
      /\ x (BoundingBox.size box) = NaN).
Proof.
  intros points box. subst box. rewrite analyzeShape_box. cbv zeta. fold points.
  split.
  - intros ->. reflexivity.
  - intros Hin. cbn [BoundingBox.min BoundingBox.max BoundingBox.size x].
    rewrite (fold_min_poisoned _ _ Hin), (fold_max_poisoned _ _ Hin).
    repeat split.
Qed.

(** A shape without a call, and a line to an abscissa that is no number. *)
Lemma bounding_box_of_degenerate_points_example :
  let Shape_getPoints := fun (shape : Shape) (_ : num) => vertices shape in
  (Shape_getPoints new_Shape 100%num = []
   /\ In NaN (map x (Shape_getPoints (shapeOf (parsePath "M0,0 Lfoo,5")) 100%num)))
  /\ x (BoundingBox.size
          (ShapeAnalysis.boundingBox
             (analyzeShape Shape_getPoints new_Shape ""))) = NInf
  /\ x (BoundingBox.size
          (ShapeAnalysis.boundingBox
             (analyzeShape Shape_getPoints (shapeOf (parsePath "M0,0 Lfoo,5")) "M0,0 Lfoo,5")))
     = NaN.
Proof.
  cbv zeta. split; [split; [reflexivity | vm_compute; right; left; reflexivity] |].
  pose proof (@bounding_box_of_degenerate_points
                (fun (shape : Shape) (_ : num) => vertices shape)
                new_Shape "") as [Hempty _].
  pose proof (@bounding_box_of_degenerate_points
                (fun (shape : Shape) (_ : num) => vertices shape)
                (shapeOf (parsePath "M0,0 Lfoo,5")) "M0,0 Lfoo,5") as [_ Hnan].
  cbv zeta in Hempty, Hnan. split.
  - rewrite (Hempty eq_refl). reflexivity.
  - apply Hnan. vm_compute. right. left. reflexivity.
Defined.

(* ================================================================== *)
(** * More on processing a file *)

Lemma processPath_step (Shape_getPoints : Shape -> num -> list Vector2)
      (acc : AdvancedSVGData.t) (p : SVGResultPath) :
  match pathDataOf p with
  | None => processPath Shape_getPoints acc p = acc
  | Some d =>
      match parsePath d with
      | Throws _ => processPath Shape_getPoints acc p = acc
      | Returns _ =>
          exists entry,
            AdvancedSVGData.individualShapes (processPath Shape_getPoints acc p)
            = AdvancedSVGData.individualShapes acc ++ [entry]
            /\ AdvancedSVGData.shapes (processPath Shape_getPoints acc p)
               = AdvancedSVGData.shapes acc ++ [IndividualShape.shape entry]
            /\ IndividualShape.pathData entry = d
            /\ entryIsAnalysed Shape_getPoints entry
            /\ (List.length (AdvancedSVGData.curves (processPath Shape_getPoints acc p))
                <= List.length (AdvancedSVGData.curves acc) + 1)%nat
            /\ AdvancedSVGData.svgString (processPath Shape_getPoints acc p)
               = AdvancedSVGData.svgString acc
      end
  end.
Proof.
  unfold processPath, pathDataOf.
  destruct (userData_node p) as [node |]; [| reflexivity].
  destruct (getAttribute_d node) as [d |]; [| reflexivity].
  destruct (String.eqb d ""); [reflexivity |].
  destruct (parsePath d) as [shape | thrown] eqn:E; [| reflexivity].
  eexists. cbn [AdvancedSVGData.individualShapes AdvancedSVGData.curves
                AdvancedSVGData.svgString AdvancedSVGData.shapes].
  split; [reflexivity |]. split; [reflexivity |]. split; [reflexivity |].
  split; [unfold entryIsAnalysed; cbn [IndividualShape.shape IndividualShape.pathData
                                       IndividualShape.boundingBox
                                       IndividualShape.complexity
                                       IndividualShape.curveCount];
          repeat split; exact E |].
  split; [| reflexivity].
  destruct (2 <? List.length (Shape_getPoints shape 100%num))%nat;
    rewrite ?length_app; cbn [List.length]; lia.
Qed.

Lemma processPath_entries (Shape_getPoints : Shape -> num -> list Vector2)
      (paths : list SVGResultPath) (acc : AdvancedSVGData.t) :
  let filled := fold_left (processPath Shape_getPoints) paths acc in
  map IndividualShape.pathData (AdvancedSVGData.individualShapes filled)
  = map IndividualShape.pathData (AdvancedSVGData.individualShapes acc) ++ parsedDatas paths
  /\ (Forall (entryIsAnalysed Shape_getPoints) (AdvancedSVGData.individualShapes acc) ->
      Forall (entryIsAnalysed Shape_getPoints) (AdvancedSVGData.individualShapes filled))
  /\ (AdvancedSVGData.shapes acc
      = map IndividualShape.shape (AdvancedSVGData.individualShapes acc) ->
      AdvancedSVGData.shapes filled
      = map IndividualShape.shape (AdvancedSVGData.individualShapes filled))
  /\ ((List.length (AdvancedSVGData.curves acc)
       <= List.length (AdvancedSVGData.individualShapes acc))%nat ->
      (List.length (AdvancedSVGData.curves filled)
       <= List.length (AdvancedSVGData.individualShapes filled))%nat)
  /\ AdvancedSVGData.svgString filled = AdvancedSVGData.svgString acc.
Proof.
  cbv zeta. unfold parsedDatas, pathDatas. revert acc.
  induction paths as [| p paths IH]; intros acc; cbn [fold_left flat_map filter].
  - rewrite app_nil_r. repeat split; auto.
  - destruct (IH (processPath Shape_getPoints acc p)) as [Hd [Ha [Hm [Hc Hs]]]].
    rewrite Hd, Hs, filter_app. clear IH Hd Hs.
    pose proof (processPath_step Shape_getPoints acc p) as Hstep.
    destruct (pathDataOf p) as [d |]; cbn [filter].
    + destruct (parsePath d) as [shape | thrown].
      * destruct Hstep as [entry [Hentries [Hshapes [Hdata [Hentry [Hcurves Hstring]]]]]].
        rewrite Hentries, Hshapes in *. rewrite Hstring.
        split; [rewrite map_app, <- app_assoc, <- Hdata; reflexivity |].
        split; [| split; [| split; [| reflexivity]]].
        -- intros H. apply Ha. apply Forall_app. split; [exact H |].
           constructor; [exact Hentry | constructor].
        -- intros H. apply Hm. rewrite map_app, H. reflexivity.
        -- intros H. apply Hc. rewrite length_app. cbn [List.length]. lia.
      * rewrite Hstep in *. cbn [app]. repeat split; assumption.
    + rewrite Hstep in *. cbn [app]. repeat split; assumption.
Qed.

(** What both theorems below rest on. *)
Lemma processed_entries_are_the_parsed_paths
      (Shape_getPoints : Shape -> num -> list Vector2)
      (text : string) (paths : list SVGResultPath) :
  match AdvancedProcessedSVGResult.data
          (processAdvancedSVGFile Shape_getPoints (Loaded text paths)) with
  | Some data =>
      map IndividualShape.pathData (AdvancedSVGData.individualShapes data)
      = parsedDatas paths
      /\ AdvancedSVGData.shapes data
         = match AdvancedSVGData.individualShapes data with
           | [] => [fallbackShape]
           | entries => map IndividualShape.shape entries
           end
  | None => False
  end.
Proof.
  unfold processAdvancedSVGFile.
  cbn [AdvancedProcessedSVGResult.data AdvancedSVGData.individualShapes
       AdvancedSVGData.shapes].
  match goal with
  | |- context [fold_left (processPath Shape_getPoints) paths ?acc] =>
      destruct (processPath_entries Shape_getPoints paths acc) as [Hd [_ [Hm _]]];
      set (filled := fold_left (processPath Shape_getPoints) paths acc) in *
  end.
  cbv zeta in *. cbn [AdvancedSVGData.individualShapes AdvancedSVGData.shapes map app] in *.
  specialize (Hm eq_refl).
  split; [exact Hd |]. rewrite Hm.
  destruct (AdvancedSVGData.individualShapes filled); reflexivity.
Qed.

(** X12: The data of a processed file: [individualShapes] has one entry for every
    path element with a non-empty [d] that [parsePath] returns a shape for,
    in order, each holding that shape and what [analyzeShape] returns for
    it; the paths [parsePath] throws on, those that ask to close before a
    segment was drawn, leave no entry.  [shapes] holds the same shapes, or
    the substitute square alone when there is no entry; there are never more
    curves than entries; [svgString] is the text read. *)
Theorem processed_shapes_and_entries_agree
        (Shape_getPoints : Shape -> num -> list Vector2)
        (text : string) (paths : list SVGResultPath) :
  match AdvancedProcessedSVGResult.data
          (processAdvancedSVGFile Shape_getPoints (Loaded text paths)) with
  | Some data =>
      let entries := AdvancedSVGData.individualShapes data in
      map IndividualShape.pathData entries = parsedDatas paths
      /\ parsedDatas paths
         = filter (fun pathData => negb (closesBeforeDrawing (matchCommands pathData)))
                  (pathDatas paths)
      /\ Forall (entryIsAnalysed Shape_getPoints) entries
      /\ AdvancedSVGData.shapes data
         = match entries with
           | [] => [fallbackShape]
           | _ => map IndividualShape.shape entries
           end
      /\ (List.length (AdvancedSVGData.curves data) <= List.length entries)%nat
      /\ AdvancedSVGData.svgString data = text
  | None => False
  end.
Proof.
  unfold processAdvancedSVGFile.
  cbn [AdvancedProcessedSVGResult.data AdvancedSVGData.individualShapes
       AdvancedSVGData.shapes AdvancedSVGData.curves AdvancedSVGData.svgString].
  match goal with
  | |- context [fold_left (processPath Shape_getPoints) paths ?acc] =>
      destruct (processPath_entries Shape_getPoints paths acc) as [Hd [Ha [Hm [Hc Hs]]]];
      set (filled := fold_left (processPath Shape_getPoints) paths acc) in *
  end.
  cbv zeta in *. cbn [AdvancedSVGData.individualShapes AdvancedSVGData.curves
                      AdvancedSVGData.shapes
                      AdvancedSVGData.svgString map app List.length] in *.
  specialize (Ha (Forall_nil _)). specialize (Hc (le_n 0)). specialize (Hm eq_refl).
  split; [exact Hd |]. split; [exact (proj1 (parsed_paths paths)) |].
  split; [exact Ha |]. split; [| split; [exact Hc | reflexivity]].
  rewrite Hm.
  destruct (AdvancedSVGData.individualShapes filled); reflexivity.
Qed.

(** X13: The planner and the processor: for the data of a processed file there is
    a plan, and a ladder of detail levels, exactly at the indices below the
    number of path elements with a non-empty [d] that [parsePath] returns a
    shape for.  [shapes] is never empty, so when the substitute square
    stands in, index 0 names a shape without a plan. *)
Theorem plans_exist_for_parsed_paths_only
        (Shape_getPoints : Shape -> num -> list Vector2)
        (Vector2_length : Vector2 -> num)
        (text : string) (paths : list SVGResultPath) (shapeIndex : nat) :
  match AdvancedProcessedSVGResult.data
          (processAdvancedSVGFile Shape_getPoints (Loaded text paths)) with
  | Some data =>
      (analyzeShapeForZoom Vector2_length data shapeIndex = None
       <-> (List.length (parsedDatas paths) <= shapeIndex)%nat)
      /\ (createProgressiveDetailLevels Shape_getPoints Vector2_length data shapeIndex = []
          <-> (List.length (parsedDatas paths) <= shapeIndex)%nat)
      /\ List.length (AdvancedSVGData.shapes data)
         = Nat.max 1 (List.length (parsedDatas paths))
      /\ parsedDatas paths
         = filter (fun pathData => negb (closesBeforeDrawing (matchCommands pathData)))
                  (pathDatas paths)
  | None => False
  end.
Proof.
  pose proof (processed_entries_are_the_parsed_paths Shape_getPoints text paths) as H.
  destruct (AdvancedProcessedSVGResult.data
              (processAdvancedSVGFile Shape_getPoints (Loaded text paths)))
    as [data |]; [| exact H].
  destruct H as [Hd Hshapes].
  assert (Hlen : List.length (AdvancedSVGData.individualShapes data)
                 = List.length (parsedDatas paths)).
  { rewrite <- Hd. now rewrite length_map. }
  assert (Hplan : analyzeShapeForZoom Vector2_length data shapeIndex = None
                  <-> (List.length (parsedDatas paths) <= shapeIndex)%nat).
  { unfold analyzeShapeForZoom. rewrite <- Hlen, <- nth_error_None.
    destruct (nth_error (AdvancedSVGData.individualShapes data) shapeIndex);
      split; intros E; first [reflexivity | discriminate E]. }
  split; [exact Hplan |]. split; [| split; [| exact (proj1 (parsed_paths paths))]].
  - rewrite <- Hplan. unfold createProgressiveDetailLevels.
    destruct (analyzeShapeForZoom Vector2_length data shapeIndex);
      split; intros E; first [reflexivity | discriminate E].
  - rewrite Hshapes, <- Hlen.
    destruct (AdvancedSVGData.individualShapes data) as [| e entries];
      [reflexivity |].
    rewrite length_map. cbn [List.length]. lia.
Qed.

(* ================================================================== *)
(** * More on the detail planner *)

Lemma max_min_within (lo hi : Q) (v : num) :
  (lo <= hi)%Q -> within lo hi (Math_max (Fin lo) (Math_min (Fin hi) v)).
Proof. intros H. exact (max_min_range v H). Qed.

(** X14: Every number of a plan lies in its range, unless the analysis it was
    computed from is not a number: [resolution] in 50..200, [extrudeDepth]
    in 0.5..5, [bevelSegments] in 2..8, [curveSegments] in 32..128, [steps]
    a whole number in 1..4, the bevel 0.1 thick and 0.05 wide or 0.3 thick
    and 0.2 wide. *)
Theorem plan_settings_are_bounded
        (Vector2_length : Vector2 -> num)
        (svgData : AdvancedSVGData.t) (shapeIndex : nat) :
  match analyzeShapeForZoom Vector2_length svgData shapeIndex with
  | Some plan =>
      let s := ZoomAnalysis.optimalSettings plan in
      within 50 200 (DetailedShapeSettings.resolution s)
      /\ within 0.5 5 (DetailedShapeSettings.extrudeDepth s)
      /\ within 2 8 (DetailedShapeSettings.bevelSegments s)
      /\ within 32 128 (DetailedShapeSettings.curveSegments s)
      /\ within 1 4 (DetailedShapeSettings.steps s)
      /\ (DetailedShapeSettings.steps s = NaN
          \/ exists z, DetailedShapeSettings.steps s = ofZ z)
      /\ ((DetailedShapeSettings.bevelThickness s = Fin 0.1
           /\ DetailedShapeSettings.bevelSize s = Fin 0.05)
          \/ (DetailedShapeSettings.bevelThickness s = Fin 0.3
              /\ DetailedShapeSettings.bevelSize s = Fin 0.2))
  | None => True
  end.
Proof.
  unfold analyzeShapeForZoom.
  destruct (nth_error (AdvancedSVGData.individualShapes svgData) shapeIndex) as [entry |];
    [| exact I].
  cbn [ZoomAnalysis.optimalSettings DetailedShapeSettings.resolution
       DetailedShapeSettings.extrudeDepth DetailedShapeSettings.bevelSegments
       DetailedShapeSettings.curveSegments DetailedShapeSettings.steps
       DetailedShapeSettings.bevelThickness DetailedShapeSettings.bevelSize].
  repeat (split; [apply max_min_within; lra |]).
  split; [apply (max_min_floor_whole 1 4) |].
  destruct (gtb (IndividualShape.curveCount entry) 10); [right | left]; split; reflexivity.
Qed.

Lemma floor_mul_monotone (q m1 m2 : Q) :
  (0 <= q)%Q -> (m1 <= m2)%Q ->
  gtb (Math_floor (Fin q * Fin m1)%num) (Math_floor (Fin q * Fin m2)%num) = false.
Proof.
  intros Hq Hm. unfold JS.mul, fin, Math_floor, gtb, ofZ, ltb. apply Qltb_ge.
  rewrite <- Zle_Qle. apply Qfloor_resp_le. rewrite !Qred_correct. nra.
Qed.

(** Two rungs of a clamped value, the second with the larger multiplier. *)
Lemma rungs_in_order (lo hi : Q) (v : num) (m1 m2 : Q) :
  (0 <= lo <= hi)%Q -> (m1 <= m2)%Q ->
  gtb (Math_floor (Math_max (Fin lo) (Math_min (Fin hi) v) * Fin m1)%num)
      (Math_floor (Math_max (Fin lo) (Math_min (Fin hi) v) * Fin m2)%num) = false.
Proof.
  intros Hb Hm.
  destruct (@max_min_range lo hi v) as [E | [q [E [Hlo Hhi]]]]; [lra | |]; rewrite E.
  - reflexivity.
  - apply floor_mul_monotone; lra.
Qed.

(** X15: The ladder of a shape that exists has the rungs 1 to 4, and the detail
    never goes down along it: neither [curveSegments] nor [resolution] of a
    rung is greater than that of the next.  Every rung keeps the plan's
    extrusion depth and bevel. *)
Theorem ladder_detail_never_decreases
        (Shape_getPoints : Shape -> num -> list Vector2)
        (Vector2_length : Vector2 -> num)
        (svgData : AdvancedSVGData.t) (shapeIndex : nat) :
  match analyzeShapeForZoom Vector2_length svgData shapeIndex,
        createProgressiveDetailLevels Shape_getPoints Vector2_length svgData shapeIndex with
  | Some plan, [low; medium; high; ultra] =>
      let cs rung := DetailedShapeSettings.curveSegments (DetailLevel.settings rung) in
      let res rung := DetailedShapeSettings.resolution (DetailLevel.settings rung) in
      map DetailLevel.level [low; medium; high; ultra] = [1; 2; 3; 4]%nat
      /\ gtb (cs low) (cs medium) = false
      /\ gtb (cs medium) (cs high) = false
      /\ gtb (cs high) (cs ultra) = false
      /\ gtb (res low) (res medium) = false
      /\ gtb (res medium) (res high) = false
      /\ gtb (res high) (res ultra) = false
      /\ Forall (fun rung =>
                   let s := DetailLevel.settings rung in
                   let p := ZoomAnalysis.optimalSettings plan in
                   DetailedShapeSettings.extrudeDepth s = DetailedShapeSettings.extrudeDepth p
                   /\ DetailedShapeSettings.bevelEnabled s
                      = DetailedShapeSettings.bevelEnabled p
                   /\ DetailedShapeSettings.bevelThickness s
                      = DetailedShapeSettings.bevelThickness p
                   /\ DetailedShapeSettings.bevelSize s = DetailedShapeSettings.bevelSize p
                   /\ DetailedShapeSettings.bevelSegments s
                      = DetailedShapeSettings.bevelSegments p)
                [low; medium; high; ultra]
  | None, [] => True
  | _, _ => False
  end.
Proof.
  unfold createProgressiveDetailLevels, analyzeShapeForZoom.
  destruct (nth_error (AdvancedSVGData.individualShapes svgData) shapeIndex) as [entry |];
    [| exact I].
  unfold levels. cbn [map]. cbv zeta.
  cbn [DetailLevel.level DetailLevel.settings levelSettings ZoomAnalysis.optimalSettings
       DetailedShapeSettings.curveSegments DetailedShapeSettings.resolution
       DetailedShapeSettings.extrudeDepth DetailedShapeSettings.bevelEnabled
       DetailedShapeSettings.bevelThickness DetailedShapeSettings.bevelSize
       DetailedShapeSettings.bevelSegments].
  split; [reflexivity |].
  repeat (split; [apply rungs_in_order; lra |]).
  repeat constructor.
Qed.

(** The steps of a rung made from [z] plan steps with the multiplier [m]. *)
Lemma rung_steps_whole (z : Z) (m : Q) :
  (1 <= z <= 4)%Z -> (0 <= m <= 4)%Q ->
  exists r, Math_max 1 (Math_floor (ofZ z * Fin m)%num) = ofZ r /\ (1 <= r <= 16)%Z.
Proof.
  intros Hz Hm. unfold JS.mul, fin, Math_floor, ofZ at 1.
  set (f := Qfloor (Qred (inject_Z z * m))).
  assert (Hf : (0 <= f <= 16)%Z).
  { subst f. rewrite (Qfloor_comp _ _ (Qred_correct _)).
    assert (H1 : (inject_Z 1 <= inject_Z z)%Q) by (rewrite <- Zle_Qle; lia).
    assert (H4 : (inject_Z z <= inject_Z 4)%Q) by (rewrite <- Zle_Qle; lia).
    change (inject_Z 1) with 1%Q in H1. change (inject_Z 4) with 4%Q in H4.
    split.
    - rewrite <- (Qfloor_Z 0). apply Qfloor_resp_le. change (inject_Z 0) with 0%Q. nra.
    - rewrite <- (Qfloor_Z 16). apply Qfloor_resp_le. change (inject_Z 16) with 16%Q. nra. }
  change 1%num with (ofZ 1). unfold Math_max, ofZ, ltb.
  destruct (Qltb (inject_Z 1) (inject_Z f)) eqn:E.
  - exists f. split; [reflexivity |]. apply Qltb_lt in E. rewrite <- Zlt_Qlt in E. lia.
  - exists 1%Z. split; [reflexivity | lia].
Qed.

(** X16: The Medium rung is the plan rounded down: its [curveSegments] and its
    [resolution] are the floors of the plan's, and it has the plan's steps.
    Every rung has a whole number of steps from 1 to 16, unless the plan's
    steps are not a number. *)
Theorem medium_rung_is_the_plan_rounded_down
        (Shape_getPoints : Shape -> num -> list Vector2)
        (Vector2_length : Vector2 -> num)
        (svgData : AdvancedSVGData.t) (shapeIndex : nat) :
  match analyzeShapeForZoom Vector2_length svgData shapeIndex,
        createProgressiveDetailLevels Shape_getPoints Vector2_length svgData shapeIndex with
  | Some plan, [low; medium; high; ultra] =>
      let p := ZoomAnalysis.optimalSettings plan in
      let m := DetailLevel.settings medium in
      DetailedShapeSettings.curveSegments m
      = Math_floor (DetailedShapeSettings.curveSegments p)
      /\ DetailedShapeSettings.resolution m
         = Math_floor (DetailedShapeSettings.resolution p)
      /\ DetailedShapeSettings.steps m = DetailedShapeSettings.steps p
      /\ Forall (fun rung =>
                   let steps := DetailedShapeSettings.steps (DetailLevel.settings rung) in
                   steps = NaN \/ exists z, steps = ofZ z /\ (1 <= z <= 16)%Z)
                [low; medium; high; ultra]
  | None, [] => True
  | _, _ => False
  end.
Proof.
  unfold createProgressiveDetailLevels, analyzeShapeForZoom.
  destruct (nth_error (AdvancedSVGData.individualShapes svgData) shapeIndex) as [entry |];
    [| exact I].
  unfold levels. cbn [map]. cbv zeta.
  cbn [DetailLevel.settings levelSettings ZoomAnalysis.optimalSettings
       DetailedShapeSettings.curveSegments DetailedShapeSettings.resolution
       DetailedShapeSettings.steps].
  rewrite !floor_times_one.
  set (steps := Math_max 1 (Math_min 4 (Math_floor (IndividualShape.complexity entry / 50)%num))).
  destruct (plan_steps_whole (IndividualShape.complexity entry / 50)%num)
    as [N | [z [E Hz]]]; fold steps in N || fold steps in E.
  - rewrite N. split; [reflexivity |]. split; [reflexivity |]. split; [reflexivity |].
    repeat (apply Forall_cons; [left; reflexivity |]). apply Forall_nil.
  - rewrite E. split; [reflexivity |]. split; [reflexivity |].
    split.
    + replace (Math_floor (ofZ z)) with (ofZ z)
        by (unfold Math_floor, ofZ; now rewrite Qfloor_Z).
      change 1%num with (ofZ 1). unfold Math_max, ofZ, ltb.
      destruct (Qltb (inject_Z 1) (inject_Z z)) eqn:L; [reflexivity |].
      apply Qltb_ge in L. rewrite <- Zle_Qle in L.
      assert (z = 1%Z) by lia. now subst z.
    + cbn [DetailLevel.settings DetailedShapeSettings.steps].
      apply Forall_cons; [right; apply rung_steps_whole; [exact Hz | lra] |].
      apply Forall_cons; [right; apply rung_steps_whole; [exact Hz | lra] |].
      apply Forall_cons; [right; apply rung_steps_whole; [exact Hz | lra] |].
      apply Forall_cons; [right; apply rung_steps_whole; [exact Hz | lra] |].
      apply Forall_nil.
Qed.

(* ================================================================== *)
(** * enhancedGeometryCreator.ts: the ultra-high settings *)

Lemma clamp_whole (lo hi z : Z) :
  (lo <= hi)%Z ->
  Math_max (ofZ lo) (Math_min (ofZ hi) (ofZ z)) = ofZ (Z.max lo (Z.min hi z)).
Proof.
  intros H. unfold ofZ. cbn [Math_min ltb].
  destruct (Qltb (inject_Z z) (inject_Z hi)) eqn:A.
  - apply Qltb_lt in A. rewrite <- Zlt_Qlt in A.
    cbn [Math_max ltb].
    destruct (Qltb (inject_Z lo) (inject_Z z)) eqn:B.
    + apply Qltb_lt in B. rewrite <- Zlt_Qlt in B. f_equal. f_equal. lia.
    + apply Qltb_ge in B. rewrite <- Zle_Qle in B. f_equal. f_equal. lia.
  - apply Qltb_ge in A. rewrite <- Zle_Qle in A.
    cbn [Math_max ltb].
    destruct (Qltb (inject_Z lo) (inject_Z hi)) eqn:B.
    + f_equal. f_equal. lia.
    + apply Qltb_ge in B. rewrite <- Zle_Qle in B. f_equal. f_equal. lia.
Qed.

Lemma floor_div_whole (c d : Z) :
  (0 < d)%Z -> Math_floor (ofZ c / ofZ d)%num = ofZ (c / d).
Proof.
  intros H. unfold div, ofZ.
  destruct (Qeq_bool (inject_Z d) 0) eqn:E.
  - apply Qeq_bool_iff in E. unfold Qeq in E. cbn in E. lia.
  - unfold fin, Math_floor, ofZ. f_equal. f_equal.
    rewrite Qred_correct. symmetry. apply Zdiv_Qdiv.
Qed.

(** The first clamp of [createUltraHighSegmentGeometry] is a whole number in
    its range, whatever the target and the number of shapes. *)
Lemma ultra_curveSegments_whole (targetVertices : num) (n : nat) :
  targetVertices <> NaN -> n <> 0%nat ->
  exists c : Z,
    Math_max 256 (Math_min 512 (Math_floor (targetVertices / ofNat n / 10)%num)) = ofZ c
    /\ (256 <= c <= 512)%Z.
Proof.
  intros Htv Hn.
  assert (Hd : Qeq_bool (inject_Z (Z.of_nat n)) 0 = false).
  { destruct (Qeq_bool (inject_Z (Z.of_nat n)) 0) eqn:E; [| reflexivity].
    apply Qeq_bool_iff in E. unfold Qeq in E. cbn in E. lia. }
  assert (Hneg : Qltb (inject_Z (Z.of_nat n)) 0 = false).
  { destruct (Qltb (inject_Z (Z.of_nat n)) 0) eqn:E; [| reflexivity].
    apply Qltb_lt in E. change 0%Q with (inject_Z 0) in E.
    rewrite <- Zlt_Qlt in E. lia. }
  destruct targetVertices as [q | | |]; [| | | congruence].
  - unfold div at 2. unfold ofNat, ofZ at 1. rewrite Hd.
    unfold fin, div. change (Qeq_bool 10 0) with false. cbv iota.
    unfold fin, Math_floor.
    change 256%num with (ofZ 256). change 512%num with (ofZ 512).
    rewrite clamp_whole by lia.
    eexists. split; [reflexivity | lia].
  - unfold div at 2. unfold ofNat, ofZ at 1. rewrite Hneg.
    exists 512%Z. split; [reflexivity | lia].
  - unfold div at 2. unfold ofNat, ofZ at 1. rewrite Hneg.
    exists 256%Z. split; [reflexivity | lia].
Qed.

(** X17: The ultra-high geometry is refused for an empty list of shapes, with the
    error of [createExtrudeGeometry], and built for any other.  Whatever the
    target number of vertices, it is built with a whole [curveSegments] in
    256..512, [bevelSegments] a twentieth of it capped at 24, so in 12..24,
    and [steps] a fiftieth of it capped at 8, so in 5..8: the lower bound 4
    of [steps] is never reached.  The geometry gets its normals, tangents
    and bounds computed and is never simplified. *)
Theorem ultra_high_settings_stay_in_range (shapes : list Shape) (targetVertices : num) :
  targetVertices <> NaN ->
  match EnhancedGeometryCreator.createUltraHighSegmentGeometry shapes targetVertices with
  | Throws exception =>
      shapes = [] /\ exception = Error "No shapes provided for geometry creation"
  | Returns geometry =>
      shapes <> []
      /\ ExtrudeGeometry.shapes geometry = shapes
      /\ (exists c b s : Z,
            ExtrudeGeometryOptions.curveSegments (ExtrudeGeometry.options geometry) = ofZ c
            /\ ExtrudeGeometryOptions.bevelSegments (ExtrudeGeometry.options geometry)
               = ofZ b
            /\ ExtrudeGeometryOptions.steps (ExtrudeGeometry.options geometry) = ofZ s
            /\ (256 <= c <= 512)%Z
            /\ b = Z.min 24 (c / 20) /\ (12 <= b <= 24)%Z
            /\ s = Z.min 8 (c / 50) /\ (5 <= s <= 8)%Z)
      /\ ExtrudeGeometry.calls geometry
         = [ExtrudeGeometry.computeVertexNormals; ExtrudeGeometry.computeTangents;
            ExtrudeGeometry.computeBoundingBox; ExtrudeGeometry.computeBoundingSphere]
  end.
Proof.
  intros Htv.
  destruct shapes as [| first rest]; [split; reflexivity |].
  destruct (@ultra_curveSegments_whole targetVertices (List.length (first :: rest)) Htv)
    as [c [Hc Hrange]]; [discriminate |].
  assert (Hb : (12 <= c / 20 /\ 5 <= c / 50)%Z).
  { split; apply Z.div_le_lower_bound; lia. }
  unfold EnhancedGeometryCreator.createUltraHighSegmentGeometry.
  cbv zeta. rewrite Hc.
  change 20%num with (ofZ 20). change 50%num with (ofZ 50).
  rewrite !floor_div_whole by lia.
  change 12%num with (ofZ 12). change 24%num with (ofZ 24).
  change 4%num with (ofZ 4). change 8%num with (ofZ 8).
  rewrite !clamp_whole by lia.
  cbn [EnhancedGeometryCreator.createExtrudeGeometry].
  split; [discriminate |]. split; [reflexivity |].
  split; [| reflexivity].
  exists c, (Z.min 24 (c / 20)), (Z.min 8 (c / 50)).
  cbn.
  repeat (split; [first [reflexivity | f_equal; lia | lia] |]).
  lia.
Qed.

(** One shape and the default target of 50000 vertices: 512, 24 and 8. *)
Lemma ultra_high_settings_example :
  EnhancedGeometryCreator.defaultTargetVertices <> NaN
  /\ match EnhancedGeometryCreator.createUltraHighSegmentGeometry
             [[moveTo 0 0]] EnhancedGeometryCreator.defaultTargetVertices with
     | Throws _ => False
     | Returns geometry =>
         ExtrudeGeometryOptions.curveSegments (ExtrudeGeometry.options geometry) = 512%num
         /\ ExtrudeGeometryOptions.bevelSegments (ExtrudeGeometry.options geometry) = 24%num
         /\ ExtrudeGeometryOptions.steps (ExtrudeGeometry.options geometry) = 8%num
     end.
Proof.
  split; [discriminate |].
  pose proof (@ultra_high_settings_stay_in_range
                [[moveTo 0 0]] EnhancedGeometryCreator.defaultTargetVertices) as H.
  destruct (EnhancedGeometryCreator.createUltraHighSegmentGeometry
              [[moveTo 0 0]] EnhancedGeometryCreator.defaultTargetVertices)
    as [geometry | thrown] eqn:E.
  - vm_compute in E. injection E as E. subst geometry. repeat split.
  - destruct H as [Hempty _]; [discriminate | discriminate Hempty].
Defined.

(* ================================================================== *)
(** * The simple parser and the simple processor *)

Lemma forallb_isStraight_app (a b : Shape) :
  forallb isStraight a = true -> forallb isStraight b = true ->
  forallb isStraight (a ++ b) = true.
Proof. intros Ha Hb. now rewrite forallb_app, Ha, Hb. Qed.

(** The simple parser's [Z]: [closePath] returns on a path with a curve and
    throws on a path without. *)
Lemma simple_parseCommand_close (command : string)
      (locals : SimpleParser.Locals) (path : Shape) :
  isCloseCommand command = true ->
  drawsLine command = false
  /\ SimpleParser.parseCommand command locals path
     = if hasCurve path
       then Returns (SimpleParser.moveCurrent (SimpleParser.startX locals)
                                              (SimpleParser.startY locals) locals,
                     path ++ [closePath])
       else Throws TypeError.
Proof.
  destruct command as [| type rest]; [discriminate |].
  cbn [isCloseCommand SimpleParser.parseCommand drawsLine]. intros Hz.
  unfold SimpleParser.switchCommand, Shape_closePath. cbv zeta.
  repeat match goal with
         | |- context [Ascii.eqb (toLowerCase type) ?c] =>
             destruct (Ascii.eqb (toLowerCase type) c) eqn:?
         end;
    try clash_of_letters; try discriminate Hz.
  split; [reflexivity |]. now destruct (hasCurve path).
Qed.

(** Any other command of the simple parser returns, having appended at most
    one call, no [closePath] and no point of a sampled curve; it has
    appended a line exactly when it draws one. *)
Lemma simple_parseCommand_other (command : string)
      (locals : SimpleParser.Locals) (path : Shape) :
  isCloseCommand command = false ->
  exists next added,
    SimpleParser.parseCommand command locals path = Returns (next, path ++ added)
    /\ (List.length added <= 1)%nat
    /\ closeCount added = 0%nat
    /\ forallb isStraight added = true
    /\ hasCurve added = drawsLine command.
Proof.
  destruct command as [| type rest].
  - intros _. exists locals, []. rewrite app_nil_r. repeat split. cbn. lia.
  - cbn [isCloseCommand SimpleParser.parseCommand drawsLine].
    unfold SimpleParser.switchCommand. cbv zeta.
    repeat match goal with
           | |- context [Ascii.eqb (toLowerCase type) ?c] =>
               destruct (Ascii.eqb (toLowerCase type) c) eqn:?
           end;
      try clash_of_letters; intros Hz; try discriminate Hz;
      repeat match goal with
             | |- context [if (?a <=? ?b)%nat then _ else _] =>
                 destruct (a <=? b)%nat eqn:?
             end;
      unfold Shape_moveTo, Shape_lineTo;
      first [ exists locals, []; rewrite app_nil_r; repeat split; cbn; lia
            | eexists; eexists; split; [reflexivity |]; repeat split; cbn; lia ].
Qed.

(** A run of the simple parser's loop.  It only appends, at most one call
    per command, none of them a point of a sampled curve.  On a path with a
    curve, or once a command has drawn a line, every [Z] closes; otherwise
    the first [Z] throws and the path is left as it is then. *)
Lemma simple_commands_run (commands : list string)
      (state : SimpleParser.Locals * Shape) :
  exists final added,
    snd final = snd state ++ added
    /\ (List.length added <= List.length commands)%nat
    /\ forallb isStraight added = true
    /\ if hasCurve (snd state) || negb (closesBeforeLine commands)
       then forEach (fun command st =>
                       SimpleParser.parseCommand command (fst st) (snd st))
                    commands state
            = (final, None)
            /\ hasCurve (snd final) = true
            /\ closeCount added = List.length (filter isCloseCommand commands)
       else forEach (fun command st =>
                       SimpleParser.parseCommand command (fst st) (snd st))
                    commands state
            = (final, if existsb isCloseCommand commands then Some TypeError else None)
            /\ hasCurve (snd final) = false
            /\ closeCount added = 0%nat.
Proof.
  revert state. induction commands as [| command commands IH]; intros [locals path].
  - exists (locals, path), []. cbn [snd fst forEach closesBeforeLine negb existsb filter
                                     List.length forallb closeCount isClosePath].
    rewrite app_nil_r, orb_false_r.
    split; [reflexivity |]. split; [lia |]. split; [reflexivity |].
    destruct (hasCurve path) eqn:Hc; repeat split; exact Hc.
  - cbn [snd fst forEach closesBeforeLine existsb filter].
    destruct (isCloseCommand command) eqn:Hz.
    + destruct (simple_parseCommand_close command locals path Hz) as [Hd Hstep].
      rewrite Hd, Hstep. cbn [negb orb]. rewrite orb_false_r.
      destruct (hasCurve path) eqn:Hc.
      * destruct (IH (SimpleParser.moveCurrent (SimpleParser.startX locals)
                                                (SimpleParser.startY locals) locals,
                      path ++ [closePath]))
          as [final [added [Hadded [Hlen [Hstraight Hrun]]]]].
        cbn [snd] in Hadded, Hrun. rewrite hasCurve_app, Hc in Hrun. cbn [orb] in Hrun.
        destruct Hrun as [Hrun [Hfinal Hcount]].
        exists final, ([closePath] ++ added).
        split; [rewrite Hadded, <- app_assoc; reflexivity |].
        split; [rewrite length_app; cbn [List.length]; lia |].
        split; [apply forallb_isStraight_app; [reflexivity | exact Hstraight] |].
        split; [exact Hrun |]. split; [exact Hfinal |].
        rewrite closeCount_app, Hcount. reflexivity.
      * exists (locals, path), []. cbn [snd]. rewrite app_nil_r.
        split; [reflexivity |]. split; [cbn; lia |]. split; [reflexivity |].
        repeat split. exact Hc.
    + destruct (simple_parseCommand_other command locals path Hz)
        as [next [first [Hstep [Hone [Hclose [Hs Hcurve]]]]]].
      rewrite Hstep.
      destruct (IH (next, path ++ first))
        as [final [added [Hadded [Hlen [Hstraight Hrun]]]]].
      cbn [snd] in Hadded, Hrun. rewrite hasCurve_app, Hcurve in Hrun.
      exists final, (first ++ added).
      split; [rewrite Hadded, <- app_assoc; reflexivity |].
      split; [rewrite length_app; cbn [List.length]; lia |].
      split; [now apply forallb_isStraight_app |].
      rewrite closeCount_app, Hclose. cbn [Nat.add orb].
      destruct (drawsLine command); cbn [negb];
        [rewrite orb_true_r in *; exact Hrun |].
      rewrite orb_false_r in Hrun. exact Hrun.
Qed.

(** A call of [parseSVGPath], on the start values of its locals. *)
Lemma parseSVGPath_run (pathData : string) (path : Shape) :
  let commands := matchCommands pathData in
  let closes := List.length (filter isCloseCommand commands) in
  exists added,
    fst (SimpleParser.parseSVGPath pathData path) = path ++ added
    /\ (List.length added <= List.length commands + 1)%nat
    /\ forallb isStraight added = true
    /\ if hasCurve path || negb (closesBeforeLine commands)
       then snd (SimpleParser.parseSVGPath pathData path) = None
            /\ closeCount added = (if (closes =? 0)%nat then 1 else closes)%nat
       else snd (SimpleParser.parseSVGPath pathData path) = Some TypeError
            /\ closeCount added = 0%nat
            /\ hasCurve (path ++ added) = false.
Proof.
  cbv zeta. unfold SimpleParser.parseSVGPath. cbv zeta.
  pose proof (includes_close_letter pathData) as Hz.
  rewrite <- negb_orb, Hz. clear Hz.
  destruct (simple_commands_run (matchCommands pathData)
              ({| SimpleParser.currentX := 0; SimpleParser.currentY := 0;
                  SimpleParser.startX := 0; SimpleParser.startY := 0 |}, path))
    as [[locals drawn] [added [Hadded [Hlen [Hstraight Hrun]]]]].
  cbn [fst snd] in *. subst drawn. rewrite existsb_filter_length in *.
  destruct (hasCurve path || negb (closesBeforeLine (matchCommands pathData))).
  - destruct Hrun as [Hrun [Hcurve Hcount]]. rewrite Hrun.
    destruct (List.length (filter isCloseCommand (matchCommands pathData)) =? 0)%nat eqn:E;
      cbn [negb].
    + unfold Shape_closePath. rewrite Hcurve. cbn [fst snd].
      exists (added ++ [closePath]).
      split; [now rewrite app_assoc |].
      split; [rewrite length_app; cbn [List.length]; lia |].
      split; [now apply forallb_isStraight_app |].
      split; [reflexivity |].
      apply Nat.eqb_eq in E. rewrite closeCount_app, Hcount, E. reflexivity.
    + cbn [fst snd]. exists added.
      split; [reflexivity |]. split; [lia |]. split; [exact Hstraight |].
      split; [reflexivity | exact Hcount].
  - destruct Hrun as [Hrun [Hcurve Hcount]]. rewrite Hrun.
    destruct (List.length (filter isCloseCommand (matchCommands pathData)) =? 0)%nat;
      cbn [negb].
    + unfold Shape_closePath. rewrite Hcurve. cbn [fst snd]. exists added.
      split; [reflexivity |]. split; [lia |]. split; [exact Hstraight |].
      repeat split; assumption.
    + cbn [fst snd]. exists added.
      split; [reflexivity |]. split; [lia |]. split; [exact Hstraight |].
      repeat split; assumption.
Qed.

(** X18: The simple parser returns exactly when the path it is given has a
    curve already or a command draws a line before the path is closed; the
    path has then been closed once per [Z] or [z] command, or once at the
    end when the path data has none.  Otherwise it throws the [TypeError]
    of [closePath] on a path without a curve, and the path has gained no
    [closePath]. *)
Theorem parseSVGPath_closes_once_per_Z (pathData : string) (path : Shape) :
  let commands := matchCommands pathData in
  let closes := List.length (filter isCloseCommand commands) in
  match SimpleParser.parseSVGPath pathData path with
  | (drawn, None) =>
      hasCurve path || negb (closesBeforeLine commands) = true
      /\ closeCount drawn
         = (closeCount path + if (closes =? 0)%nat then 1 else closes)%nat
  | (drawn, Some exception) =>
      hasCurve path = false
      /\ closesBeforeLine commands = true
      /\ exception = TypeError
      /\ closeCount drawn = closeCount path
      /\ hasCurve drawn = false
  end.
Proof.
  cbv zeta.
  destruct (parseSVGPath_run pathData path) as [added [Hadded [_ [_ Hrun]]]].
  cbv zeta in Hrun.
  destruct (SimpleParser.parseSVGPath pathData path) as [drawn thrown].
  cbn [fst snd] in *. subst drawn.
  destruct (hasCurve path || negb (closesBeforeLine (matchCommands pathData))) eqn:C.
  - destruct Hrun as [-> Hcount]. split; [reflexivity |].
    now rewrite closeCount_app, Hcount.
  - destruct Hrun as [-> [Hcount Hcurve]].
    apply orb_false_elim in C. destruct C as [Hc Hb].
    apply negb_false_iff in Hb.
    split; [exact Hc |]. split; [exact Hb |]. split; [reflexivity |].
    split; [rewrite closeCount_app, Hcount; lia | exact Hcurve].
Qed.

(** A path the simple parser returns from is closed. *)
Lemma parseSVGPath_is_closed (pathData : string) (path drawn : Shape) :
  SimpleParser.parseSVGPath pathData path = (drawn, None) ->
  (1 <= closeCount drawn)%nat.
Proof.
  intros E.
  destruct (parseSVGPath_run pathData path) as [added [Hadded [_ [_ Hrun]]]].
  cbv zeta in Hrun. rewrite E in *. cbn [fst snd] in *. subst drawn.
  destruct (hasCurve path || negb (closesBeforeLine (matchCommands pathData)));
    [| destruct Hrun as [Hrun _]; discriminate Hrun].
  destruct Hrun as [_ Hcount]. rewrite closeCount_app, Hcount.
  destruct (List.length (filter isCloseCommand (matchCommands pathData)) =? 0)%nat eqn:Z;
    [lia |].
  apply Nat.eqb_neq in Z. lia.
Qed.

(** X19: The simple parser only appends to the path it is given, at most one call
    per command and one closing call, and every call is a move, a straight
    line to two numbers or a close: a curve command is never sampled.  This
    holds of the path whether the parser returns or throws. *)
Theorem parseSVGPath_appends_straight_segments (pathData : string) (path : Shape) :
  exists added : Shape,
    fst (SimpleParser.parseSVGPath pathData path) = path ++ added
    /\ (List.length added <= List.length (matchCommands pathData) + 1)%nat
    /\ forallb isStraight added = true.
Proof.
  destruct (parseSVGPath_run pathData path) as [added [Hadded [Hlen [Hstraight _]]]].
  exists added. repeat split; assumption.
Qed.

(** ** [processSVGPaths] and [processSVGFile] *)

(** The square of side 20, call by call. *)
Lemma createFallbackGeometry_calls :
  SimpleProcessor.createFallbackGeometry
  = [moveTo (-10) (-10); lineTo (XY 10 (-10)); lineTo (XY 10 10);
     lineTo (XY (-10) 10); closePath].
Proof. reflexivity. Qed.

(** The square of side 16 is drawn after the calls the path has received,
    and closed. *)
Lemma simpleSquare_calls (newPath : Shape) :
  SimpleProcessor.simpleSquare newPath
  = newPath ++ [moveTo (-8) (-8); lineTo (XY 8 (-8)); lineTo (XY 8 8);
                lineTo (XY (-8) 8); closePath].
Proof.
  unfold SimpleProcessor.simpleSquare, Shape_closePath, Shape_lineTo, Shape_moveTo.
  cbv zeta. rewrite !hasCurve_app. cbn [hasCurve existsb addsCurve orb].
  rewrite orb_true_r. now rewrite <- !app_assoc.
Qed.

Lemma closeCount_simpleSquare (newPath : Shape) :
  (1 <= closeCount (SimpleProcessor.simpleSquare newPath))%nat.
Proof. rewrite simpleSquare_calls, closeCount_app. cbn. lia. Qed.

(** A path of the result is the loader's own path, which has points, or a
    path built here, which is closed. *)
Lemma processSVGPath_closed_or_passed (svgPath : LoaderPath) :
  (exists o points,
      svgPath = Object o /\ getPoints o = Some (Returns points)
      /\ points <> [] /\ SimpleProcessor.processSVGPath svgPath = self o)
  \/ (1 <= closeCount (SimpleProcessor.processSVGPath svgPath))%nat.
Proof.
  destruct svgPath as [| | o];
    [right; cbn; lia | right; apply closeCount_simpleSquare |].
  unfold SimpleProcessor.processSVGPath.
  destruct (getPoints o) as [[points | thrown] |] eqn:G.
  - destruct points as [| p points].
    + right. cbn. lia.
    + left. exists o, (p :: points). repeat split; [assumption | discriminate].
  - right. cbn. lia.
  - right.
    destruct (userData o) as [data |]; [| apply closeCount_simpleSquare].
    destruct (node data) as [n |]; [| apply closeCount_simpleSquare].
    destruct (getAttribute n) as [get |]; [| apply closeCount_simpleSquare].
    destruct (get "d") as [pathData |]; [| apply closeCount_simpleSquare].
    destruct (String.eqb pathData ""); [apply closeCount_simpleSquare |].
    destruct (SimpleParser.parseSVGPath pathData new_Shape) as [drawn [thrown |]] eqn:E;
      [apply closeCount_simpleSquare |].
    exact (parseSVGPath_is_closed _ _ E).
Qed.

(** X20: The simple processor fails only when the file cannot be read.  Once
    the file is read it succeeds with the text read and at least one path,
    one per path of the loader when it found any.  Each is a path of the
    loader that has points, or a path drawn here and closed: the parsed
    outline, the square of side 16, drawn also when the parser throws, on
    the path as the parser left it, or the square of side 20. *)
Theorem simple_processing_yields_closed_paths (file : SimpleProcessor.FileEvent) :
  match textOf file with
  | None =>
      SimpleProcessor.processSVGFile file
      = {| SimpleProcessor.success := false;
           SimpleProcessor.data := None;
           SimpleProcessor.error := Some "Failed to read file" |}
  | Some text =>
      exists paths : list Shape,
        SimpleProcessor.processSVGFile file
        = {| SimpleProcessor.success := true;
             SimpleProcessor.data :=
               Some {| SimpleProcessor.paths := paths;
                       SimpleProcessor.svgString := text |};
             SimpleProcessor.error := None |}
        /\ List.length paths = Nat.max 1 (List.length (loadedPaths file))
        /\ Forall (fun path =>
                     (1 <= closeCount path)%nat
                     \/ exists o points,
                          In (Object o) (loadedPaths file)
                          /\ getPoints o = Some (Returns points)
                          /\ points <> [] /\ path = self o)
                  paths
  end.
Proof.
  destruct file as [| text | text [[| svgPath svgPaths] |]]; cbn [textOf];
    [reflexivity | | | |];
    try (exists [SimpleProcessor.createFallbackGeometry];
         split; [reflexivity |]; split; [reflexivity |];
         apply Forall_cons; [left; cbn; lia | apply Forall_nil]).
  exists (SimpleProcessor.processSVGPaths (svgPath :: svgPaths)).
  split; [reflexivity |].
  split; [unfold SimpleProcessor.processSVGPaths; rewrite length_map; cbn; lia |].
  unfold SimpleProcessor.processSVGPaths, loadedPaths.
  apply Forall_forall. intros path Hin. apply in_map_iff in Hin.
  destruct Hin as [input [Hpath Hin]]. subst path.
  destruct (processSVGPath_closed_or_passed input)
    as [[o [points [Ho [Hg [Hp Hself]]]]] | Hclosed]; [| now left].
  right. exists o, points. subst input. repeat split; assumption.
Qed.

(** A file with four paths: a curve to parse, a path of the loader's, an
    element without path data, and a move without a segment.  The curve
    becomes a straight line to its first control point, the loader's path is
    passed on, the third is the square; on the fourth the parser throws, and
    the square follows the move on the same path. *)
Example simple_processing_of_four_paths :
  SimpleProcessor.processSVGFile
    (SimpleProcessor.Loaded "<svg/>"
       (Some [pathWithData (Some "M0,0 C1,2 3,4 5,6");
              Object {| self := [moveTo 0 0; lineTo (XY 1 1)];
                        getPoints :=
                          Some (Returns [{| x := 0; y := 0 |}; {| x := 1; y := 1 |}]);
                        userData := None |};
              pathWithData None;
              pathWithData (Some "M0,0")]))
  = {| SimpleProcessor.success := true;
       SimpleProcessor.data :=
         Some {| SimpleProcessor.paths :=
                   [ [moveTo 0 0; lineTo (XY 1 2); closePath];
                     [moveTo 0 0; lineTo (XY 1 1)];
                     [moveTo (-8) (-8); lineTo (XY 8 (-8)); lineTo (XY 8 8);
                      lineTo (XY (-8) 8); closePath];
                     [moveTo 0 0;
                      moveTo (-8) (-8); lineTo (XY 8 (-8)); lineTo (XY 8 8);
                      lineTo (XY (-8) 8); closePath] ];
                 SimpleProcessor.svgString := "<svg/>" |};
       SimpleProcessor.error := None |}.
Proof. vm_compute. reflexivity. Qed.

(* ================================================================== *)
(** * Colours and materials *)

Lemma improved_parseColor (s : string) :
  ImprovedSVGProcessor.parseColor s = parseColorWith ImprovedSVGProcessor.namedColors s.
Proof. reflexivity. Qed.

Lemma enhanced_parseColor (s : string) :
  EnhancedGeometryCreator.parseColor s
  = parseColorWith EnhancedGeometryCreator.namedColors s.
Proof. reflexivity. Qed.

(** ** Names *)

Lemma startsWith_lower (s p : string) :
  startsWith s p = true ->
  startsWith (String_toLowerCase s) (String_toLowerCase p) = true.
Proof.
  unfold startsWith. revert s. induction p as [| c p IH]; intros s H.
  - now destruct s.
  - destruct s as [| d s]; [discriminate H |].
    cbn [String.prefix] in H. cbn [String_toLowerCase String.prefix].
    destruct (ascii_dec c d) as [E | E]; [| discriminate H]. subst d.
    destruct (ascii_dec (toLowerCase c) (toLowerCase c)) as [_ | N]; [| congruence].
    now apply IH.
Qed.

(** A string that is a colour name in lower case starts neither with [#] nor
    with [rgb]. *)
Lemma named_is_no_literal (table : list (string * num)) (s : string) (value : num) :
  forallb (fun entry => negb (startsWith (fst entry) "#")
                        && negb (startsWith (fst entry) "rgb")) table = true ->
  In (String_toLowerCase s, value) table ->
  startsWith s "#" = false /\ startsWith s "rgb" = false.
Proof.
  intros Htable Hin.
  rewrite forallb_forall in Htable. specialize (Htable _ Hin).
  cbn [fst] in Htable. apply andb_prop in Htable. destruct Htable as [H1 H2].
  apply negb_true_iff in H1, H2.
  split.
  - destruct (startsWith s "#") eqn:E; [| reflexivity].
    apply startsWith_lower in E. change (String_toLowerCase "#") with "#" in E.
    congruence.
  - destruct (startsWith s "rgb") eqn:E; [| reflexivity].
    apply startsWith_lower in E. change (String_toLowerCase "rgb") with "rgb" in E.
    congruence.
Qed.

Lemma named_colour (table : list (string * num)) (s : string) (value : num) :
  forallb (fun entry => negb (startsWith (fst entry) "#")
                        && negb (startsWith (fst entry) "rgb")) table = true ->
  In (String_toLowerCase s, value) table ->
  getProperty table (String_toLowerCase s) = Num value ->
  parseColorWith table s = Num (if truthyNum value then value else 0x666666%num).
Proof.
  intros Htable Hin Hget.
  destruct (@named_is_no_literal table s value Htable Hin) as [H1 H2].
  unfold parseColorWith. rewrite H1, H2. cbv zeta. rewrite Hget.
  unfold orElse. cbn [truthy]. now destruct (truthyNum value).
Qed.

(** X21: A colour name is looked up whatever the case of its letters, and gives
    the number of the table, except [black]: its number 0 is taken for a
    missing entry, and the grey 0x666666 is returned. *)
Theorem colour_names_ignore_case_and_black_is_grey (s : string) (value : num) :
  (In (String_toLowerCase s, value) ImprovedSVGProcessor.namedColors ->
   ImprovedSVGProcessor.parseColor s
   = Num (if truthyNum value then value else 0x666666%num))
  /\ (In (String_toLowerCase s, value) EnhancedGeometryCreator.namedColors ->
      EnhancedGeometryCreator.parseColor s
      = Num (if truthyNum value then value else 0x666666%num)).
Proof.
  split; intros Hin.
  - rewrite improved_parseColor.
    apply named_colour; [reflexivity | exact Hin |].
    cbn [ImprovedSVGProcessor.namedColors In] in Hin.
    repeat (destruct Hin as [Hin | Hin];
            [injection Hin as Hname Hvalue; rewrite <- Hname, <- Hvalue; reflexivity |]).
    destruct Hin.
  - rewrite enhanced_parseColor.
    apply named_colour; [reflexivity | exact Hin |].
    cbn [EnhancedGeometryCreator.namedColors In] in Hin.
    repeat (destruct Hin as [Hin | Hin];
            [injection Hin as Hname Hvalue; rewrite <- Hname, <- Hvalue; reflexivity |]).
    destruct Hin.
Qed.

(** [BLACK] in both tables, [Magenta] in the longer one. *)
Lemma colour_names_ignore_case_example :
  (In (String_toLowerCase "BLACK", 0%num) ImprovedSVGProcessor.namedColors
   /\ In (String_toLowerCase "Magenta", 0xff00ff%num) EnhancedGeometryCreator.namedColors)
  /\ ImprovedSVGProcessor.parseColor "BLACK" = Num 0x666666
  /\ EnhancedGeometryCreator.parseColor "Magenta" = Num 0xff00ff.
Proof.
  assert (H1 : In (String_toLowerCase "BLACK", 0%num) ImprovedSVGProcessor.namedColors)
    by (vm_compute; tauto).
  assert (H2 : In (String_toLowerCase "Magenta", 0xff00ff%num)
                  EnhancedGeometryCreator.namedColors)
    by (vm_compute; tauto).
  split; [split; assumption |].
  split.
  - exact (proj1 (colour_names_ignore_case_and_black_is_grey "BLACK" 0) H1).
  - exact (proj2 (colour_names_ignore_case_and_black_is_grey "Magenta" 0xff00ff) H2).
Defined.

(** ** [rgb(r, g, b)] *)

Lemma append_assoc (a b c : string) :
  String.append (String.append a b) c = String.append a (String.append b c).
Proof. induction a as [| x a IH]; [reflexivity |]. cbn [String.append]. now rewrite IH. Qed.

(** Scanning a string that does not start with a digit leaves no run open. *)
Lemma digitRuns_startsWithoutDigit (s : string) :
  startsWithoutDigit s = true ->
  digitRuns s = (EmptyString, matchDigits s).
Proof.
  destruct s as [| c rest]; [reflexivity |].
  cbn [startsWithoutDigit]. intros H. apply negb_true_iff in H.
  unfold matchDigits. cbn [digitRuns].
  destruct (digitRuns rest) as [run runs]. rewrite H. reflexivity.
Qed.

Lemma matchDigits_digitFree (free rest : string) :
  digitFree free = true ->
  matchDigits (String.append free rest) = matchDigits rest.
Proof.
  unfold digitFree. induction free as [| c free IH]; intros H; [reflexivity |].
  cbn [list_ascii_of_string forallb] in H. apply andb_prop in H. destruct H as [Hc Hfree].
  apply negb_true_iff in Hc.
  cbn [String.append]. unfold matchDigits at 1. cbn [digitRuns].
  specialize (IH Hfree). unfold matchDigits at 1 in IH.
  destruct (digitRuns (String.append free rest)) as [run runs].
  rewrite Hc. exact IH.
Qed.

Lemma matchDigits_number (number rest : string) :
  allDigits number = true -> number <> EmptyString ->
  startsWithoutDigit rest = true ->
  matchDigits (String.append number rest) = number :: matchDigits rest.
Proof.
  intros Hnumber Hne Hrest.
  assert (H : digitRuns (String.append number rest) = (number, matchDigits rest)).
  { clear Hne. unfold allDigits in Hnumber.
    induction number as [| c number IH].
    - cbn [String.append]. now apply digitRuns_startsWithoutDigit.
    - cbn [list_ascii_of_string forallb] in Hnumber.
      apply andb_prop in Hnumber. destruct Hnumber as [Hc Hnumber].
      cbn [String.append digitRuns]. rewrite (IH Hnumber), Hc. reflexivity. }
  unfold matchDigits at 1. rewrite H.
  destruct number; [congruence | reflexivity].
Qed.

(** A separator starts without a digit. *)
Lemma digitFree_startsWithoutDigit (free rest : string) :
  digitFree free = true -> free <> EmptyString ->
  startsWithoutDigit (String.append free rest) = true.
Proof.
  destruct free as [| c free]; [congruence |].
  unfold digitFree. cbn [list_ascii_of_string forallb String.append startsWithoutDigit].
  intros H _. now apply andb_prop in H.
Qed.

(** What is known of the decimal digits of a channel: they are digits, at
    least one, and [parseInt] reads the channel back. *)
Lemma channel_digits (n : nat) :
  isChannel n = true ->
  allDigits (decimal n) = true
  /\ decimal n <> EmptyString
  /\ parseInt (decimal n) 0 = ofNat n.
Proof.
  intros H. unfold isChannel in H. apply Nat.leb_le in H.
  assert (Hin : In n (seq 0 256)) by (apply in_seq; lia).
  clear H. revert n Hin.
  apply (proj1 (Forall_forall
                  (fun n => allDigits (decimal n) = true
                            /\ decimal n <> EmptyString
                            /\ parseInt (decimal n) 0 = ofNat n)
                  (seq 0 256))).
  cbn [seq].
  repeat (apply Forall_cons;
          [split; [vm_compute; reflexivity |];
           split; [discriminate | vm_compute; reflexivity] |]).
  apply Forall_nil.
Qed.

Lemma wrap32_small (z : Z) : (0 <= z < 2 ^ 31)%Z -> wrap32 z = z.
Proof.
  intros H. unfold wrap32. rewrite Z.mod_small; lia.
Qed.

Lemma ToInt32_small (z : Z) : (0 <= z < 2 ^ 31)%Z -> ToInt32 (ofZ z) = z.
Proof.
  intros H. unfold ToInt32, ofZ, inject_Z. cbn [Qnum Qden].
  rewrite Z.quot_1_r. now apply wrap32_small.
Qed.

Lemma lor_disjoint (a low k : Z) :
  (0 <= k)%Z -> (0 <= low < 2 ^ k)%Z ->
  Z.lor (Z.shiftl a k) low = (a * 2 ^ k + low)%Z.
Proof.
  intros Hk Hlow.
  rewrite Z.shiftl_mul_pow2 by assumption.
  assert (Hland : Z.land (a * 2 ^ k) low = 0%Z).
  { apply Z.bits_inj'. intros n Hn.
    rewrite Z.land_spec, Z.bits_0.
    destruct (Z.lt_ge_cases n k) as [Hlt | Hge].
    - rewrite Z.mul_pow2_bits_low by lia. reflexivity.
    - rewrite <- (Z.mod_small low (2 ^ k)) by assumption.
      rewrite Z.mod_pow2_bits_high by lia. apply andb_false_r. }
  rewrite <- Z.add_lor_land, Hland. lia.
Qed.

(** Three channels in 0..255 are packed as [65536 r + 256 g + b]. *)
Lemma pack_channels (r g b : nat) :
  isChannel r = true -> isChannel g = true -> isChannel b = true ->
  bitOr (bitOr (shiftLeft (ofNat r) 16) (shiftLeft (ofNat g) 8)) (ofNat b)
  = ofZ (65536 * Z.of_nat r + 256 * Z.of_nat g + Z.of_nat b).
Proof.
  unfold isChannel. intros Hr Hg Hb. apply Nat.leb_le in Hr, Hg, Hb.
  assert (P31 : (2 ^ 31 = 2147483648)%Z) by reflexivity.
  assert (P16 : (2 ^ 16 = 65536)%Z) by reflexivity.
  assert (P8 : (2 ^ 8 = 256)%Z) by reflexivity.
  unfold shiftLeft, ofNat.
  change (16 mod 32)%Z with 16%Z. change (8 mod 32)%Z with 8%Z.
  rewrite !ToInt32_small by lia.
  rewrite (Z.shiftl_mul_pow2 (Z.of_nat g) 8) by lia.
  rewrite (Z.shiftl_mul_pow2 (Z.of_nat r) 16) by lia.
  rewrite !wrap32_small by lia.
  unfold bitOr at 2. rewrite !ToInt32_small by lia.
  rewrite <- (Z.shiftl_mul_pow2 (Z.of_nat r) 16) by lia.
  rewrite lor_disjoint by lia.
  unfold bitOr. rewrite !ToInt32_small by lia.
  replace (Z.of_nat r * 2 ^ 16 + Z.of_nat g * 2 ^ 8)%Z
    with (Z.shiftl (Z.of_nat r * 2 ^ 8 + Z.of_nat g) 8)
    by (rewrite Z.shiftl_mul_pow2 by lia; lia).
  rewrite lor_disjoint by lia.
  f_equal. lia.
Qed.

Lemma startsWith_rgb (rest : string) :
  startsWith (String.append "rgb" rest) "#" = false
  /\ startsWith (String.append "rgb" rest) "rgb" = true.
Proof. split; [reflexivity |]. unfold startsWith. cbn. now destruct rest. Qed.

Lemma parseColorWith_rgb (table : list (string * num))
      (open sep1 sep2 rest : string) (r g b : nat) :
  isChannel r = true -> isChannel g = true -> isChannel b = true ->
  digitFree open = true ->
  digitFree sep1 = true -> sep1 <> EmptyString ->
  digitFree sep2 = true -> sep2 <> EmptyString ->
  startsWithoutDigit rest = true ->
  parseColorWith table
    (String.append "rgb"
       (String.append open
          (String.append (decimal r)
             (String.append sep1
                (String.append (decimal g)
                   (String.append sep2
                      (String.append (decimal b) rest)))))))
  = Num (ofZ (65536 * Z.of_nat r + 256 * Z.of_nat g + Z.of_nat b)).
Proof.
  intros Hr Hg Hb Hopen Hsep1 Hne1 Hsep2 Hne2 Hrest.
  destruct (@channel_digits r Hr) as [Dr [Nr Pr]].
  destruct (@channel_digits g Hg) as [Dg [Ng Pg]].
  destruct (@channel_digits b Hb) as [Db [Nb Pb]].
  unfold parseColorWith.
  destruct (startsWith_rgb
              (String.append open
                 (String.append (decimal r)
                    (String.append sep1
                       (String.append (decimal g)
                          (String.append sep2
                             (String.append (decimal b) rest)))))))
    as [H1 H2].
  rewrite H1, H2. cbv zeta.
  rewrite (@matchDigits_digitFree "rgb") by reflexivity.
  rewrite matchDigits_digitFree by assumption.
  rewrite matchDigits_number;
    [| assumption | assumption | now apply digitFree_startsWithoutDigit].
  rewrite matchDigits_digitFree by assumption.
  rewrite matchDigits_number;
    [| assumption | assumption | now apply digitFree_startsWithoutDigit].
  rewrite matchDigits_digitFree by assumption.
  rewrite matchDigits_number by assumption.
  rewrite Pr, Pg, Pb. f_equal. now apply pack_channels.
Qed.

(** X22: A colour written [rgb], then the three channels in decimal, each in
    0..255 and set apart by anything without a digit, is the number
    [65536 r + 256 g + b]; what follows the third channel, such as the alpha
    of [rgba], is not read. *)
Theorem rgb_channels_are_packed
        (open sep1 sep2 rest : string) (r g b : nat) :
  isChannel r = true -> isChannel g = true -> isChannel b = true ->
  digitFree open = true ->
  digitFree sep1 = true -> sep1 <> EmptyString ->
  digitFree sep2 = true -> sep2 <> EmptyString ->
  startsWithoutDigit rest = true ->
  let text :=
    String.append "rgb"
      (String.append open
         (String.append (decimal r)
            (String.append sep1
               (String.append (decimal g)
                  (String.append sep2
                     (String.append (decimal b) rest)))))) in
  ImprovedSVGProcessor.parseColor text = Num (ofZ (65536 * Z.of_nat r + 256 * Z.of_nat g + Z.of_nat b))
  /\ EnhancedGeometryCreator.parseColor text = Num (ofZ (65536 * Z.of_nat r + 256 * Z.of_nat g + Z.of_nat b)).
Proof.
  intros Hr Hg Hb Hopen Hsep1 Hne1 Hsep2 Hne2 Hrest. cbv zeta.
  rewrite improved_parseColor, enhanced_parseColor.
  split; now apply parseColorWith_rgb.
Qed.

(** [rgb(255, 128, 0)] and [rgba(0,0,255,0.5)]. *)
Lemma rgb_channels_are_packed_example :
  ImprovedSVGProcessor.parseColor "rgb(255, 128, 0)" = Num 0xff8000
  /\ EnhancedGeometryCreator.parseColor "rgba(0,0,255,0.5)" = Num 0x0000ff.
Proof.
  split.
  - apply (@rgb_channels_are_packed "(" ", " ", " ")" 255 128 0);
      first [reflexivity | discriminate].
  - apply (@rgb_channels_are_packed "a(" "," "," ",0.5)" 0 0 255);
      first [reflexivity | discriminate].
Defined.

(** ** [#rrggbb] *)

Lemma hex_digit_is_plain (c : ascii) :
  match digitValue 16 c with Some _ => true | None => false end = true ->
  isSpace c = false /\ Ascii.eqb c "-" = false /\ Ascii.eqb c "+" = false
  /\ Ascii.eqb c "x" = false /\ Ascii.eqb c "X" = false.
Proof.
  destruct c as [[] [] [] [] [] [] [] []]; vm_compute; intros H;
    first [discriminate H | repeat split].
Qed.

Lemma hex_digit_range (c : ascii) (d : Z) :
  digitValue 16 c = Some d -> (0 <= d < 16)%Z.
Proof.
  destruct c as [[] [] [] [] [] [] [] []]; vm_compute; intros H;
    first [discriminate H | injection H as H; subst d; split; [discriminate | reflexivity]].
Qed.

Lemma digits_hex (s : string) :
  isHex s = true ->
  forall (acc : Z) (len : nat),
    digits 16 acc len s
    = (fold_left (fun acc c =>
                    (16 * acc + match digitValue 16 c with Some d => d | None => 0 end)%Z)
                 (list_ascii_of_string s) acc,
       (len + String.length s)%nat, EmptyString).
Proof.
  unfold isHex. induction s as [| c s IH]; intros H acc len.
  - cbn. now rewrite Nat.add_0_r.
  - cbn [list_ascii_of_string forallb] in H. apply andb_prop in H.
    destruct H as [Hc Hs].
    cbn [digits list_ascii_of_string fold_left String.length].
    destruct (digitValue 16 c) as [d |]; [| discriminate Hc].
    rewrite (IH Hs). f_equal. f_equal. lia.
Qed.

Lemma hexValue_range (s : string) :
  isHex s = true -> (0 <= hexValue s < 16 ^ Z.of_nat (String.length s))%Z.
Proof.
  unfold isHex, hexValue. intros H.
  assert (G : forall (acc : Z) (k : nat),
             (0 <= acc < 16 ^ Z.of_nat k)%Z ->
             (0 <= fold_left
                     (fun acc c =>
                        (16 * acc
                         + match digitValue 16 c with Some d => d | None => 0 end)%Z)
                     (list_ascii_of_string s) acc
              < 16 ^ Z.of_nat (k + String.length s))%Z).
  { induction s as [| c s IH]; intros acc k Hacc.
    - cbn [list_ascii_of_string fold_left String.length]. now rewrite Nat.add_0_r.
    - cbn [list_ascii_of_string forallb] in H. apply andb_prop in H.
      destruct H as [Hc Hs].
      cbn [list_ascii_of_string fold_left String.length].
      replace (k + S (String.length s))%nat with (S k + String.length s)%nat by lia.
      apply (IH Hs).
      destruct (digitValue 16 c) as [d |] eqn:E; [| discriminate Hc].
      apply hex_digit_range in E.
      rewrite Nat2Z.inj_succ, Z.pow_succ_r by lia. lia. }
  apply (G 0%Z 0%nat). cbn. lia.
Qed.

Lemma parseInt_hex (h : string) :
  isHex h = true -> h <> EmptyString -> parseInt h 16 = ofZ (hexValue h).
Proof.
  intros Hhex Hne.
  pose proof (digits_hex h Hhex 0 0) as Hdigits.
  destruct h as [| c rest]; [congruence |].
  assert (Hc : match digitValue 16 c with Some _ => true | None => false end = true).
  { unfold isHex in Hhex. cbn [list_ascii_of_string forallb] in Hhex.
    now apply andb_prop in Hhex. }
  destruct (hex_digit_is_plain c Hc) as [Hspace [Hminus [Hplus _]]].
  unfold parseInt. cbn [trimStart]. rewrite Hspace, Hminus, Hplus.
  change (negb (16 =? 0)%Z && ((16 <? 2)%Z || (36 <? 16)%Z)) with false.
  change ((16 =? 0)%Z || (16 =? 16)%Z) with true.
  change (if (16 =? 0)%Z then 10%Z else 16%Z) with 16%Z.
  cbv iota zeta.
  assert (Hbody :
            match rest with
            | String x rest' =>
                if true && Ascii.eqb c "0" && (Ascii.eqb x "x" || Ascii.eqb x "X")
                then (16%Z, rest')
                else (16%Z, String c rest)
            | EmptyString => (16%Z, String c rest)
            end = (16%Z, String c rest)).
  { destruct rest as [| x rest']; [reflexivity |].
    assert (Hx : match digitValue 16 x with Some _ => true | None => false end = true).
    { unfold isHex in Hhex. cbn [list_ascii_of_string forallb] in Hhex.
      apply andb_prop in Hhex. destruct Hhex as [_ Hrest].
      now apply andb_prop in Hrest. }
    destruct (hex_digit_is_plain x Hx) as [_ [_ [_ [Hx1 Hx2]]]].
    rewrite Hx1, Hx2, andb_false_r. reflexivity. }
  rewrite Hbody, Hdigits. cbn [Nat.add String.length]. reflexivity.
Qed.

(** X23: A colour written [#] and up to thirteen hexadecimal digits (as many as a
    JavaScript number holds exactly) is the number the digits spell, so below
    16 to the number of digits: six digits give a 24-bit colour, and the
    three digits of the short form [#rgb] are read as they stand, not
    doubled. *)
Theorem hex_colours_are_read_as_written (h : string) :
  isHex h = true -> h <> EmptyString -> (String.length h <= 13)%nat ->
  ImprovedSVGProcessor.parseColor (String "#" h) = Num (ofZ (hexValue h))
  /\ EnhancedGeometryCreator.parseColor (String "#" h) = Num (ofZ (hexValue h))
  /\ (0 <= hexValue h < 16 ^ Z.of_nat (String.length h))%Z.
Proof.
  intros Hhex Hne _.
  rewrite improved_parseColor, enhanced_parseColor. unfold parseColorWith.
  assert (Hstart : startsWith (String "#" h) "#" = true)
    by (unfold startsWith; cbn; now destruct h).
  rewrite Hstart. cbn [slice1]. rewrite (parseInt_hex Hhex Hne).
  split; [reflexivity |]. split; [reflexivity |]. now apply hexValue_range.
Qed.

(** [#FF8000] is 0xff8000, and [#fff] is 0xfff, far from the white 0xffffff. *)
Lemma hex_colours_are_read_as_written_example :
  (ImprovedSVGProcessor.parseColor "#FF8000" = Num 0xff8000
   /\ EnhancedGeometryCreator.parseColor "#FF8000" = Num 0xff8000
   /\ (0 <= hexValue "FF8000" < 16 ^ 6)%Z)
  /\ (ImprovedSVGProcessor.parseColor "#fff" = Num 0xfff
      /\ EnhancedGeometryCreator.parseColor "#fff" = Num 0xfff
      /\ (0 <= hexValue "fff" < 16 ^ 3)%Z).
Proof.
  split.
  - apply (@hex_colours_are_read_as_written "FF8000");
      [reflexivity | discriminate | cbn; lia].
  - apply (@hex_colours_are_read_as_written "fff");
      [reflexivity | discriminate | cbn; lia].
Defined.

(* ================================================================== *)
(** * Materials *)

(** [createMaterial] never passes on a colour that is 0 or not a number,
    nor an opacity that is. *)
Lemma createMaterial_defaults (settings : MaterialSettings.t) :
  truthy (colorOf (EnhancedGeometryCreator.createMaterial settings)) = true
  /\ truthyNum (opacityOf (EnhancedGeometryCreator.createMaterial settings)) = true.
Proof.
  unfold colorOf, opacityOf, EnhancedGeometryCreator.createMaterial. cbv zeta.
  assert (Hc : truthy (orElse (MaterialSettings.color settings) (Num 0x666666)) = true).
  { unfold orElse. destruct (truthy (MaterialSettings.color settings)) eqn:E;
      [exact E | reflexivity]. }
  assert (Ho : truthyNum (orNum (MaterialSettings.opacity settings) 1) = true).
  { unfold orNum. destruct (MaterialSettings.opacity settings) as [n |]; [| reflexivity].
    destruct (truthyNum n) eqn:E; [exact E | reflexivity]. }
  destruct (MaterialSettings.type settings) as [[] |];
    cbn [Material.baseOf Material.color Material.opacity]; split; assumption.
Qed.

(** What [createMaterialForPath] does: it throws a [TypeError] on a
    malformed path and returns what [createMaterial] builds otherwise. *)
Lemma createMaterialForPath_cases (path : LoaderPath)
      (baseSettings : MaterialSettings.t) (index : nat) :
  (isMalformed path = true
   /\ EnhancedGeometryCreator.createMaterialForPath path baseSettings index
      = Throws TypeError)
  \/ (isMalformed path = false
      /\ exists settings : MaterialSettings.t,
          EnhancedGeometryCreator.createMaterialForPath path baseSettings index
          = Returns (EnhancedGeometryCreator.createMaterial settings)).
Proof.
  unfold EnhancedGeometryCreator.createMaterialForPath, userDataNode, isMalformed,
    callGetAttribute.
  destruct path as [| | o].
  - left. split; reflexivity.
  - right. split; [reflexivity |]. cbn [andThen]. eexists. reflexivity.
  - destruct (userData o) as [data |]; [| right; split; [reflexivity |];
                                          cbn [andThen]; eexists; reflexivity].
    destruct (node data) as [n |]; [| right; split; [reflexivity |];
                                      cbn [andThen]; eexists; reflexivity].
    cbn [andThen].
    destruct (getAttribute n) as [get |]; [| left; split; reflexivity].
    right. split; [reflexivity |]. cbn [andThen].
    destruct (paintable (get "fill")); [cbn [andThen]; eexists; reflexivity |].
    destruct (paintable (get "stroke")); cbn [andThen]; eexists; reflexivity.
Qed.

Lemma extractColorFromPath_cases (path : LoaderPath) :
  (isMalformed path = true
   /\ ImprovedSVGProcessor.extractColorFromPath path = Throws TypeError)
  \/ (isMalformed path = false
      /\ exists color : Value,
          ImprovedSVGProcessor.extractColorFromPath path = Returns color).
Proof.
  unfold ImprovedSVGProcessor.extractColorFromPath, userDataNode, isMalformed,
    callGetAttribute.
  destruct path as [| | o].
  - left. split; reflexivity.
  - right. split; [reflexivity |]. cbn [andThen]. eexists. reflexivity.
  - destruct (userData o) as [data |]; [| right; split; [reflexivity |];
                                          cbn [andThen]; eexists; reflexivity].
    destruct (node data) as [n |]; [| right; split; [reflexivity |];
                                      cbn [andThen]; eexists; reflexivity].
    cbn [andThen].
    destruct (getAttribute n) as [get |]; [| left; split; reflexivity].
    right. split; [reflexivity |]. cbn [andThen].
    destruct (paintable (get "fill")); [eexists; reflexivity |].
    destruct (paintable (get "stroke")); eexists; reflexivity.
Qed.

(** The loop of [createAdvancedMaterials]: a [TypeError] when a path is
    malformed, one material of [createMaterial] per path otherwise. *)
Lemma createMaterialsFrom_cases (paths : list LoaderPath)
      (materialSettings : MaterialSettings.t) (i : nat) :
  if existsb isMalformed paths
  then EnhancedGeometryCreator.createMaterialsFrom i paths materialSettings
       = Throws TypeError
  else exists materials : list Material.t,
      EnhancedGeometryCreator.createMaterialsFrom i paths materialSettings
      = Returns materials
      /\ List.length materials = List.length paths
      /\ Forall (fun m => exists settings,
                     m = EnhancedGeometryCreator.createMaterial settings) materials.
Proof.
  revert i. induction paths as [| path paths IH]; intros i.
  - cbn. exists []. repeat split. apply Forall_nil.
  - cbn [existsb EnhancedGeometryCreator.createMaterialsFrom].
    destruct (createMaterialForPath_cases path materialSettings i)
      as [[Hbad Hthrows] | [Hgood [settings Hreturns]]].
    + rewrite Hbad, Hthrows. reflexivity.
    + rewrite Hgood, Hreturns. cbn [orb andThen].
      specialize (IH (S i)).
      destruct (existsb isMalformed paths).
      * rewrite IH. reflexivity.
      * destruct IH as [materials [Hloop [Hlen Hall]]].
        rewrite Hloop. cbn [andThen].
        exists (EnhancedGeometryCreator.createMaterial settings :: materials).
        split; [reflexivity |]. split; [cbn [List.length]; now rewrite Hlen |].
        apply Forall_cons; [now exists settings | assumption].
Qed.

Lemma createMaterialsLoop_cases (paths : list LoaderPath) :
  if existsb isMalformed paths
  then ImprovedSVGProcessor.createMaterialsLoop paths = Throws TypeError
  else exists materials : list ImprovedSVGProcessor.MeshPhongMaterial,
      ImprovedSVGProcessor.createMaterialsLoop paths = Returns materials
      /\ List.length materials = List.length paths.
Proof.
  induction paths as [| path paths IH].
  - cbn. exists []. split; reflexivity.
  - cbn [existsb ImprovedSVGProcessor.createMaterialsLoop].
    destruct (extractColorFromPath_cases path)
      as [[Hbad Hthrows] | [Hgood [color Hreturns]]].
    + rewrite Hbad, Hthrows. reflexivity.
    + rewrite Hgood, Hreturns. cbn [orb andThen].
      destruct (existsb isMalformed paths).
      * rewrite IH. reflexivity.
      * destruct IH as [materials [Hloop Hlen]].
        rewrite Hloop. cbn [andThen]. eexists.
        split; [reflexivity |]. cbn [List.length]. now rewrite Hlen.
Qed.

Lemma createAdvancedMaterials_cases (paths : list LoaderPath)
      (materialSettings : MaterialSettings.t) :
  if existsb isMalformed paths
  then EnhancedGeometryCreator.createAdvancedMaterials paths materialSettings
       = Throws TypeError
  else exists materials : list Material.t,
      EnhancedGeometryCreator.createAdvancedMaterials paths materialSettings
      = Returns materials
      /\ List.length materials = Nat.max 1 (List.length paths)
      /\ Forall (fun m => exists settings,
                     m = EnhancedGeometryCreator.createMaterial settings) materials.
Proof.
  unfold EnhancedGeometryCreator.createAdvancedMaterials.
  pose proof (createMaterialsFrom_cases paths materialSettings 0) as H.
  destruct (existsb isMalformed paths).
  - rewrite H. reflexivity.
  - destruct H as [materials [Hloop [Hlen Hall]]]. rewrite Hloop. cbn [andThen].
    destruct materials as [| m materials].
    + eexists. split; [reflexivity |]. split.
      * cbn [List.length] in *. rewrite <- Hlen. reflexivity.
      * apply Forall_cons; [| apply Forall_nil].
        unfold EnhancedGeometryCreator.createDefaultMaterial. eexists. reflexivity.
    + exists (m :: materials). split; [reflexivity |]. split; [| assumption].
      rewrite <- Hlen. cbn [List.length]. lia.
Qed.

(** X24: The materials are built, one per path or a single default one when there
    is no path, unless a path is malformed: null or undefined, or with a
    node that has no [getAttribute].  Then both material builders throw a
    [TypeError], and nothing in them catches it. *)
Theorem materials_fail_exactly_on_malformed_paths
        (paths : list LoaderPath) (materialSettings : MaterialSettings.t) :
  if existsb isMalformed paths
  then EnhancedGeometryCreator.createAdvancedMaterials paths materialSettings
       = Throws TypeError
       /\ ImprovedSVGProcessor.createMaterials paths = Throws TypeError
  else exists (enhanced : list Material.t)
              (improved : list ImprovedSVGProcessor.MeshPhongMaterial),
      EnhancedGeometryCreator.createAdvancedMaterials paths materialSettings
      = Returns enhanced
      /\ ImprovedSVGProcessor.createMaterials paths = Returns improved
      /\ List.length enhanced = Nat.max 1 (List.length paths)
      /\ List.length improved = Nat.max 1 (List.length paths).
Proof.
  pose proof (createAdvancedMaterials_cases paths materialSettings) as He.
  pose proof (createMaterialsLoop_cases paths) as Hi.
  unfold ImprovedSVGProcessor.createMaterials.
  destruct (existsb isMalformed paths).
  - rewrite He, Hi. split; reflexivity.
  - destruct He as [enhanced [He [Hlen _]]].
    destruct Hi as [improved [Hi Hlen']].
    rewrite Hi. cbn [andThen].
    destruct improved as [| m improved].
    + eexists. eexists. split; [exact He |]. split; [reflexivity |].
      split; [exact Hlen |]. cbn [List.length] in *. rewrite <- Hlen'. reflexivity.
    + exists enhanced, (m :: improved). split; [exact He |]. split; [reflexivity |].
      split; [exact Hlen |]. rewrite <- Hlen'. cbn [List.length]. lia.
Qed.

(** X25: No material of [createAdvancedMaterials] is black or invisible: its
    colour is never 0 nor NaN, and neither is its opacity.  A colour or an
    opacity of 0 that was asked for is replaced. *)
Theorem materials_are_never_black_nor_invisible
        (paths : list LoaderPath) (materialSettings : MaterialSettings.t)
        (materials : list Material.t) :
  EnhancedGeometryCreator.createAdvancedMaterials paths materialSettings
  = Returns materials ->
  materials <> []
  /\ Forall (fun m => truthy (colorOf m) = true /\ truthyNum (opacityOf m) = true)
            materials.
Proof.
  intros H.
  pose proof (createAdvancedMaterials_cases paths materialSettings) as Hcases.
  destruct (existsb isMalformed paths).
  - rewrite Hcases in H. discriminate H.
  - destruct Hcases as [built [Hbuilt [Hlen Hall]]].
    rewrite Hbuilt in H. injection H as H. subst built.
    split.
    + destruct materials; [cbn [List.length] in Hlen; lia | discriminate].
    + eapply Forall_impl; [| exact Hall].
      intros m [settings Hm]. subst m. apply createMaterial_defaults.
Qed.

(** A black fill on a base colour of 0, and no path at all with an opacity
    of 0. *)
Lemma materials_are_never_black_nor_invisible_example :
  let black :=
    MaterialSettings.setColor (Num 0) MaterialSettings.default in
  let invisible :=
    {| MaterialSettings.type := Some MaterialSettings.lambert;
       MaterialSettings.color := Num 0;
       MaterialSettings.metalness := None; MaterialSettings.roughness := None;
       MaterialSettings.emissive := None; MaterialSettings.emissiveIntensity := None;
       MaterialSettings.shininess := None; MaterialSettings.specular := None;
       MaterialSettings.transparent := Some true;
       MaterialSettings.opacity := Some 0%num;
       MaterialSettings.side := None |} in
  match EnhancedGeometryCreator.createAdvancedMaterials
          [paintedPath (Some "#000000") None] black,
        EnhancedGeometryCreator.createAdvancedMaterials [] invisible with
  | Returns first, Returns second =>
      (first <> []
       /\ Forall (fun m => truthy (colorOf m) = true /\ truthyNum (opacityOf m) = true)
                 first)
      /\ (second <> []
          /\ Forall (fun m => truthy (colorOf m) = true /\ truthyNum (opacityOf m) = true)
                    second)
  | _, _ => False
  end.
Proof.
  cbv zeta.
  destruct (EnhancedGeometryCreator.createAdvancedMaterials
              [paintedPath (Some "#000000") None]
              (MaterialSettings.setColor (Num 0) MaterialSettings.default))
    as [first | thrown] eqn:E1; [| vm_compute in E1; discriminate E1].
  match goal with
  | |- match ?call with _ => _ end =>
      destruct call as [second | thrown] eqn:E2; [| vm_compute in E2; discriminate E2]
  end.
  split.
  - exact (materials_are_never_black_nor_invisible _ _ E1).
  - exact (materials_are_never_black_nor_invisible _ _ E2).
Defined.


(** ** The palette *)

(** Every index has a palette colour, and none is 0. *)
Lemma generateColor_truthy (index : nat) :
  exists c : num,
    In c EnhancedGeometryCreator.colors
    /\ EnhancedGeometryCreator.generateColor index = Num c
    /\ truthyNum c = true.
Proof.
  unfold EnhancedGeometryCreator.generateColor.
  assert (Hlt : (index mod List.length EnhancedGeometryCreator.colors
                 < List.length EnhancedGeometryCreator.colors)%nat)
    by (apply Nat.mod_upper_bound; discriminate).
  destruct (nth_error EnhancedGeometryCreator.colors
              (index mod List.length EnhancedGeometryCreator.colors)) as [c |] eqn:E.
  - exists c. apply nth_error_In in E. split; [exact E |]. split; [reflexivity |].
    assert (Hall : Forall (fun c => truthyNum c = true) EnhancedGeometryCreator.colors)
      by (repeat constructor).
    rewrite Forall_forall in Hall. now apply Hall.
  - apply nth_error_None in E. lia.
Qed.

Lemma createMaterial_color (settings : MaterialSettings.t) :
  colorOf (EnhancedGeometryCreator.createMaterial settings)
  = orElse (MaterialSettings.color settings) (Num 0x666666).
Proof.
  unfold colorOf, EnhancedGeometryCreator.createMaterial. cbv zeta.
  destruct (MaterialSettings.type settings) as [[] |]; reflexivity.
Qed.

(** X26: A fill that reads as 0 or as no number, such as [#000000], [rgb(0,0,0)]
    or [#xyz], is replaced by the palette colour of the path's index: the
    material is not black, the stroke is not tried, and the colour of the
    base settings is lost. *)
Theorem falsy_fill_is_replaced_by_the_palette
        (fill stroke : option string) (text : string)
        (baseSettings : MaterialSettings.t) (index : nat) :
  paintable fill = Some text ->
  truthy (EnhancedGeometryCreator.parseColor text) = false ->
  exists (material : Material.t) (c : num),
    EnhancedGeometryCreator.createMaterialForPath
      (paintedPath fill stroke) baseSettings index = Returns material
    /\ colorOf material = Num c
    /\ nth_error EnhancedGeometryCreator.colors (index mod 15) = Some c.
Proof.
  intros Hfill Hfalsy.
  destruct (generateColor_truthy index) as [c [Hin [Hc Htruthy]]].
  unfold EnhancedGeometryCreator.createMaterialForPath, paintedPath, userDataNode,
    callGetAttribute.
  cbn [userData node getAttribute andThen String.eqb Ascii.eqb Bool.eqb].
  rewrite Hfill. cbn [andThen MaterialSettings.setColor MaterialSettings.color].
  rewrite Hfalsy.
  eexists. exists c. split; [reflexivity |].
  rewrite createMaterial_color. cbn [MaterialSettings.setColor MaterialSettings.color].
  rewrite Hc. unfold orElse. cbn [truthy]. rewrite Htruthy.
  split; [reflexivity |].
  unfold EnhancedGeometryCreator.generateColor in Hc.
  change (List.length EnhancedGeometryCreator.colors) with 15%nat in Hc.
  destruct (nth_error EnhancedGeometryCreator.colors (index mod 15)) as [c' |];
    [now injection Hc as -> | discriminate Hc].
Qed.

(** The third path, filled black, stroked red, with blue base settings: the
    third palette colour. *)
Lemma falsy_fill_is_replaced_by_the_palette_example :
  (paintable (Some "#000000") = Some "#000000"
   /\ truthy (EnhancedGeometryCreator.parseColor "#000000") = false)
  /\ exists (material : Material.t) (c : num),
      EnhancedGeometryCreator.createMaterialForPath
        (paintedPath (Some "#000000") (Some "red"))
        (MaterialSettings.setColor (Num 0x0000ff) MaterialSettings.default) 2
      = Returns material
      /\ colorOf material = Num c
      /\ nth_error EnhancedGeometryCreator.colors (2 mod 15) = Some c.
Proof.
  split; [split; reflexivity |].
  apply (@falsy_fill_is_replaced_by_the_palette
           (Some "#000000") (Some "red") "#000000"
           (MaterialSettings.setColor (Num 0x0000ff) MaterialSettings.default) 2);
    reflexivity.
Defined.

(** ** [createMultiMaterialGeometry] *)

Lemma createMaterialsFrom_emptyObjects (n i : nat) (settings : MaterialSettings.t) :
  EnhancedGeometryCreator.createMaterialsFrom i (repeat emptyObject n) settings
  = Returns
      (map (fun k =>
              EnhancedGeometryCreator.createMaterial
                (if truthy (MaterialSettings.color settings)
                 then settings
                 else MaterialSettings.setColor
                        (EnhancedGeometryCreator.generateColor k) settings))
           (seq i n)).
Proof.
  revert i. induction n as [| n IH]; intros i; [reflexivity |].
  cbn [repeat EnhancedGeometryCreator.createMaterialsFrom seq map].
  unfold EnhancedGeometryCreator.createMaterialForPath at 1.
  cbn [emptyObject userDataNode userData andThen].
  rewrite IH. reflexivity.
Qed.

Lemma map_constant_repeat {A B : Type} (b : B) (l : list A) :
  map (fun _ => b) l = repeat b (List.length l).
Proof. induction l as [| a l IH]; [reflexivity |]. cbn. now rewrite IH. Qed.

(** X27: [createMultiMaterialGeometry] refuses an empty list of shapes with the
    error of [createExtrudeGeometry].  For any other it returns the geometry
    of the shapes and one material per shape: all of the colour of the
    settings when it is neither 0 nor missing, and otherwise the palette
    colours in order, repeating after the fifteenth. *)
Theorem multi_material_geometry_cycles_the_palette
        (shapes : list Shape) (extrudeSettings : AdvancedExtrudeSettings.t)
        (materialSettings : MaterialSettings.t) :
  match EnhancedGeometryCreator.createMultiMaterialGeometry
          shapes extrudeSettings materialSettings with
  | Throws exception =>
      shapes = [] /\ exception = Error "No shapes provided for geometry creation"
  | Returns (geometry, materials) =>
      shapes <> []
      /\ ExtrudeGeometry.shapes geometry = shapes
      /\ List.length materials = List.length shapes
      /\ forall (i : nat) (material : Material.t),
          nth_error materials i = Some material ->
          colorOf material
          = if truthy (MaterialSettings.color materialSettings)
            then MaterialSettings.color materialSettings
            else EnhancedGeometryCreator.generateColor i
  end.
Proof.
  unfold EnhancedGeometryCreator.createMultiMaterialGeometry.
  destruct shapes as [| first rest]; [split; reflexivity |].
  cbn [EnhancedGeometryCreator.createExtrudeGeometry andThen].
  unfold EnhancedGeometryCreator.createAdvancedMaterials.
  rewrite map_constant_repeat, createMaterialsFrom_emptyObjects.
  match goal with
  | |- context [map ?g (seq 0 _)] => set (f := g)
  end.
  cbn [List.length]. change (seq 0 (S (List.length rest))) with (0%nat :: seq 1 (List.length rest)).
  cbn [map andThen].
  change (f 0%nat :: map f (seq 1 (List.length rest)))
    with (map f (seq 0 (S (List.length rest)))).
  split; [discriminate |]. split; [reflexivity |].
  split; [now rewrite length_map, length_seq |].
  intros i material Hnth.
  rewrite nth_error_map in Hnth.
  destruct (nth_error (seq 0 (S (List.length rest))) i) as [k |] eqn:E;
    [| discriminate Hnth].
  assert (Hk : k = i).
  { assert (Hlt : (i < List.length (seq 0 (S (List.length rest))))%nat)
      by (apply nth_error_Some; congruence).
    rewrite length_seq in Hlt.
    apply (nth_error_nth _ _ 0%nat) in E. rewrite seq_nth in E by assumption.
    now subst k. }
  subst k. cbn [option_map] in Hnth. injection Hnth as <-.
  subst f. cbv beta.
  rewrite createMaterial_color.
  cbn [MaterialSettings.setType MaterialSettings.color].
  destruct (truthy (MaterialSettings.color materialSettings)) eqn:T.
  - cbn [MaterialSettings.setType MaterialSettings.color]. unfold orElse. now rewrite T.
  - cbn [MaterialSettings.setColor MaterialSettings.color].
    destruct (generateColor_truthy i) as [c [_ [Hc Htruthy]]].
    rewrite Hc. unfold orElse. cbn [truthy]. now rewrite Htruthy.
Qed.

(** ** [enhanceShapeSegments] *)

Lemma vertices_app (a b : Shape) : vertices (a ++ b) = vertices a ++ vertices b.
Proof. unfold vertices. apply flat_map_app. Qed.

Lemma fold_lineTo (points : list Vector2) (shape : Shape) :
  fold_left (fun shape point => Shape_lineTo (x point) (y point) shape) points shape
  = shape ++ map (fun point => lineTo (XY (x point) (y point))) points.
Proof.
  revert shape. induction points as [| p points IH]; intros shape.
  - cbn. now rewrite app_nil_r.
  - cbn [fold_left map]. rewrite IH. unfold Shape_lineTo.
    now rewrite <- app_assoc.
Qed.

Lemma vertices_lines (points : list Vector2) :
  vertices (map (fun point => lineTo (XY (x point) (y point))) points) = points.
Proof.
  induction points as [| [px py] points IH]; [reflexivity |].
  cbn [map]. unfold vertices in *. cbn [flat_map]. cbn [x y app]. now rewrite IH.
Qed.

Lemma closeCount_straight_lines (points : list Vector2) :
  closeCount (map (fun point => lineTo (XY (x point) (y point))) points) = 0%nat.
Proof. induction points as [| p points IH]; [reflexivity | exact IH]. Qed.

Lemma straight_lines (points : list Vector2) :
  forallb isStraight (map (fun point => lineTo (XY (x point) (y point))) points) = true.
Proof. induction points as [| p points IH]; [reflexivity | exact IH]. Qed.

(** X28: The enhanced shape is the polyline of the sampled points: it visits
    them all, in order, and nothing else; it is closed once unless the shape
    it was sampled from closes itself, and when there is no point it stays
    empty.  For a single sampled point of a shape that does not close
    itself there is no enhanced shape: [closePath] finds no segment and the
    method throws a [TypeError]; this is the only case in which it throws. *)
Theorem enhanced_shape_is_the_sampled_polyline (points : list Vector2) (autoClose : bool) :
  match ImprovedSVGProcessor.enhanceShapeSegments points autoClose with
  | Returns enhanced =>
      (autoClose = true \/ List.length points <> 1%nat)
      /\ vertices enhanced = points
      /\ forallb isStraight enhanced = true
      /\ closeCount enhanced
         = (if autoClose || (List.length points =? 0)%nat then 0 else 1)%nat
      /\ List.length enhanced = (List.length points + closeCount enhanced)%nat
  | Throws exception =>
      exception = TypeError /\ autoClose = false /\ List.length points = 1%nat
  end.
Proof.
  unfold ImprovedSVGProcessor.enhanceShapeSegments.
  destruct points as [| [px py] points].
  - rewrite orb_true_r. repeat split. right. discriminate.
  - cbv zeta. cbn [tl x y List.length Nat.eqb]. rewrite orb_false_r.
    rewrite fold_lineTo. unfold Shape_moveTo, new_Shape. cbn [app].
    assert (Hv : vertices (moveTo px py
                           :: map (fun point => lineTo (XY (x point) (y point))) points)
                 = {| x := px; y := py |} :: points).
    { change (vertices ([moveTo px py]
                        ++ map (fun point => lineTo (XY (x point) (y point))) points)
              = {| x := px; y := py |} :: points).
      rewrite vertices_app, vertices_lines. reflexivity. }
    assert (Hc : closeCount
                   (moveTo px py
                    :: map (fun point => lineTo (XY (x point) (y point))) points) = 0%nat).
    { change (closeCount ([moveTo px py]
                          ++ map (fun point => lineTo (XY (x point) (y point))) points)
              = 0%nat).
      rewrite closeCount_app, closeCount_straight_lines. reflexivity. }
    assert (Hs : forallb isStraight
                   (moveTo px py
                    :: map (fun point => lineTo (XY (x point) (y point))) points) = true).
    { cbn [forallb isStraight]. now rewrite straight_lines. }
    destruct autoClose; cbn [negb orb].
    + split; [now left |]. split; [exact Hv |]. split; [exact Hs |].
      rewrite Hc. split; [reflexivity |].
      cbn [List.length]. rewrite length_map. lia.
    + unfold Shape_closePath. cbn [hasCurve existsb addsCurve orb].
      destruct points as [| p points]; cbn [map existsb addsCurve].
      * repeat split.
      * split; [right; cbn [List.length]; lia |].
        split.
        { change (vertices ((moveTo px py
                             :: map (fun point => lineTo (XY (x point) (y point)))
                                    (p :: points))
                            ++ [closePath])
                  = {| x := px; y := py |} :: p :: points).
          rewrite vertices_app, Hv. cbn. now rewrite app_nil_r. }
        split.
        { change (forallb isStraight
                    ((moveTo px py
                      :: map (fun point => lineTo (XY (x point) (y point))) (p :: points))
                     ++ [closePath]) = true).
          rewrite forallb_app, Hs. reflexivity. }
        assert (Hc1 : closeCount
                        ((moveTo px py
                          :: map (fun point => lineTo (XY (x point) (y point)))
                                 (p :: points))
                         ++ [closePath]) = 1%nat).
        { rewrite closeCount_app, Hc. reflexivity. }
        change (closeCount
                  (moveTo px py
                   :: (lineTo (XY (x p) (y p))
                       :: map (fun point => lineTo (XY (x point) (y point))) points)
                      ++ [closePath])
                = 1%nat
                /\ List.length
                     (moveTo px py
                      :: (lineTo (XY (x p) (y p))
                          :: map (fun point => lineTo (XY (x point) (y point))) points)
                         ++ [closePath])
                   = (S (S (List.length points))
                      + closeCount
                          (moveTo px py
                           :: (lineTo (XY (x p) (y p))
                               :: map (fun point => lineTo (XY (x point) (y point)))
                                      points)
                              ++ [closePath]))%nat).
        change (moveTo px py
                :: (lineTo (XY (x p) (y p))
                    :: map (fun point => lineTo (XY (x point) (y point))) points)
                   ++ [closePath])
          with ((moveTo px py
                 :: map (fun point => lineTo (XY (x point) (y point))) (p :: points))
                ++ [closePath]).
        rewrite Hc1. split; [reflexivity |].
        rewrite length_app. cbn [List.length map]. rewrite length_map. lia.
Qed.
